(** * The chat-request router of [app.py]: a shallow embedding

    The handlers of [app.py] are translated into functions of a small
    effect monad: every call to an external collaborator (directory
    service, completion service, weather provider, document store,
    logging sink) is answered by an oracle of the environment and
    recorded in a trace, and a Python exception is an outcome of its
    own.  The statements at the end of the file are about these
    translations. *)

From Stdlib Require Import List String Ascii Bool Arith ZArith Lia.
From Stdlib Require Import DecimalString.
Import ListNotations.
Open Scope string_scope.

Set Implicit Arguments.
Set Warnings "-register-all".

(** ** Python strings

    A [str] is a sequence of code points.  It is modelled by its UTF-8
    encoding, one [ascii] per byte (a lone surrogate by the three
    bytes of its number).  Concatenation, comparison, substring search
    and [split] of strings are those of their encodings; the case
    mapping, the whitespace class and the length are those of the code
    points, read off the encoding. *)

Module PyStr.

(** *** Code points *)

(** The number of bytes of the code point whose encoding starts with
    the byte [b]. *)
Definition width (b : N) : nat :=
  if (b <? 0xC0)%N then 1
  else if (b <? 0xE0)%N then 2
  else if (b <? 0xF0)%N then 3
  else 4.

(** The code points of an encoding, from left to right.  [pending]
    bytes of a code point are still to come, and [acc] holds the bits
    of it read so far.  (A sequence of bytes that breaks off in the
    middle of a code point, or holds a byte out of place, is the
    encoding of no [str].) *)
Fixpoint decode_from (pending : nat) (acc : N) (s : string) : list N :=
  match s with
  | EmptyString => []
  | String c t =>
      let b := N_of_ascii c in
      match pending with
      | O =>
          match width b with
          | 1 => b :: decode_from 0 0%N t
          | 2 => decode_from 1 (b mod 32)%N t
          | 3 => decode_from 2 (b mod 16)%N t
          | _ => decode_from 3 (b mod 8)%N t
          end
      | 1 => (acc * 64 + b mod 64)%N :: decode_from 0 0%N t
      | S k => decode_from k (acc * 64 + b mod 64)%N t
      end
  end.

Definition decode (s : string) : list N := decode_from 0 0%N s.

Definition byte (n : N) : string := String (ascii_of_N n) EmptyString.

(** The encoding of a code point. *)
Definition encode_point (c : N) : string :=
  if (c <? 0x80)%N then byte c
  else if (c <? 0x800)%N then byte (0xC0 + c / 64)%N ++ byte (0x80 + c mod 64)%N
  else if (c <? 0x10000)%N then
    byte (0xE0 + c / 4096)%N ++ byte (0x80 + (c / 64) mod 64)%N ++ byte (0x80 + c mod 64)%N
  else
    byte (0xF0 + c / 262144)%N ++ byte (0x80 + (c / 4096) mod 64)%N
    ++ byte (0x80 + (c / 64) mod 64)%N ++ byte (0x80 + c mod 64)%N.

Definition encode (l : list N) : string := String.concat EmptyString (map encode_point l).

(** [len(s)] *)
Definition length (s : string) : nat := List.length (decode s).

(** Is [c] in one of the ranges of [table], which is sorted? *)
Fixpoint in_ranges (table : list (N * N)) (c : N) : bool :=
  match table with
  | [] => false
  | (lo, hi) :: rest => if (c <? lo)%N then false else (c <=? hi)%N || in_ranges rest c
  end.

(** *** The case mapping

    [str.lower()] maps every code point by the table of the Unicode
    database (version 14.0, as CPython 3.11 carries it); the tables
    below list the code points it changes, those that are cased and
    those that are case-ignorable. *)

(** [(lo, hi, step, target)]: the code points [lo, lo + step, ..., hi]
    are mapped to [target, target + step, ...]. *)
Definition lower_runs : list (N * N * N * N) :=
  [
   (0x41, 0x5A, 1, 0x61); (0xC0, 0xD6, 1, 0xE0); (0xD8, 0xDE, 1, 0xF8);
   (0x100, 0x12E, 2, 0x101); (0x132, 0x136, 2, 0x133); (0x139, 0x147, 2, 0x13A);
   (0x14A, 0x176, 2, 0x14B); (0x178, 0x178, 1, 0xFF); (0x179, 0x17D, 2, 0x17A);
   (0x181, 0x181, 1, 0x253); (0x182, 0x184, 2, 0x183); (0x186, 0x186, 1, 0x254);
   (0x187, 0x187, 1, 0x188); (0x189, 0x18A, 1, 0x256); (0x18B, 0x18B, 1, 0x18C);
   (0x18E, 0x18E, 1, 0x1DD); (0x18F, 0x18F, 1, 0x259); (0x190, 0x190, 1, 0x25B);
   (0x191, 0x191, 1, 0x192); (0x193, 0x193, 1, 0x260); (0x194, 0x194, 1, 0x263);
   (0x196, 0x196, 1, 0x269); (0x197, 0x197, 1, 0x268); (0x198, 0x198, 1, 0x199);
   (0x19C, 0x19C, 1, 0x26F); (0x19D, 0x19D, 1, 0x272); (0x19F, 0x19F, 1, 0x275);
   (0x1A0, 0x1A4, 2, 0x1A1); (0x1A6, 0x1A6, 1, 0x280); (0x1A7, 0x1A7, 1, 0x1A8);
   (0x1A9, 0x1A9, 1, 0x283); (0x1AC, 0x1AC, 1, 0x1AD); (0x1AE, 0x1AE, 1, 0x288);
   (0x1AF, 0x1AF, 1, 0x1B0); (0x1B1, 0x1B2, 1, 0x28A); (0x1B3, 0x1B5, 2, 0x1B4);
   (0x1B7, 0x1B7, 1, 0x292); (0x1B8, 0x1B8, 1, 0x1B9); (0x1BC, 0x1BC, 1, 0x1BD);
   (0x1C4, 0x1C4, 1, 0x1C6); (0x1C5, 0x1C5, 1, 0x1C6); (0x1C7, 0x1C7, 1, 0x1C9);
   (0x1C8, 0x1C8, 1, 0x1C9); (0x1CA, 0x1CA, 1, 0x1CC); (0x1CB, 0x1DB, 2, 0x1CC);
   (0x1DE, 0x1EE, 2, 0x1DF); (0x1F1, 0x1F1, 1, 0x1F3); (0x1F2, 0x1F4, 2, 0x1F3);
   (0x1F6, 0x1F6, 1, 0x195); (0x1F7, 0x1F7, 1, 0x1BF); (0x1F8, 0x21E, 2, 0x1F9);
   (0x220, 0x220, 1, 0x19E); (0x222, 0x232, 2, 0x223); (0x23A, 0x23A, 1, 0x2C65);
   (0x23B, 0x23B, 1, 0x23C); (0x23D, 0x23D, 1, 0x19A); (0x23E, 0x23E, 1, 0x2C66);
   (0x241, 0x241, 1, 0x242); (0x243, 0x243, 1, 0x180); (0x244, 0x244, 1, 0x289);
   (0x245, 0x245, 1, 0x28C); (0x246, 0x24E, 2, 0x247); (0x370, 0x372, 2, 0x371);
   (0x376, 0x376, 1, 0x377); (0x37F, 0x37F, 1, 0x3F3); (0x386, 0x386, 1, 0x3AC);
   (0x388, 0x38A, 1, 0x3AD); (0x38C, 0x38C, 1, 0x3CC); (0x38E, 0x38F, 1, 0x3CD);
   (0x391, 0x3A1, 1, 0x3B1); (0x3A3, 0x3AB, 1, 0x3C3); (0x3CF, 0x3CF, 1, 0x3D7);
   (0x3D8, 0x3EE, 2, 0x3D9); (0x3F4, 0x3F4, 1, 0x3B8); (0x3F7, 0x3F7, 1, 0x3F8);
   (0x3F9, 0x3F9, 1, 0x3F2); (0x3FA, 0x3FA, 1, 0x3FB); (0x3FD, 0x3FF, 1, 0x37B);
   (0x400, 0x40F, 1, 0x450); (0x410, 0x42F, 1, 0x430); (0x460, 0x480, 2, 0x461);
   (0x48A, 0x4BE, 2, 0x48B); (0x4C0, 0x4C0, 1, 0x4CF); (0x4C1, 0x4CD, 2, 0x4C2);
   (0x4D0, 0x52E, 2, 0x4D1); (0x531, 0x556, 1, 0x561); (0x10A0, 0x10C5, 1, 0x2D00);
   (0x10C7, 0x10C7, 1, 0x2D27); (0x10CD, 0x10CD, 1, 0x2D2D); (0x13A0, 0x13EF, 1, 0xAB70);
   (0x13F0, 0x13F5, 1, 0x13F8); (0x1C90, 0x1CBA, 1, 0x10D0); (0x1CBD, 0x1CBF, 1, 0x10FD);
   (0x1E00, 0x1E94, 2, 0x1E01); (0x1E9E, 0x1E9E, 1, 0xDF); (0x1EA0, 0x1EFE, 2, 0x1EA1);
   (0x1F08, 0x1F0F, 1, 0x1F00); (0x1F18, 0x1F1D, 1, 0x1F10); (0x1F28, 0x1F2F, 1, 0x1F20);
   (0x1F38, 0x1F3F, 1, 0x1F30); (0x1F48, 0x1F4D, 1, 0x1F40); (0x1F59, 0x1F5F, 2, 0x1F51);
   (0x1F68, 0x1F6F, 1, 0x1F60); (0x1F88, 0x1F8F, 1, 0x1F80); (0x1F98, 0x1F9F, 1, 0x1F90);
   (0x1FA8, 0x1FAF, 1, 0x1FA0); (0x1FB8, 0x1FB9, 1, 0x1FB0); (0x1FBA, 0x1FBB, 1, 0x1F70);
   (0x1FBC, 0x1FBC, 1, 0x1FB3); (0x1FC8, 0x1FCB, 1, 0x1F72); (0x1FCC, 0x1FCC, 1, 0x1FC3);
   (0x1FD8, 0x1FD9, 1, 0x1FD0); (0x1FDA, 0x1FDB, 1, 0x1F76); (0x1FE8, 0x1FE9, 1, 0x1FE0);
   (0x1FEA, 0x1FEB, 1, 0x1F7A); (0x1FEC, 0x1FEC, 1, 0x1FE5); (0x1FF8, 0x1FF9, 1, 0x1F78);
   (0x1FFA, 0x1FFB, 1, 0x1F7C); (0x1FFC, 0x1FFC, 1, 0x1FF3); (0x2126, 0x2126, 1, 0x3C9);
   (0x212A, 0x212A, 1, 0x6B); (0x212B, 0x212B, 1, 0xE5); (0x2132, 0x2132, 1, 0x214E);
   (0x2160, 0x216F, 1, 0x2170); (0x2183, 0x2183, 1, 0x2184); (0x24B6, 0x24CF, 1, 0x24D0);
   (0x2C00, 0x2C2F, 1, 0x2C30); (0x2C60, 0x2C60, 1, 0x2C61); (0x2C62, 0x2C62, 1, 0x26B);
   (0x2C63, 0x2C63, 1, 0x1D7D); (0x2C64, 0x2C64, 1, 0x27D); (0x2C67, 0x2C6B, 2, 0x2C68);
   (0x2C6D, 0x2C6D, 1, 0x251); (0x2C6E, 0x2C6E, 1, 0x271); (0x2C6F, 0x2C6F, 1, 0x250);
   (0x2C70, 0x2C70, 1, 0x252); (0x2C72, 0x2C72, 1, 0x2C73); (0x2C75, 0x2C75, 1, 0x2C76);
   (0x2C7E, 0x2C7F, 1, 0x23F); (0x2C80, 0x2CE2, 2, 0x2C81); (0x2CEB, 0x2CED, 2, 0x2CEC);
   (0x2CF2, 0x2CF2, 1, 0x2CF3); (0xA640, 0xA66C, 2, 0xA641); (0xA680, 0xA69A, 2, 0xA681);
   (0xA722, 0xA72E, 2, 0xA723); (0xA732, 0xA76E, 2, 0xA733); (0xA779, 0xA77B, 2, 0xA77A);
   (0xA77D, 0xA77D, 1, 0x1D79); (0xA77E, 0xA786, 2, 0xA77F); (0xA78B, 0xA78B, 1, 0xA78C);
   (0xA78D, 0xA78D, 1, 0x265); (0xA790, 0xA792, 2, 0xA791); (0xA796, 0xA7A8, 2, 0xA797);
   (0xA7AA, 0xA7AA, 1, 0x266); (0xA7AB, 0xA7AB, 1, 0x25C); (0xA7AC, 0xA7AC, 1, 0x261);
   (0xA7AD, 0xA7AD, 1, 0x26C); (0xA7AE, 0xA7AE, 1, 0x26A); (0xA7B0, 0xA7B0, 1, 0x29E);
   (0xA7B1, 0xA7B1, 1, 0x287); (0xA7B2, 0xA7B2, 1, 0x29D); (0xA7B3, 0xA7B3, 1, 0xAB53);
   (0xA7B4, 0xA7C2, 2, 0xA7B5); (0xA7C4, 0xA7C4, 1, 0xA794); (0xA7C5, 0xA7C5, 1, 0x282);
   (0xA7C6, 0xA7C6, 1, 0x1D8E); (0xA7C7, 0xA7C9, 2, 0xA7C8); (0xA7D0, 0xA7D0, 1, 0xA7D1);
   (0xA7D6, 0xA7D8, 2, 0xA7D7); (0xA7F5, 0xA7F5, 1, 0xA7F6); (0xFF21, 0xFF3A, 1, 0xFF41);
   (0x10400, 0x10427, 1, 0x10428); (0x104B0, 0x104D3, 1, 0x104D8); (0x10570, 0x1057A, 1, 0x10597);
   (0x1057C, 0x1058A, 1, 0x105A3); (0x1058C, 0x10592, 1, 0x105B3); (0x10594, 0x10595, 1, 0x105BB);
   (0x10C80, 0x10CB2, 1, 0x10CC0); (0x118A0, 0x118BF, 1, 0x118C0); (0x16E40, 0x16E5F, 1, 0x16E60);
   (0x1E900, 0x1E921, 1, 0x1E922)
  ]%N.

Definition cased_ranges : list (N * N) :=
  [
   (0x41, 0x5A); (0x61, 0x7A); (0xAA, 0xAA); (0xB5, 0xB5); (0xBA, 0xBA);
   (0xC0, 0xD6); (0xD8, 0xF6); (0xF8, 0x1BA); (0x1BC, 0x1BF); (0x1C4, 0x293);
   (0x295, 0x2AF); (0x370, 0x373); (0x376, 0x377); (0x37B, 0x37D); (0x37F, 0x37F);
   (0x386, 0x386); (0x388, 0x38A); (0x38C, 0x38C); (0x38E, 0x3A1); (0x3A3, 0x3F5);
   (0x3F7, 0x481); (0x48A, 0x52F); (0x531, 0x556); (0x560, 0x588); (0x10A0, 0x10C5);
   (0x10C7, 0x10C7); (0x10CD, 0x10CD); (0x10D0, 0x10FA); (0x10FD, 0x10FF); (0x13A0, 0x13F5);
   (0x13F8, 0x13FD); (0x1C80, 0x1C88); (0x1C90, 0x1CBA); (0x1CBD, 0x1CBF); (0x1D00, 0x1D2B);
   (0x1D6B, 0x1D77); (0x1D79, 0x1D9A); (0x1E00, 0x1F15); (0x1F18, 0x1F1D); (0x1F20, 0x1F45);
   (0x1F48, 0x1F4D); (0x1F50, 0x1F57); (0x1F59, 0x1F59); (0x1F5B, 0x1F5B); (0x1F5D, 0x1F5D);
   (0x1F5F, 0x1F7D); (0x1F80, 0x1FB4); (0x1FB6, 0x1FBC); (0x1FBE, 0x1FBE); (0x1FC2, 0x1FC4);
   (0x1FC6, 0x1FCC); (0x1FD0, 0x1FD3); (0x1FD6, 0x1FDB); (0x1FE0, 0x1FEC); (0x1FF2, 0x1FF4);
   (0x1FF6, 0x1FFC); (0x2102, 0x2102); (0x2107, 0x2107); (0x210A, 0x2113); (0x2115, 0x2115);
   (0x2119, 0x211D); (0x2124, 0x2124); (0x2126, 0x2126); (0x2128, 0x2128); (0x212A, 0x212D);
   (0x212F, 0x2134); (0x2139, 0x2139); (0x213C, 0x213F); (0x2145, 0x2149); (0x214E, 0x214E);
   (0x2160, 0x217F); (0x2183, 0x2184); (0x24B6, 0x24E9); (0x2C00, 0x2C7B); (0x2C7E, 0x2CE4);
   (0x2CEB, 0x2CEE); (0x2CF2, 0x2CF3); (0x2D00, 0x2D25); (0x2D27, 0x2D27); (0x2D2D, 0x2D2D);
   (0xA640, 0xA66D); (0xA680, 0xA69B); (0xA722, 0xA76F); (0xA771, 0xA787); (0xA78B, 0xA78E);
   (0xA790, 0xA7CA); (0xA7D0, 0xA7D1); (0xA7D3, 0xA7D3); (0xA7D5, 0xA7D9); (0xA7F5, 0xA7F6);
   (0xA7FA, 0xA7FA); (0xAB30, 0xAB5A); (0xAB60, 0xAB68); (0xAB70, 0xABBF); (0xFB00, 0xFB06);
   (0xFB13, 0xFB17); (0xFF21, 0xFF3A); (0xFF41, 0xFF5A); (0x10400, 0x1044F); (0x104B0, 0x104D3);
   (0x104D8, 0x104FB); (0x10570, 0x1057A); (0x1057C, 0x1058A); (0x1058C, 0x10592); (0x10594, 0x10595);
   (0x10597, 0x105A1); (0x105A3, 0x105B1); (0x105B3, 0x105B9); (0x105BB, 0x105BC); (0x10C80, 0x10CB2);
   (0x10CC0, 0x10CF2); (0x118A0, 0x118DF); (0x16E40, 0x16E7F); (0x1D400, 0x1D454); (0x1D456, 0x1D49C);
   (0x1D49E, 0x1D49F); (0x1D4A2, 0x1D4A2); (0x1D4A5, 0x1D4A6); (0x1D4A9, 0x1D4AC); (0x1D4AE, 0x1D4B9);
   (0x1D4BB, 0x1D4BB); (0x1D4BD, 0x1D4C3); (0x1D4C5, 0x1D505); (0x1D507, 0x1D50A); (0x1D50D, 0x1D514);
   (0x1D516, 0x1D51C); (0x1D51E, 0x1D539); (0x1D53B, 0x1D53E); (0x1D540, 0x1D544); (0x1D546, 0x1D546);
   (0x1D54A, 0x1D550); (0x1D552, 0x1D6A5); (0x1D6A8, 0x1D6C0); (0x1D6C2, 0x1D6DA); (0x1D6DC, 0x1D6FA);
   (0x1D6FC, 0x1D714); (0x1D716, 0x1D734); (0x1D736, 0x1D74E); (0x1D750, 0x1D76E); (0x1D770, 0x1D788);
   (0x1D78A, 0x1D7A8); (0x1D7AA, 0x1D7C2); (0x1D7C4, 0x1D7CB); (0x1DF00, 0x1DF09); (0x1DF0B, 0x1DF1E);
   (0x1E900, 0x1E943); (0x1F130, 0x1F149); (0x1F150, 0x1F169); (0x1F170, 0x1F189)
  ]%N.

Definition case_ignorable_ranges : list (N * N) :=
  [
   (0x27, 0x27); (0x2E, 0x2E); (0x3A, 0x3A); (0x5E, 0x5E); (0x60, 0x60);
   (0xA8, 0xA8); (0xAD, 0xAD); (0xAF, 0xAF); (0xB4, 0xB4); (0xB7, 0xB8);
   (0x2B0, 0x36F); (0x374, 0x375); (0x37A, 0x37A); (0x384, 0x385); (0x387, 0x387);
   (0x483, 0x489); (0x559, 0x559); (0x55F, 0x55F); (0x591, 0x5BD); (0x5BF, 0x5BF);
   (0x5C1, 0x5C2); (0x5C4, 0x5C5); (0x5C7, 0x5C7); (0x5F4, 0x5F4); (0x600, 0x605);
   (0x610, 0x61A); (0x61C, 0x61C); (0x640, 0x640); (0x64B, 0x65F); (0x670, 0x670);
   (0x6D6, 0x6DD); (0x6DF, 0x6E8); (0x6EA, 0x6ED); (0x70F, 0x70F); (0x711, 0x711);
   (0x730, 0x74A); (0x7A6, 0x7B0); (0x7EB, 0x7F5); (0x7FA, 0x7FA); (0x7FD, 0x7FD);
   (0x816, 0x82D); (0x859, 0x85B); (0x888, 0x888); (0x890, 0x891); (0x898, 0x89F);
   (0x8C9, 0x902); (0x93A, 0x93A); (0x93C, 0x93C); (0x941, 0x948); (0x94D, 0x94D);
   (0x951, 0x957); (0x962, 0x963); (0x971, 0x971); (0x981, 0x981); (0x9BC, 0x9BC);
   (0x9C1, 0x9C4); (0x9CD, 0x9CD); (0x9E2, 0x9E3); (0x9FE, 0x9FE); (0xA01, 0xA02);
   (0xA3C, 0xA3C); (0xA41, 0xA42); (0xA47, 0xA48); (0xA4B, 0xA4D); (0xA51, 0xA51);
   (0xA70, 0xA71); (0xA75, 0xA75); (0xA81, 0xA82); (0xABC, 0xABC); (0xAC1, 0xAC5);
   (0xAC7, 0xAC8); (0xACD, 0xACD); (0xAE2, 0xAE3); (0xAFA, 0xAFF); (0xB01, 0xB01);
   (0xB3C, 0xB3C); (0xB3F, 0xB3F); (0xB41, 0xB44); (0xB4D, 0xB4D); (0xB55, 0xB56);
   (0xB62, 0xB63); (0xB82, 0xB82); (0xBC0, 0xBC0); (0xBCD, 0xBCD); (0xC00, 0xC00);
   (0xC04, 0xC04); (0xC3C, 0xC3C); (0xC3E, 0xC40); (0xC46, 0xC48); (0xC4A, 0xC4D);
   (0xC55, 0xC56); (0xC62, 0xC63); (0xC81, 0xC81); (0xCBC, 0xCBC); (0xCBF, 0xCBF);
   (0xCC6, 0xCC6); (0xCCC, 0xCCD); (0xCE2, 0xCE3); (0xD00, 0xD01); (0xD3B, 0xD3C);
   (0xD41, 0xD44); (0xD4D, 0xD4D); (0xD62, 0xD63); (0xD81, 0xD81); (0xDCA, 0xDCA);
   (0xDD2, 0xDD4); (0xDD6, 0xDD6); (0xE31, 0xE31); (0xE34, 0xE3A); (0xE46, 0xE4E);
   (0xEB1, 0xEB1); (0xEB4, 0xEBC); (0xEC6, 0xEC6); (0xEC8, 0xECD); (0xF18, 0xF19);
   (0xF35, 0xF35); (0xF37, 0xF37); (0xF39, 0xF39); (0xF71, 0xF7E); (0xF80, 0xF84);
   (0xF86, 0xF87); (0xF8D, 0xF97); (0xF99, 0xFBC); (0xFC6, 0xFC6); (0x102D, 0x1030);
   (0x1032, 0x1037); (0x1039, 0x103A); (0x103D, 0x103E); (0x1058, 0x1059); (0x105E, 0x1060);
   (0x1071, 0x1074); (0x1082, 0x1082); (0x1085, 0x1086); (0x108D, 0x108D); (0x109D, 0x109D);
   (0x10FC, 0x10FC); (0x135D, 0x135F); (0x1712, 0x1714); (0x1732, 0x1733); (0x1752, 0x1753);
   (0x1772, 0x1773); (0x17B4, 0x17B5); (0x17B7, 0x17BD); (0x17C6, 0x17C6); (0x17C9, 0x17D3);
   (0x17D7, 0x17D7); (0x17DD, 0x17DD); (0x180B, 0x180F); (0x1843, 0x1843); (0x1885, 0x1886);
   (0x18A9, 0x18A9); (0x1920, 0x1922); (0x1927, 0x1928); (0x1932, 0x1932); (0x1939, 0x193B);
   (0x1A17, 0x1A18); (0x1A1B, 0x1A1B); (0x1A56, 0x1A56); (0x1A58, 0x1A5E); (0x1A60, 0x1A60);
   (0x1A62, 0x1A62); (0x1A65, 0x1A6C); (0x1A73, 0x1A7C); (0x1A7F, 0x1A7F); (0x1AA7, 0x1AA7);
   (0x1AB0, 0x1ACE); (0x1B00, 0x1B03); (0x1B34, 0x1B34); (0x1B36, 0x1B3A); (0x1B3C, 0x1B3C);
   (0x1B42, 0x1B42); (0x1B6B, 0x1B73); (0x1B80, 0x1B81); (0x1BA2, 0x1BA5); (0x1BA8, 0x1BA9);
   (0x1BAB, 0x1BAD); (0x1BE6, 0x1BE6); (0x1BE8, 0x1BE9); (0x1BED, 0x1BED); (0x1BEF, 0x1BF1);
   (0x1C2C, 0x1C33); (0x1C36, 0x1C37); (0x1C78, 0x1C7D); (0x1CD0, 0x1CD2); (0x1CD4, 0x1CE0);
   (0x1CE2, 0x1CE8); (0x1CED, 0x1CED); (0x1CF4, 0x1CF4); (0x1CF8, 0x1CF9); (0x1D2C, 0x1D6A);
   (0x1D78, 0x1D78); (0x1D9B, 0x1DFF); (0x1FBD, 0x1FBD); (0x1FBF, 0x1FC1); (0x1FCD, 0x1FCF);
   (0x1FDD, 0x1FDF); (0x1FED, 0x1FEF); (0x1FFD, 0x1FFE); (0x200B, 0x200F); (0x2018, 0x2019);
   (0x2024, 0x2024); (0x2027, 0x2027); (0x202A, 0x202E); (0x2060, 0x2064); (0x2066, 0x206F);
   (0x2071, 0x2071); (0x207F, 0x207F); (0x2090, 0x209C); (0x20D0, 0x20F0); (0x2C7C, 0x2C7D);
   (0x2CEF, 0x2CF1); (0x2D6F, 0x2D6F); (0x2D7F, 0x2D7F); (0x2DE0, 0x2DFF); (0x2E2F, 0x2E2F);
   (0x3005, 0x3005); (0x302A, 0x302D); (0x3031, 0x3035); (0x303B, 0x303B); (0x3099, 0x309E);
   (0x30FC, 0x30FE); (0xA015, 0xA015); (0xA4F8, 0xA4FD); (0xA60C, 0xA60C); (0xA66F, 0xA672);
   (0xA674, 0xA67D); (0xA67F, 0xA67F); (0xA69C, 0xA69F); (0xA6F0, 0xA6F1); (0xA700, 0xA721);
   (0xA770, 0xA770); (0xA788, 0xA78A); (0xA7F2, 0xA7F4); (0xA7F8, 0xA7F9); (0xA802, 0xA802);
   (0xA806, 0xA806); (0xA80B, 0xA80B); (0xA825, 0xA826); (0xA82C, 0xA82C); (0xA8C4, 0xA8C5);
   (0xA8E0, 0xA8F1); (0xA8FF, 0xA8FF); (0xA926, 0xA92D); (0xA947, 0xA951); (0xA980, 0xA982);
   (0xA9B3, 0xA9B3); (0xA9B6, 0xA9B9); (0xA9BC, 0xA9BD); (0xA9CF, 0xA9CF); (0xA9E5, 0xA9E6);
   (0xAA29, 0xAA2E); (0xAA31, 0xAA32); (0xAA35, 0xAA36); (0xAA43, 0xAA43); (0xAA4C, 0xAA4C);
   (0xAA70, 0xAA70); (0xAA7C, 0xAA7C); (0xAAB0, 0xAAB0); (0xAAB2, 0xAAB4); (0xAAB7, 0xAAB8);
   (0xAABE, 0xAABF); (0xAAC1, 0xAAC1); (0xAADD, 0xAADD); (0xAAEC, 0xAAED); (0xAAF3, 0xAAF4);
   (0xAAF6, 0xAAF6); (0xAB5B, 0xAB5F); (0xAB69, 0xAB6B); (0xABE5, 0xABE5); (0xABE8, 0xABE8);
   (0xABED, 0xABED); (0xFB1E, 0xFB1E); (0xFBB2, 0xFBC2); (0xFE00, 0xFE0F); (0xFE13, 0xFE13);
   (0xFE20, 0xFE2F); (0xFE52, 0xFE52); (0xFE55, 0xFE55); (0xFEFF, 0xFEFF); (0xFF07, 0xFF07);
   (0xFF0E, 0xFF0E); (0xFF1A, 0xFF1A); (0xFF3E, 0xFF3E); (0xFF40, 0xFF40); (0xFF70, 0xFF70);
   (0xFF9E, 0xFF9F); (0xFFE3, 0xFFE3); (0xFFF9, 0xFFFB); (0x101FD, 0x101FD); (0x102E0, 0x102E0);
   (0x10376, 0x1037A); (0x10780, 0x10785); (0x10787, 0x107B0); (0x107B2, 0x107BA); (0x10A01, 0x10A03);
   (0x10A05, 0x10A06); (0x10A0C, 0x10A0F); (0x10A38, 0x10A3A); (0x10A3F, 0x10A3F); (0x10AE5, 0x10AE6);
   (0x10D24, 0x10D27); (0x10EAB, 0x10EAC); (0x10F46, 0x10F50); (0x10F82, 0x10F85); (0x11001, 0x11001);
   (0x11038, 0x11046); (0x11070, 0x11070); (0x11073, 0x11074); (0x1107F, 0x11081); (0x110B3, 0x110B6);
   (0x110B9, 0x110BA); (0x110BD, 0x110BD); (0x110C2, 0x110C2); (0x110CD, 0x110CD); (0x11100, 0x11102);
   (0x11127, 0x1112B); (0x1112D, 0x11134); (0x11173, 0x11173); (0x11180, 0x11181); (0x111B6, 0x111BE);
   (0x111C9, 0x111CC); (0x111CF, 0x111CF); (0x1122F, 0x11231); (0x11234, 0x11234); (0x11236, 0x11237);
   (0x1123E, 0x1123E); (0x112DF, 0x112DF); (0x112E3, 0x112EA); (0x11300, 0x11301); (0x1133B, 0x1133C);
   (0x11340, 0x11340); (0x11366, 0x1136C); (0x11370, 0x11374); (0x11438, 0x1143F); (0x11442, 0x11444);
   (0x11446, 0x11446); (0x1145E, 0x1145E); (0x114B3, 0x114B8); (0x114BA, 0x114BA); (0x114BF, 0x114C0);
   (0x114C2, 0x114C3); (0x115B2, 0x115B5); (0x115BC, 0x115BD); (0x115BF, 0x115C0); (0x115DC, 0x115DD);
   (0x11633, 0x1163A); (0x1163D, 0x1163D); (0x1163F, 0x11640); (0x116AB, 0x116AB); (0x116AD, 0x116AD);
   (0x116B0, 0x116B5); (0x116B7, 0x116B7); (0x1171D, 0x1171F); (0x11722, 0x11725); (0x11727, 0x1172B);
   (0x1182F, 0x11837); (0x11839, 0x1183A); (0x1193B, 0x1193C); (0x1193E, 0x1193E); (0x11943, 0x11943);
   (0x119D4, 0x119D7); (0x119DA, 0x119DB); (0x119E0, 0x119E0); (0x11A01, 0x11A0A); (0x11A33, 0x11A38);
   (0x11A3B, 0x11A3E); (0x11A47, 0x11A47); (0x11A51, 0x11A56); (0x11A59, 0x11A5B); (0x11A8A, 0x11A96);
   (0x11A98, 0x11A99); (0x11C30, 0x11C36); (0x11C38, 0x11C3D); (0x11C3F, 0x11C3F); (0x11C92, 0x11CA7);
   (0x11CAA, 0x11CB0); (0x11CB2, 0x11CB3); (0x11CB5, 0x11CB6); (0x11D31, 0x11D36); (0x11D3A, 0x11D3A);
   (0x11D3C, 0x11D3D); (0x11D3F, 0x11D45); (0x11D47, 0x11D47); (0x11D90, 0x11D91); (0x11D95, 0x11D95);
   (0x11D97, 0x11D97); (0x11EF3, 0x11EF4); (0x13430, 0x13438); (0x16AF0, 0x16AF4); (0x16B30, 0x16B36);
   (0x16B40, 0x16B43); (0x16F4F, 0x16F4F); (0x16F8F, 0x16F9F); (0x16FE0, 0x16FE1); (0x16FE3, 0x16FE4);
   (0x1AFF0, 0x1AFF3); (0x1AFF5, 0x1AFFB); (0x1AFFD, 0x1AFFE); (0x1BC9D, 0x1BC9E); (0x1BCA0, 0x1BCA3);
   (0x1CF00, 0x1CF2D); (0x1CF30, 0x1CF46); (0x1D167, 0x1D169); (0x1D173, 0x1D182); (0x1D185, 0x1D18B);
   (0x1D1AA, 0x1D1AD); (0x1D242, 0x1D244); (0x1DA00, 0x1DA36); (0x1DA3B, 0x1DA6C); (0x1DA75, 0x1DA75);
   (0x1DA84, 0x1DA84); (0x1DA9B, 0x1DA9F); (0x1DAA1, 0x1DAAF); (0x1E000, 0x1E006); (0x1E008, 0x1E018);
   (0x1E01B, 0x1E021); (0x1E023, 0x1E024); (0x1E026, 0x1E02A); (0x1E130, 0x1E13D); (0x1E2AE, 0x1E2AE);
   (0x1E2EC, 0x1E2EF); (0x1E8D0, 0x1E8D6); (0x1E944, 0x1E94B); (0x1F3FB, 0x1F3FF); (0xE0001, 0xE0001);
   (0xE0020, 0xE007F); (0xE0100, 0xE01EF)
  ]%N.

Fixpoint lower_in (table : list (N * N * N * N)) (c : N) : N :=
  match table with
  | [] => c
  | (lo, hi, step, target) :: rest =>
      if (c <? lo)%N then c
      else if (c <=? hi)%N && ((c - lo) mod step =? 0)%N then (target + (c - lo))%N
      else lower_in rest c
  end.

(** The lowercase of one code point; LATIN CAPITAL LETTER I WITH DOT
    ABOVE is the only one that becomes two. *)
Definition lower_point (c : N) : list N :=
  if (c =? 0x130)%N then [0x69; 0x307]%N else [lower_in lower_runs c].

(** A code point that is cased and not case-ignorable (the table
    [cased_ranges] leaves the case-ignorable ones out). *)
Definition is_cased (c : N) : bool := in_ranges cased_ranges c.
Definition is_case_ignorable (c : N) : bool := in_ranges case_ignorable_ranges c.

(** The first code point of [l] that is not case-ignorable is cased. *)
Fixpoint meets_cased (l : list N) : bool :=
  match l with
  | [] => false
  | c :: t => if is_case_ignorable c then meets_cased t else is_cased c
  end.

(** GREEK CAPITAL LETTER SIGMA becomes the final sigma when a cased
    letter comes before it and none after it, case-ignorable code
    points aside.  [before] lists the code points before it, the
    nearest first. *)
Definition final_sigma (before after : list N) : bool :=
  meets_cased before && negb (meets_cased after).

Fixpoint lower_points (before : list N) (l : list N) : list N :=
  match l with
  | [] => []
  | c :: t =>
      ((if (c =? 0x3A3)%N
        then [if final_sigma before t then 0x3C2 else 0x3C3]%N
        else lower_point c)
       ++ lower_points (c :: before) t)%list
  end.

(** [s.lower()] *)
Definition lower (s : string) : string := encode (lower_points [] (decode s)).

Fixpoint starts_with (p s : string) : bool :=
  match p, s with
  | EmptyString, _ => true
  | String a p', String b s' => Ascii.eqb a b && starts_with p' s'
  | String _ _, EmptyString => false
  end.

(** [needle in hay] on two strings *)
Fixpoint contains (needle hay : string) : bool :=
  starts_with needle hay ||
  match hay with
  | EmptyString => false
  | String _ t => contains needle t
  end.

Fixpoint rev_onto (acc s : string) : string :=
  match s with
  | EmptyString => acc
  | String c t => rev_onto (String c acc) t
  end.

Definition rev (s : string) : string := rev_onto EmptyString s.

(** The scan of [s.split(sep)] for a non-empty [sep]: [piece] is the
    current piece, reversed; [skip] counts the characters of a matched
    separator that are still to be passed over. *)
Fixpoint split_scan (sep : string) (skip : nat) (piece : string) (s : string)
  : list string :=
  match s with
  | EmptyString => [rev piece]
  | String c t =>
      match skip with
      | S k => split_scan sep k piece t
      | O =>
          if starts_with sep s
          then rev piece :: split_scan sep (String.length sep - 1) EmptyString t
          else split_scan sep 0 (String c piece) t
      end
  end.

(** [s.split(sep)]; the handlers only pass literal, non-empty separators. *)
Definition split (sep s : string) : list string := split_scan sep 0 EmptyString s.

(** *** Whitespace *)

(** The code points [str.isspace] holds of, the ones [str.strip()]
    removes. *)
Definition whitespace_points : list N :=
  [0x9; 0xA; 0xB; 0xC; 0xD; 0x1C; 0x1D; 0x1E; 0x1F; 0x20; 0x85; 0xA0; 0x1680;
   0x2000; 0x2001; 0x2002; 0x2003; 0x2004; 0x2005; 0x2006; 0x2007; 0x2008; 0x2009;
   0x200A; 0x2028; 0x2029; 0x202F; 0x205F; 0x3000]%N.

(** Their encodings. *)
Definition whitespace : list string := Eval cbv in map encode_point whitespace_points.

(** The whitespace of a single byte. *)
Definition is_space (c : ascii) : bool :=
  let n := nat_of_ascii c in
  (Nat.leb 9 n && Nat.leb n 13) || (Nat.leb 28 n && Nat.leb n 32).

(** The number of bytes of the member of [table] that [s] starts with,
    or 0. *)
Fixpoint head_width (table : list string) (s : string) : nat :=
  match table with
  | [] => 0
  | w :: rest => if starts_with w s then String.length w else head_width rest s
  end.

(** [s] without the members of [table] it starts with; [skip] bytes of
    one of them are still to be passed over. *)
Fixpoint lstrip_scan (table : list string) (skip : nat) (s : string) : string :=
  match s with
  | EmptyString => EmptyString
  | String _ t =>
      match skip with
      | S k => lstrip_scan table k t
      | O =>
          match head_width table s with
          | O => s
          | S k => lstrip_scan table k t
          end
      end
  end.

(** [s.lstrip()] *)
Definition lstrip (s : string) : string := lstrip_scan whitespace 0 s.

(** [s.rstrip()]: the same scan from the end, over the reversed
    encodings. *)
Definition rstrip (s : string) : string :=
  rev (lstrip_scan (map rev whitespace) 0 (rev s)).

(** [s.strip()] *)
Definition strip (s : string) : string := rstrip (lstrip s).

(** [''.join(l)] *)
Definition join (l : list string) : string := String.concat EmptyString l.

Fixpoint forallb (p : ascii -> bool) (s : string) : bool :=
  match s with
  | EmptyString => true
  | String c t => p c && forallb p t
  end.

(** Length of the longest prefix of [s] whose characters satisfy [p]. *)
Fixpoint head_run (p : ascii -> bool) (s : string) : nat :=
  match s with
  | EmptyString => 0
  | String c t => if p c then S (head_run p t) else 0
  end.

(** Length of the longest block of consecutive characters satisfying [p]. *)
Fixpoint longest_run (p : ascii -> bool) (s : string) : nat :=
  match s with
  | EmptyString => 0
  | String _ t => Nat.max (head_run p s) (longest_run p t)
  end.

Definition dquote : string := String (ascii_of_nat 34) EmptyString.
Definition newline : string := String (ascii_of_nat 10) EmptyString.

(** [str(n)] for an [int] *)
Definition of_Z (z : Z) : string := NilZero.string_of_int (Z.to_int z).

End PyStr.

(** ** JSON values

    What [request.get_json()] and the services hand to the handlers.
    A [JDict] lists the items of a [dict] (one item per key).  A float
    is carried as its [repr], the only way the handlers observe it. *)

Inductive json : Type :=
| JNull
| JBool (b : bool)
| JInt (z : Z)
| JFloat (repr : string)
| JStr (s : string)
| JList (l : list json)
| JDict (items : list (string * json)).

Definition headers := list (string * string).

(** ** Exceptions *)

Inductive exn_class : Type :=
| KeyError | IndexError | TypeError | AttributeError | ValueError
| PlainException            (* [Exception(...)] raised by the handlers *)
| ServiceError.             (* raised by an external collaborator *)

Record exn : Type := mk_exn {
  exn_kind : exn_class;
  exn_str : string;                 (* [str(e)] *)
  exn_status_code : option Z        (* [e.status_code] when [hasattr(e, "status_code")] *)
}.

(** ** Outcomes, events and the effect monad *)

Inductive outcome (A : Type) : Type :=
| Return (a : A)
| Raise (e : exn)
| Pending.                  (* an [await] that is never resumed *)

Arguments Return {A} a.
Arguments Raise {A} e.
Arguments Pending {A}.

Inductive log_level : Type := LvDebug | LvInfo | LvWarning | LvError.

Inductive event : Type :=
| EvLog (lvl : log_level) (msg : string)
| EvLoggingError (lvl : log_level) (msg : string)
                            (* a logging call whose record cannot be formatted: no
                               entry is written, [logging] reports on [stderr] *)
| EvHttpGet (url : string) (params : list (string * string))
| EvGraphClient
| EvGraphPatch (path : string) (payload : json)
| EvCompletion (model : json) (messages : json) (temperature : string) (max_tokens : Z)
| EvCreateConversation (user_id title : json)
| EvCreateMessage (uuid : string) (conversation_id user_id input_message : json)
| EvChatRequest (stream : bool) (request_body : json) (request_headers : headers).

(** The part of the world a handler changes: the events so far, oldest
    first, and how many UUIDs and random numbers have been drawn. *)
Record world : Type := mk_world {
  trace : list event;
  uuids_drawn : nat;
  randoms_drawn : nat
}.

Definition initial_world : world := mk_world [] 0 0.

Definition M (A : Type) : Type := world -> outcome A * world.

Definition ret {A} (a : A) : M A := fun w => (Return a, w).

Definition bind {A B} (m : M A) (k : A -> M B) : M B :=
  fun w =>
    match m w with
    | (Return a, w') => k a w'
    | (Raise e, w') => (Raise e, w')
    | (Pending, w') => (Pending, w')
    end.

Definition raise {A} (e : exn) : M A := fun w => (Raise e, w).

(** [try: m  except Exception as e: h e] *)
Definition try_except {A} (m : M A) (h : exn -> M A) : M A :=
  fun w =>
    match m w with
    | (Raise e, w') => h e w'
    | r => r
    end.

Definition lift {A} (o : outcome A) : M A := fun w => (o, w).

Definition emit (ev : event) : M unit :=
  fun w => (Return tt, mk_world (trace w ++ [ev]) (uuids_drawn w) (randoms_drawn w)).

Declare Scope py_scope.
Delimit Scope py_scope with py.
Notation "x <- m ;; k" := (bind m (fun x => k))
  (at level 61, m at next level, right associativity) : py_scope.
Notation "m ;; k" := (bind m (fun _ => k))
  (at level 61, right associativity) : py_scope.
Open Scope py_scope.

Definition logging (lvl : log_level) (msg : string) : M unit := emit (EvLog lvl msg).

(** [logging.exception(msg, e)] with a [msg] that has no placeholder:
    the exception is handed over as an argument of the format string,
    the record cannot be formatted ([msg % (e,)] raises inside the
    handler of the log, which catches it), and no entry is written. *)
Definition logging_with_argument (lvl : log_level) (msg : string) : M unit :=
  emit (EvLoggingError lvl msg).

(** Sequencing of effect-free steps that may raise. *)
Definition obind {A B} (o : outcome A) (k : A -> outcome B) : outcome B :=
  match o with
  | Return a => k a
  | Raise e => Raise e
  | Pending => Pending
  end.

Declare Scope out_scope.
Delimit Scope out_scope with out.
Notation "x <- m ;; k" := (obind m (fun x => k))
  (at level 61, m at next level, right associativity) : out_scope.

(** A [try] whose first statement binds a local [x]: the handler is
    told whether [x] was bound when the exception was raised
    (['x' in locals()]). *)
Definition try_binding {A B} (m : M A) (rest : A -> M B) (h : option A -> exn -> M B) : M B :=
  fun w =>
    match m w with
    | (Return a, w') => try_except (rest a) (h (Some a)) w'
    | (Raise e, w') => h None e w'
    | (Pending, w') => (Pending, w')
    end.

(** ** Operations of Python values *)

Module Py.

Definition type_name (v : json) : string :=
  match v with
  | JNull => "NoneType" | JBool _ => "bool" | JInt _ => "int" | JFloat _ => "float"
  | JStr _ => "str" | JList _ => "list" | JDict _ => "dict"
  end.

Definition key_error (k : string) : exn := mk_exn KeyError ("'" ++ k ++ "'") None.
Definition index_error (what : string) : exn :=
  mk_exn IndexError (what ++ " index out of range") None.
Definition type_error (msg : string) : exn := mk_exn TypeError msg None.
Definition attribute_error (v : json) (attr : string) : exn :=
  mk_exn AttributeError ("'" ++ type_name v ++ "' object has no attribute '" ++ attr ++ "'") None.
Definition not_subscriptable (v : json) : exn :=
  type_error ("'" ++ type_name v ++ "' object is not subscriptable").

(** [bool(v)] *)
Definition truthy (v : json) : bool :=
  match v with
  | JNull => false
  | JBool b => b
  | JInt z => negb (Z.eqb z 0)
  | JFloat r => negb (String.eqb r "0.0" || String.eqb r "-0.0")
  | JStr s => negb (String.eqb s "")
  | JList l => match l with [] => false | _ => true end
  | JDict d => match d with [] => false | _ => true end
  end.

(** [v == s] for a string [s] *)
Definition eq_str (v : json) (s : string) : bool :=
  match v with
  | JStr t => String.eqb t s
  | _ => false
  end.

Fixpoint lookup (k : string) (d : list (string * json)) : option json :=
  match d with
  | [] => None
  | (k', v) :: d' => if String.eqb k' k then Some v else lookup k d'
  end.

(** [v[k]] for a string key *)
Definition item (v : json) (k : string) : outcome json :=
  match v with
  | JDict d => match lookup k d with Some x => Return x | None => Raise (key_error k) end
  | JList _ => Raise (type_error "list indices must be integers or slices, not str")
  | JStr _ => Raise (type_error "string indices must be integers, not 'str'")
  | _ => Raise (not_subscriptable v)
  end.

(** The characters of a string, each a string of one code point. *)
Definition chars (s : string) : list json :=
  map (fun c => JStr (PyStr.encode_point c)) (PyStr.decode s).

(** [l[i]] on a Python sequence of length [length l] *)
Definition seq_index (what : string) (l : list json) (i : Z) : outcome json :=
  let n := Z.of_nat (List.length l) in
  let j := if (i <? 0)%Z then (i + n)%Z else i in
  if ((0 <=? j) && (j <? n))%Z
  then match nth_error l (Z.to_nat j) with
       | Some x => Return x
       | None => Raise (index_error what)
       end
  else Raise (index_error what).

(** [v[i]] for an integer index *)
Definition index (v : json) (i : Z) : outcome json :=
  match v with
  | JList l => seq_index "list" l i
  | JStr s => seq_index "string" (chars s) i
  | JDict _ => Raise (mk_exn KeyError (PyStr.of_Z i) None)
  | _ => Raise (not_subscriptable v)
  end.

(** [v.get(k, default)] *)
Definition get (v : json) (k : string) (default : json) : outcome json :=
  match v with
  | JDict d => Return (match lookup k d with Some x => x | None => default end)
  | _ => Raise (attribute_error v "get")
  end.

(** [v.lower()] *)
Definition lower (v : json) : outcome string :=
  match v with
  | JStr s => Return (PyStr.lower s)
  | _ => Raise (attribute_error v "lower")
  end.

(** [v.split(sep)] *)
Definition split (v : json) (sep : string) : outcome (list string) :=
  match v with
  | JStr s => Return (PyStr.split sep s)
  | _ => Raise (attribute_error v "split")
  end.

(** [v.strip()] *)
Definition strip (v : json) : outcome string :=
  match v with
  | JStr s => Return (PyStr.strip s)
  | _ => Raise (attribute_error v "strip")
  end.

(** [needle in v] for a string [needle] *)
Definition str_in (needle : string) (v : json) : outcome bool :=
  match v with
  | JStr s => Return (PyStr.contains needle s)
  | JList l => Return (existsb (fun x => eq_str x needle) l)
  | JDict d => Return (existsb (fun kv => String.eqb (fst kv) needle) d)
  | _ => Raise (type_error ("argument of type '" ++ type_name v ++ "' is not iterable"))
  end.

(** [len(v)] *)
Definition len (v : json) : outcome nat :=
  match v with
  | JStr s => Return (PyStr.length s)
  | JList l => Return (List.length l)
  | JDict d => Return (List.length d)
  | _ => Raise (type_error ("object of type '" ++ type_name v ++ "' has no len()"))
  end.

(** The elements [for x in v] visits *)
Definition iter (v : json) : outcome (list json) :=
  match v with
  | JList l => Return l
  | JStr s => Return (chars s)
  | JDict d => Return (map (fun kv => JStr (fst kv)) d)
  | _ => Raise (type_error ("'" ++ type_name v ++ "' object is not iterable"))
  end.

(** The elements [for x in reversed(v)] visits *)
Definition reversed (v : json) : outcome (list json) :=
  match v with
  | JList l => Return (List.rev l)
  | JStr s => Return (List.rev (chars s))
  | JDict d => Return (List.rev (map (fun kv => JStr (fst kv)) d))
  | _ => Raise (type_error ("'" ++ type_name v ++ "' object is not reversible"))
  end.

(** [a + b] where [a] is a string *)
Definition str_add (a : string) (b : json) : outcome string :=
  match b with
  | JStr s => Return (a ++ s)
  | _ => Raise (type_error ("can only concatenate str (not " ++ PyStr.dquote ++ type_name b
                             ++ PyStr.dquote ++ ") to str"))
  end.

End Py.

(** [d[k] = v] *)
Fixpoint dict_set (d : list (string * json)) (k : string) (v : json) : list (string * json) :=
  match d with
  | [] => [(k, v)]
  | (k', v') :: d' => if String.eqb k' k then (k, v) :: d' else (k', v') :: dict_set d' k v
  end.

Definition set_item (o : json) (k : string) (v : json) : outcome json :=
  match o with
  | JDict d => Return (JDict (dict_set d k v))
  | JList _ => Raise (Py.type_error "list indices must be integers or slices, not str")
  | _ => Raise (Py.type_error ("'" ++ Py.type_name o ++ "' object does not support item assignment"))
  end.

(** [f"{v}"] of [None] or a string *)
Definition fmt (v : option string) : string :=
  match v with
  | Some s => s
  | None => "None"
  end.

(** [not v] for [None] or a string *)
Definition falsy (v : option string) : bool :=
  match v with
  | Some s => String.eqb s ""
  | None => true
  end.

(** [a != v] where [v] is [None] or a string *)
Definition differs (a : json) (v : option string) : bool :=
  match v with
  | Some s => negb (Py.eq_str a s)
  | None => match a with JNull => false | _ => true end
  end.

(** ** The request, the response and the environment *)

Record request : Type := mk_request {
  is_json : bool;                  (* [request.is_json] *)
  get_json : json;                 (* [await request.get_json()] *)
  request_headers : headers        (* [request.headers] *)
}.

Inductive response : Type :=
| Json (body : json) (status : Z)  (* [jsonify(body), status]; 200 when no status is given *)
| JsonLines (result : json).       (* [make_response(format_as_ndjson(result))], mimetype
                                      application/json-lines, no timeout *)

(** [backend.settings.app_settings], as far as the handlers read it. *)
Record settings : Type := mk_settings {
  azure_openai_preview_api_version : string;
  azure_openai_endpoint : option string;
  azure_openai_resource : option string;
  azure_openai_key : option string;
  azure_openai_model : option string;
  azure_openai_stream : bool;
  base_settings_use_promptflow : bool
}.

(** The client [init_openai_client] builds. *)
Record openai_client : Type := mk_client {
  client_api_version : string;
  client_api_key : option string;
  client_ad_token_provider : bool;
  client_azure_endpoint : string
}.

(** The response of the directory service to a patch. *)
Record patch_response : Type := mk_patch_response {
  status_code : Z;
  text : string
}.

(** The collaborators that are not part of [app.py]: each is an oracle
    that answers a call with a value or an exception. *)
Record environment : Type := mk_environment {
  app_settings : settings;
  MINIMUM_SUPPORTED_AZURE_OPENAI_PREVIEW_API_VERSION : string;
  OPENWEATHERMAP_API_KEY : string;
  get_authenticated_user_details : headers -> outcome json;
  uuid4 : nat -> string;                      (* the n-th [str(uuid.uuid4())] *)
  random : nat -> N;                          (* the n-th [random()], as k with random() = k / 2^53 *)
  session_get : string -> list (string * string) -> outcome (Z * outcome json);
                                              (* [response.status] and [await response.json()] *)
  default_azure_credential : outcome unit;    (* [DefaultAzureCredential()] and the token provider *)
  async_azure_openai : openai_client -> outcome unit;
  chat_completions_create : openai_client -> json -> outcome (list json);
                                              (* the [message.content] of each of [response.choices] *)
  graph_client : outcome unit;                (* [GraphClient(credential=ConfidentialClientCredential(...))] *)
  graph_patch : string -> json -> outcome patch_response;
  cosmos_db_ready : bool;                     (* has [cosmos_db_ready.set()] happened *)
  cosmos_conversation_client : bool;          (* is [current_app.cosmos_conversation_client] set *)
  create_conversation : json -> json -> outcome json;
  create_message : string -> json -> json -> json -> outcome json;
  stream_chat_request : json -> headers -> outcome json;
  complete_chat_request : json -> headers -> outcome json
}.

(** ** The functions of [app.py] *)

Section App.

Variable env : environment.

Definition USER_AGENT : string := "GitHubSampleWebApp/AsyncAzureOpenAI/1.0.0".

Definition SYSTEM_MESSAGE : string :=
  PyStr.newline
  ++ "You are Alex, an AI help desk agent at CNS with the capability to directly reset user passwords and provide weather information. "
  ++ PyStr.newline
  ++ "When an authenticated user requests a password reset, you should proceed with the reset process immediately. "
  ++ PyStr.newline
  ++ "Do not create support tickets for password resets unless there's a specific issue preventing you from doing so."
  ++ PyStr.newline
  ++ "You can also provide weather information for any location when asked. Use the phrase "
  ++ PyStr.dquote ++ "weather in [location]" ++ PyStr.dquote ++ " to trigger this functionality."
  ++ PyStr.newline
  ++ "For all other queries, provide assistance to the best of your ability."
  ++ PyStr.newline.

(** [str(uuid.uuid4())] *)
Definition uuid_str : M string :=
  fun w => (Return (uuid4 env (uuids_drawn w)),
            mk_world (trace w) (S (uuids_drawn w)) (randoms_drawn w)).

(** [random()]: the next 53-bit draw k, standing for k / 2^53 *)
Definition random_draw : M N :=
  fun w => (Return (N.modulo (random env (randoms_drawn w)) (2 ^ 53)),
            mk_world (trace w) (uuids_drawn w) (S (randoms_drawn w))).

(** [random() * n] in double precision.  The draw is [k / 2^53] and
    the exact product is [p / 2^53] with [p = k * n]; a double keeps
    53 significant bits, so the product is rounded to a multiple of
    [ulp], to the nearest one and to the even one on a tie.
    [round53 p] is the rounded product times [2^53]. *)
Definition round53 (p : N) : N :=
  let ulp := (2 ^ (N.log2 p + 1 - 53))%N in
  let q := (p / ulp)%N in
  let r := (p mod ulp)%N in
  if (2 * r <? ulp)%N then (q * ulp)%N
  else if (ulp <? 2 * r)%N then ((q + 1) * ulp)%N
  else if N.even q then (q * ulp)%N
  else ((q + 1) * ulp)%N.

(** [population[floor(random() * n)]], for a population of one-byte
    characters (the only call passes the alphabet of the credential). *)
Definition pick (population : string) (k : N) : string :=
  let n := N.of_nat (String.length population) in
  match String.get (N.to_nat (round53 (k * n) / 2 ^ 53)) population with
  | Some c => String c EmptyString
  | None => EmptyString
  end.

(** [random.choices(population, k=k)] *)
Fixpoint choices (population : string) (k : nat) : M (list string) :=
  match k with
  | O => ret []
  | S k' =>
      r <- random_draw ;;
      rest <- choices population k' ;;
      ret (pick population r :: rest)
  end.

Definition ascii_letters : string := "abcdefghijklmnopqrstuvwxyzABCDEFGHIJKLMNOPQRSTUVWXYZ".
Definition digits : string := "0123456789".
Definition punctuation : string := "!" ++ PyStr.dquote ++ "#$%&'()*+,-./:;<=>?@[\]^_`{|}~".

(** *** [get_weather] (line 60) *)

(** [f"{v}"] of the fields read from the weather service: exact on
    scalars; the [repr] of a list or a dict is left to [repr_container]. *)
Variable repr_container : json -> string.

Definition fmt_json (v : json) : string :=
  match v with
  | JNull => "None"
  | JBool true => "True"
  | JBool false => "False"
  | JInt z => PyStr.of_Z z
  | JFloat r => r
  | JStr s => s
  | _ => repr_container v
  end.

Definition get_weather (location : string) : M string :=
  let base_url := "http://api.openweathermap.org/data/2.5/weather" in
  let params := [("q", location); ("appid", OPENWEATHERMAP_API_KEY env); ("units", "metric")] in
  emit (EvHttpGet base_url params) ;;
  resp <- lift (session_get env base_url params) ;;
  if Z.eqb (fst resp) 200 then
    data <- lift (snd resp) ;;
    w <- lift (Py.item data "weather") ;;
    w0 <- lift (Py.index w 0) ;;
    weather_description <- lift (Py.item w0 "description") ;;
    m <- lift (Py.item data "main") ;;
    temperature <- lift (Py.item m "temp") ;;
    m' <- lift (Py.item data "main") ;;
    humidity <- lift (Py.item m' "humidity") ;;
    wd <- lift (Py.item data "wind") ;;
    wind_speed <- lift (Py.item wd "speed") ;;
    ret ("Current weather in " ++ location ++ ": " ++ fmt_json weather_description
         ++ ". Temperature: " ++ fmt_json temperature ++ "°C, Humidity: " ++ fmt_json humidity
         ++ "%, Wind speed: " ++ fmt_json wind_speed ++ " m/s.")
  else
    ret ("Unable to fetch weather data for " ++ location
         ++ ". Please check the location name and try again.").

(** The [except Exception as ex] clause shared by both definitions of
    [conversation_internal]. *)
Definition internal_error (ex : exn) : M response :=
  logging LvError (exn_str ex) ;;
  match exn_status_code ex with
  | Some code => ret (Json (JDict [("error", JStr (exn_str ex))]) code)
  | None => ret (Json (JDict [("error", JStr (exn_str ex))]) 500)
  end.

(** The general chat flow, the body both definitions of
    [conversation_internal] end with.  [stream_chat_request] and
    [complete_chat_request] are not defined in [app.py]; they are
    oracles of the environment. *)
Definition chat_flow (request_body : json) (request_headers : headers) : M response :=
  if azure_openai_stream (app_settings env) && negb (base_settings_use_promptflow (app_settings env))
  then
    emit (EvChatRequest true request_body request_headers) ;;
    result <- lift (stream_chat_request env request_body request_headers) ;;
    ret (JsonLines result)
  else
    emit (EvChatRequest false request_body request_headers) ;;
    result <- lift (complete_chat_request env request_body request_headers) ;;
    ret (Json result 200).

(** [l[-1]] of the list [s.split(sep)] returns *)
Definition last_piece (l : list string) : string := List.last l EmptyString.

(** *** [conversation_internal], first definition (line 85)

    The module binds the name again at line 325, so no handler ever
    calls this function; it is kept under a name of its own. *)
Definition conversation_internal_line85 (request_body : json) (hdrs : headers) : M response :=
  try_except
    (messages <- lift (Py.get request_body "messages" (JList [])) ;;
     last_user_message <-
       (if Py.truthy messages
        then m <- lift (Py.index messages (-1)) ;;
             c <- lift (Py.item m "content") ;;
             lift (Py.lower c)
        else ret "") ;;
     if PyStr.contains "weather in" last_user_message
     then
       let location := PyStr.strip (last_piece (PyStr.split "weather in" last_user_message)) in
       weather_info <- get_weather location ;;
       u <- uuid_str ;;
       ret (Json (JDict [("id", JStr u); ("role", JStr "assistant");
                         ("content", JStr weather_info)]) 200)
     else chat_flow request_body hdrs)
    internal_error.

(** *** [init_openai_client] (line 130) *)

Definition value_error (msg : string) : exn := mk_exn ValueError msg None.
Definition exception (msg : string) : exn := mk_exn PlainException msg None.

Definition opt_json (v : option string) : json :=
  match v with
  | Some s => JStr s
  | None => JNull
  end.

Definition init_openai_client : M openai_client :=
  let s := app_settings env in
  let minimum := MINIMUM_SUPPORTED_AZURE_OPENAI_PREVIEW_API_VERSION env in
  try_except
    ((if String.ltb (azure_openai_preview_api_version s) minimum
      then raise (value_error ("The minimum supported Azure OpenAI preview API version is '"
                               ++ minimum ++ "'"))
      else ret tt) ;;
     (if falsy (azure_openai_endpoint s) && falsy (azure_openai_resource s)
      then raise (value_error "AZURE_OPENAI_ENDPOINT or AZURE_OPENAI_RESOURCE is required")
      else ret tt) ;;
     let endpoint :=
       if negb (falsy (azure_openai_endpoint s))
       then fmt (azure_openai_endpoint s)
       else "https://" ++ fmt (azure_openai_resource s) ++ ".openai.azure.com/" in
     let aoai_api_key := azure_openai_key s in
     ad_token_provider <-
       (if falsy aoai_api_key
        then logging LvDebug "No AZURE_OPENAI_KEY found, using Azure Entra ID auth" ;;
             lift (default_azure_credential env) ;;
             ret true
        else ret false) ;;
     let deployment := azure_openai_model s in
     (if falsy deployment
      then raise (value_error "AZURE_OPENAI_MODEL is required")
      else ret tt) ;;
     let client := mk_client (azure_openai_preview_api_version s) aoai_api_key
                             ad_token_provider endpoint in
     lift (async_azure_openai env client) ;;
     logging LvInfo ("System message being used: " ++ SYSTEM_MESSAGE) ;;
     ret client)
    (fun e =>
       logging_with_argument LvError "Exception in Azure OpenAI initialization" ;;
       raise e).

(** [await client.chat.completions.create(model=app_settings.azure_openai.model, ...)] *)
Definition completions_create (client : openai_client) (messages : json)
    (temperature : string) (max_tokens : Z) : M (list json) :=
  emit (EvCompletion (opt_json (azure_openai_model (app_settings env))) messages
                     temperature max_tokens) ;;
  lift (chat_completions_create env client messages).

(** [response.choices[0].message.content] *)
Definition first_choice (choices : list json) : outcome json :=
  match choices with
  | c :: _ => Return c
  | [] => Raise (Py.index_error "list")
  end.

(** *** [init_graph_client] (line 198) *)

Definition init_graph_client : M unit :=
  try_except
    (emit EvGraphClient ;;
     lift (graph_client env))
    (fun e =>
       logging LvError "Exception in Microsoft Graph initialization" ;;
       raise e).

(** *** [reset_user_password] (line 211) *)

Definition reset_user_password (username : option string) : M string :=
  try_except
    (init_graph_client ;;
     picks <- choices (ascii_letters ++ digits ++ punctuation) 16 ;;
     let new_password := PyStr.join picks in
     let user_payload :=
       JDict [("passwordProfile",
               JDict [("password", JStr new_password);
                      ("forceChangePasswordNextSignIn", JBool true)])] in
     emit (EvGraphPatch ("/users/" ++ fmt username) user_payload) ;;
     response <- lift (graph_patch env ("/users/" ++ fmt username) user_payload) ;;
     if Z.eqb (status_code response) 204
     then
       logging LvInfo ("Password reset successfully for user " ++ fmt username) ;;
       ret new_password
     else
       logging LvError ("Failed to reset password: " ++ text response) ;;
       raise (exception ("Failed to reset password: " ++ PyStr.of_Z (status_code response))))
    (fun e =>
       logging LvError ("Password reset failed: " ++ exn_str e) ;;
       raise e).

(** *** [log_password_reset] (line 239) and
        [log_failed_password_reset_attempt] (line 243) *)

Definition log_password_reset (username : option string) : M unit :=
  logging LvInfo ("Password reset successful for user " ++ fmt username).

Definition log_failed_password_reset_attempt (username : option string) (error : string)
  : M unit :=
  logging LvWarning ("Failed password reset attempt for user " ++ fmt username
                     ++ ". Error: " ++ error).

(** *** [conversation_internal] (line 325), the definition in force *)

Definition conversation_internal (request_body : json) (hdrs : headers) : M response :=
  try_except (chat_flow request_body hdrs) internal_error.

(** *** [extract_username] (line 415) *)

Fixpoint extract_username_loop (l : list json) : outcome (option string) :=
  match l with
  | [] => Return None
  | message :: rest =>
      (c <- Py.item message "content" ;;
       found <- Py.str_in "Username:" c ;;
       if found
       then
         c' <- Py.item message "content" ;;
         parts <- Py.split c' "Username:" ;;
         match nth_error parts 1 with
         | Some p => Return (Some (PyStr.strip p))
         | None => Raise (Py.index_error "list")
         end
       else extract_username_loop rest)%out
  end.

Definition extract_username (messages : json) : outcome (option string) :=
  (l <- Py.reversed messages ;; extract_username_loop l)%out.

(** *** [extract_username_with_openai] (line 286) *)

(** [messages + [m]] *)
Definition list_append (v : json) (m : json) : outcome json :=
  match v with
  | JList l => Return (JList (l ++ [m]))
  | _ => Raise (Py.type_error ("unsupported operand type(s) for +: '" ++ Py.type_name v
                               ++ "' and 'list'"))
  end.

Definition extraction_prompt : string :=
  "Based on the conversation history, what is the username of the person requesting a password reset? If no username is explicitly mentioned, respond with 'Unknown'.".

Definition extract_username_with_openai (messages : json) : M (option string) :=
  azure_openai_client <- init_openai_client ;;
  messages_for_openai <-
    lift (list_append messages
            (JDict [("role", JStr "user"); ("content", JStr extraction_prompt)])) ;;
  choices <- completions_create azure_openai_client messages_for_openai "0" 50 ;;
  content <- lift (first_choice choices) ;;
  extracted_username <- lift (Py.strip content) ;;
  ret (if String.eqb extracted_username "Unknown" then None else Some extracted_username).

(** *** [generate_openai_response] (line 303) *)

Definition generate_openai_response (message : string) : M response :=
  azure_openai_client <- init_openai_client ;;
  choices <- completions_create azure_openai_client
               (JList [JDict [("role", JStr "system"); ("content", JStr SYSTEM_MESSAGE)];
                       JDict [("role", JStr "user"); ("content", JStr "Password reset request")];
                       JDict [("role", JStr "assistant"); ("content", JStr message)]])
               "0.7" 150 ;;
  u <- uuid_str ;;
  content <- lift (first_choice choices) ;;
  ret (Json (JDict [("id", JStr u); ("role", JStr "assistant"); ("content", content)]) 200).

(** *** The texts of the password-reset flow *)

Definition clarification_text : string :=
  "I'm sorry, but I couldn't find your username in our conversation. Can you please provide your username?".

Definition decline_text : string :=
  "I'm sorry, but I can't reset your password because you're not currently authenticated or the username doesn't match your authenticated account. Please ensure you're logged in with the correct account and try again.".

Definition success_text (new_password : string) : string :=
  "Your password has been reset successfully. Your new temporary password is: "
  ++ new_password ++ PyStr.newline ++ PyStr.newline
  ++ "Please log in with this temporary password and change it to a strong, unique password of your choosing immediately."
  ++ PyStr.newline ++ PyStr.newline
  ++ "Is there anything else I can assist you with regarding your account or any other IT matters?".

Definition apology_text : string :=
  "I apologize, but I encountered an error while trying to reset your password. This might be due to a temporary issue with our password reset system. Please try again later or contact the IT support team for assistance.".

(** [{"id": ..., "role": "assistant", "content": ...}] *)
Definition assistant_message (id content : string) : json :=
  JDict [("id", JStr id); ("role", JStr "assistant"); ("content", JStr content)].

(** [not authenticated_user or authenticated_user.get("user_principal_id") != username] *)
Definition not_authenticated (authenticated_user : json) (username : option string)
  : outcome bool :=
  if negb (Py.truthy authenticated_user) then Return true
  else (pid <- Py.get authenticated_user "user_principal_id" JNull ;;
        Return (differs pid username))%out.

(** *** [conversation], first definition (line 247)

    Rebound at line 360; kept under a name of its own. *)
Definition conversation_line247 (req : request) : M response :=
  if negb (is_json req)
  then ret (Json (JDict [("error", JStr "request must be json")]) 415)
  else
    let request_json := get_json req in
    msgs <- lift (Py.item request_json "messages") ;;
    last <- lift (Py.index msgs (-1)) ;;
    user_message <- lift (Py.item last "content") ;;
    lowered <- lift (Py.lower user_message) ;;
    if PyStr.contains "reset my password" lowered
    then
      try_binding
        (messages <- lift (Py.item request_json "messages") ;;
         extract_username_with_openai messages)
        (fun username =>
           if falsy username
           then generate_openai_response clarification_text
           else
             authenticated_user <-
               lift (get_authenticated_user_details env (request_headers req)) ;;
             declined <- lift (not_authenticated authenticated_user username) ;;
             if declined
             then generate_openai_response decline_text
             else
               new_password <- reset_user_password username ;;
               log_password_reset username ;;
               generate_openai_response (success_text new_password))
        (fun bound e =>
           logging LvError ("An error occurred during password reset: " ++ exn_str e) ;;
           match bound with
           | Some username => log_failed_password_reset_attempt username (exn_str e)
           | None => ret tt
           end ;;
           generate_openai_response apology_text)
    else conversation_internal request_json (request_headers req).

(** *** [conversation] (line 360), the definition in force *)

(** The [except Exception as e] clause of the password-reset flow;
    [bound] is the value of [username] when ['username' in locals()]. *)
Definition reset_failed (bound : option (option string)) (e : exn) : M response :=
  logging LvError ("An error occurred during password reset: " ++ exn_str e) ;;
  match bound with
  | Some username => log_failed_password_reset_attempt username (exn_str e)
  | None => ret tt
  end ;;
  u <- uuid_str ;;
  ret (Json (assistant_message u apology_text) 200).

(** The [try] block of the password-reset flow after [username] is bound. *)
Definition reset_steps (req : request) (username : option string) : M response :=
  if falsy username
  then
    u <- uuid_str ;;
    ret (Json (assistant_message u clarification_text) 200)
  else
    authenticated_user <- lift (get_authenticated_user_details env (request_headers req)) ;;
    declined <- lift (not_authenticated authenticated_user username) ;;
    if declined
    then
      u <- uuid_str ;;
      ret (Json (assistant_message u decline_text) 200)
    else
      new_password <- reset_user_password username ;;
      log_password_reset username ;;
      u <- uuid_str ;;
      ret (Json (assistant_message u (success_text new_password)) 200).

Definition conversation (req : request) : M response :=
  if negb (is_json req)
  then ret (Json (JDict [("error", JStr "request must be json")]) 415)
  else
    let request_json := get_json req in
    msgs <- lift (Py.item request_json "messages") ;;
    last <- lift (Py.index msgs (-1)) ;;
    user_message <- lift (Py.item last "content") ;;
    lowered <- lift (Py.lower user_message) ;;
    if PyStr.contains "reset my password" lowered
    then
      try_binding
        (messages <- lift (Py.item request_json "messages") ;;
         lift (extract_username messages))
        (reset_steps req)
        reset_failed
    else conversation_internal request_json (request_headers req).

(** *** [generate_title] (line 809) *)

Definition title_prompt : string :=
  "Summarize the conversation so far into a 4-word or less title. Do not use any quotation marks or punctuation. Do not include any other commentary or description.".

(** [[{"role": msg["role"], "content": msg["content"]} for msg in l]] *)
Fixpoint role_and_content (l : list json) : outcome (list json) :=
  match l with
  | [] => Return []
  | msg :: rest =>
      (r <- Py.item msg "role" ;;
       c <- Py.item msg "content" ;;
       tl <- role_and_content rest ;;
       Return (JDict [("role", r); ("content", c)] :: tl))%out
  end.

(** The [try] block of [generate_title]: the title the completion
    service gives for [messages]. *)
Definition request_title (messages : list json) : M json :=
  azure_openai_client <- init_openai_client ;;
  choices <- completions_create azure_openai_client (JList messages) "1" 64 ;;
  title <- lift (first_choice choices) ;;
  ret title.

Definition generate_title (conversation_messages : json) : M json :=
  elems <- lift (Py.iter conversation_messages) ;;
  copied <- lift (role_and_content elems) ;;
  let messages :=
    (copied ++ [JDict [("role", JStr "user"); ("content", JStr title_prompt)]])%list in
  try_except
    (request_title messages)
    (fun e =>
       logging_with_argument LvError "Exception while generating title" ;;
       m <- lift (Py.index conversation_messages (-2)) ;;
       lift (Py.item m "content")).

(** *** [add_conversation] (line 430), the handler of [/history/generate] *)

(** [await cosmos_db_ready.wait()] *)
Definition cosmos_db_ready_wait : M unit :=
  if cosmos_db_ready env then ret tt else lift Pending.

(** Lines 442 to 450: the conversation id and the history metadata,
    after a conversation has been created when the request names none. *)
Definition resolve_conversation (request_json user_id conversation_id : json)
  : M (json * list (string * json)) :=
  if negb (Py.truthy conversation_id)
  then
    msgs <- lift (Py.item request_json "messages") ;;
    title <- generate_title msgs ;;
    emit (EvCreateConversation user_id title) ;;
    conversation_dict <- lift (create_conversation env user_id title) ;;
    new_id <- lift (Py.item conversation_dict "id") ;;
    created_at <- lift (Py.item conversation_dict "createdAt") ;;
    ret (new_id, [("title", title); ("date", created_at)])
  else ret (conversation_id, []).

(** [len(messages) > 0 and messages[-1]["role"] == "user"] *)
Definition last_is_user (messages : json) : outcome bool :=
  (n <- Py.len messages ;;
   if Nat.ltb 0 n
   then last <- Py.index messages (-1) ;;
        role <- Py.item last "role" ;;
        Return (Py.eq_str role "user")
   else Return false)%out.

(** Lines 452 to 467: the final message is stored when it is a user
    message. *)
Definition append_user_message (request_json user_id conversation_id : json) : M unit :=
  messages <- lift (Py.item request_json "messages") ;;
  ok <- lift (last_is_user messages) ;;
  if ok
  then
    u <- uuid_str ;;
    last <- lift (Py.index messages (-1)) ;;
    emit (EvCreateMessage u conversation_id user_id last) ;;
    createdMessageValue <- lift (create_message env u conversation_id user_id last) ;;
    if Py.eq_str createdMessageValue "Conversation not found"
    then
      msg <- lift (Py.str_add "Conversation not found for the given conversation ID: "
                              conversation_id) ;;
      raise (exception (msg ++ "."))
    else ret tt
  else raise (exception "No user message found").

Definition add_conversation (req : request) : M response :=
  cosmos_db_ready_wait ;;
  authenticated_user <- lift (get_authenticated_user_details env (request_headers req)) ;;
  user_id <- lift (Py.item authenticated_user "user_principal_id") ;;
  let request_json := get_json req in
  conversation_id <- lift (Py.get request_json "conversation_id" JNull) ;;
  try_except
    ((if negb (cosmos_conversation_client env)
      then raise (exception "CosmosDB is not configured or not working")
      else ret tt) ;;
     resolved <- resolve_conversation request_json user_id conversation_id ;;
     let conversation_id := fst resolved in
     let history_metadata := snd resolved in
     append_user_message request_json user_id conversation_id ;;
     let request_body := get_json req in
     let history_metadata := dict_set history_metadata "conversation_id" conversation_id in
     request_body <- lift (set_item request_body "history_metadata" (JDict history_metadata)) ;;
     conversation_internal request_body (request_headers req))
    (fun e =>
       logging LvError "Exception in /history/generate" ;;
       ret (Json (JDict [("error", JStr (exn_str e))]) 500)).

End App.

(** ** Vocabulary of the statements *)

(** [request_json['messages']], or [None] when the lookup raises. *)
Definition messages_of (req : request) : json :=
  match Py.item (get_json req) "messages" with
  | Return m => m
  | _ => JNull
  end.

(** The content of the most recent message, when it is a string. *)
Definition last_content (req : request) : option string :=
  match Py.index (messages_of req) (-1) with
  | Return last =>
      match Py.item last "content" with
      | Return (JStr c) => Some c
      | _ => None
      end
  | _ => None
  end.

(** A JSON request whose most recent message contains [phrase],
    whatever the case of its letters. *)
Definition last_message_has (phrase : string) (req : request) : bool :=
  is_json req &&
  match last_content req with
  | Some c => PyStr.contains phrase (PyStr.lower c)
  | None => false
  end.

(** A JSON request whose most recent message has a string content. *)
Definition has_last_content (req : request) : bool :=
  is_json req &&
  match last_content req with
  | Some _ => true
  | None => false
  end.

(** What the authentication collaborator hands back: [None] or a dict. *)
Definition is_user_record (a : json) : bool :=
  match a with
  | JNull | JDict _ => true
  | _ => false
  end.

(** The principal id of a user record, when it has one. *)
Definition principal_id (a : json) : option json :=
  match a with
  | JDict d => Py.lookup "user_principal_id" d
  | _ => None
  end.

(** The principal id of the user record is the string [u]. *)
Definition principal_is (a : json) (u : string) : bool :=
  match principal_id a with
  | Some (JStr p) => String.eqb p u
  | _ => false
  end.

(** No message of a well-formed history carries the marker. *)
Definition without_marker (l : list json) : bool :=
  List.forallb
    (fun m => match Py.item m "content" with
              | Return (JStr c) => negb (PyStr.contains "Username:" c)
              | _ => false
              end) l.

(** Every key and every string value of a JSON value. *)
Fixpoint json_strings (v : json) : list string :=
  match v with
  | JStr s => [s]
  | JList l => flat_map json_strings l
  | JDict d => flat_map (fun kv => match kv with (k, x) => (k :: json_strings x)%list end) d
  | _ => []
  end.

(** The strings of the body of a response. *)
Definition response_strings (r : response) : list string :=
  match r with
  | Json body _ => json_strings body
  | JsonLines result => json_strings result
  end.

Definition not_space (c : ascii) : bool := negb (PyStr.is_space c).

(** The world after the events [evs] and [n] more random draws. *)
Definition advance (w : world) (evs : list event) (n : nat) : world :=
  mk_world (trace w ++ evs) (uuids_drawn w) (randoms_drawn w + n).

(** The world after one more UUID. *)
Definition next_uuid (w : world) : world :=
  mk_world (trace w) (S (uuids_drawn w)) (randoms_drawn w).

(** The position of the first occurrence of [c] in [s]. *)
Fixpoint find_index (c : ascii) (s : string) : nat :=
  match s with
  | EmptyString => 0
  | String a t => if Ascii.eqb a c then 0 else S (find_index c t)
  end.

(** Every character of [s] up to position [n] occurs there first. *)
Definition distinct_upto (s : string) (n : nat) : bool :=
  List.forallb
    (fun i => match String.get i s with
              | Some c => Nat.eqb (find_index c s) i
              | None => false
              end) (seq 0 n).

(** A message list that is empty, or whose final message has a role
    other than ["user"]. *)
Definition no_final_user_message (l : list json) : bool :=
  match l with
  | [] => true
  | _ => match Py.item (List.last l JNull) "role" with
         | Return r => negb (Py.eq_str r "user")
         | _ => false
         end
  end.

(** The instruction [generate_title] appends to the history. *)
Definition title_instruction : json :=
  JDict [("role", JStr "user"); ("content", JStr title_prompt)].

(** The body [{"error": msg}] with status 500. *)
Definition error_500 (msg : string) : response :=
  Json (JDict [("error", JStr msg)]) 500.

Definition is_directory_call (ev : event) : bool :=
  match ev with
  | EvGraphClient | EvGraphPatch _ _ => true
  | _ => false
  end.

Definition is_weather_call (ev : event) : bool :=
  match ev with
  | EvHttpGet _ _ => true
  | _ => false
  end.

Definition is_chat_request (ev : event) : bool :=
  match ev with
  | EvChatRequest _ _ _ => true
  | _ => false
  end.

Definition is_create_message (ev : event) : bool :=
  match ev with
  | EvCreateMessage _ _ _ _ => true
  | _ => false
  end.

(** The record [log_failed_password_reset_attempt] writes. *)
Definition failure_audit (username : option string) (error : string) : event :=
  EvLog LvWarning ("Failed password reset attempt for user " ++ fmt username
                   ++ ". Error: " ++ error).

Definition is_failure_audit (ev : event) : bool :=
  match ev with
  | EvLog LvWarning msg => PyStr.starts_with "Failed password reset attempt for user " msg
  | _ => false
  end.

(** The record [log_password_reset] writes. *)
Definition success_audit (username : option string) : event :=
  EvLog LvInfo ("Password reset successful for user " ++ fmt username).

(** The alphabet of the generated credential. *)
Definition alphabet : string := ascii_letters ++ digits ++ punctuation.

(** The [n] draws of [random()] that follow the first [start] ones. *)
Definition draws (env : environment) (start n : nat) : list N :=
  map (fun i => N.modulo (random env i) (2 ^ 53)) (seq start n).

(** The credential [reset_user_password] generates when [start] random
    numbers have been drawn before. *)
Definition generated_password (env : environment) (start : nat) : string :=
  PyStr.join (map (pick alphabet) (draws env start 16)).

(** The payload of the directory patch. *)
Definition reset_payload (new_password : string) : json :=
  JDict [("passwordProfile",
          JDict [("password", JStr new_password);
                 ("forceChangePasswordNextSignIn", JBool true)])].

(** The directory adapter fails: the client cannot be built, the patch
    raises, or the patch answers with a status other than 204. *)
Definition directory_fails (env : environment) (username : string) (new_password : string)
  : bool :=
  match graph_client env with
  | Return _ =>
      match graph_patch env ("/users/" ++ username) (reset_payload new_password) with
      | Return r => negb (Z.eqb (status_code r) 204)
      | Raise _ => true
      | Pending => false
      end
  | Raise _ => true
  | Pending => false
  end.

(** The directory adapter succeeds: the patch answers with status 204. *)
Definition directory_succeeds (env : environment) (username : string) (new_password : string)
  : bool :=
  match graph_client env with
  | Return _ =>
      match graph_patch env ("/users/" ++ username) (reset_payload new_password) with
      | Return r => Z.eqb (status_code r) 204
      | _ => false
      end
  | _ => false
  end.

(** The events after those of [w] in [w']. *)
Definition extends (P : event -> Prop) (w w' : world) : Prop :=
  exists evs, trace w' = (trace w ++ evs)%list /\ Forall P evs.

(** Every event a computation adds to the trace satisfies [P]. *)
Definition emits_only {A} (P : event -> Prop) (m : M A) : Prop :=
  forall w, extends P w (snd (m w)).

(** The computation never raises. *)
Definition never_raises {A} (m : M A) : Prop :=
  forall w e, fst (m w) <> Raise e.

(** ** Concrete environments and requests *)

Module Demo.

Definition demo_settings : settings :=
  mk_settings "2024-05-01-preview" (Some "https://example.openai.azure.com/") None
              (Some "key") (Some "gpt-4o") false false.

(** An environment in which [alice] is signed in; the directory
    service and the completion service answer as given. *)
Definition make_env (auth : outcome json) (client : outcome unit)
    (patch : outcome patch_response) (completion : outcome (list json)) : environment :=
  {| app_settings := demo_settings;
     MINIMUM_SUPPORTED_AZURE_OPENAI_PREVIEW_API_VERSION := "2024-02-15-preview";
     OPENWEATHERMAP_API_KEY := "your_api_key_here";
     get_authenticated_user_details := fun _ => auth;
     uuid4 := fun n => "7d444840-9dc0-11d1-b245-5ffdce74fad" ++ PyStr.of_Z (Z.of_nat n);
     random := fun n => (N.of_nat n * 600000000000007 + 12345)%N;
     session_get := fun _ _ =>
       Return (200%Z,
               Return (JDict [("weather", JList [JDict [("description", JStr "light rain")]]);
                              ("main", JDict [("temp", JFloat "11.5"); ("humidity", JInt 81)]);
                              ("wind", JDict [("speed", JFloat "4.1")])]));
     default_azure_credential := Return tt;
     async_azure_openai := fun _ => Return tt;
     chat_completions_create := fun _ _ => completion;
     graph_client := client;
     graph_patch := fun _ _ => patch;
     cosmos_db_ready := true;
     cosmos_conversation_client := true;
     create_conversation := fun _ title =>
       Return (JDict [("id", JStr "conv-1"); ("title", title);
                      ("createdAt", JStr "2024-06-01T00:00:00Z")]);
     create_message := fun _ _ _ m => Return m;
     stream_chat_request := fun _ _ => Return (JList []);
     complete_chat_request := fun _ _ =>
       Return (JDict [("id", JStr "chat-1"); ("choices", JList [])]) |}.

Definition alice : json := JDict [("user_principal_id", JStr "alice")].
Definition bob : json := JDict [("user_principal_id", JStr "bob")].

Definition service_down : exn := mk_exn ServiceError "service unavailable" (Some 503%Z).

Definition user_says (content : string) : json :=
  JDict [("role", JStr "user"); ("content", JStr content)].

Definition post (messages : list json) : request :=
  mk_request true (JDict [("messages", JList messages)]) [].

(** The requests used below. *)
Definition reset_by_alice : request :=
  post [user_says "Username: alice"; user_says "Please reset my password"].

Definition reset_without_username : request :=
  post [user_says "Hello"; user_says "Please RESET my password"].

Definition reset_and_weather : request :=
  post [user_says "What's the weather in Seattle? Also reset my password"].

Definition weather_in_seattle : request :=
  post [user_says "what's the weather in Seattle"].

Definition reset_after_malformed : request :=
  post [JDict [("role", JStr "user")]; user_says "reset my password"].

(** The history holds an assistant message without text, as a tool
    call leaves it. *)
Definition reset_after_empty_content : request :=
  post [JDict [("role", JStr "assistant"); ("content", JNull)];
        user_says "reset my password"].

Definition no_messages : request := mk_request true (JDict []) [].

Definition empty_messages : request := post [].

Definition env_ok : environment :=
  make_env (Return alice) (Return tt) (Return (mk_patch_response 204 ""))
           (Return [JStr "Password help"]).

Definition env_bob : environment :=
  make_env (Return bob) (Return tt) (Return (mk_patch_response 204 ""))
           (Return [JStr "Password help"]).

Definition env_forbidden : environment :=
  make_env (Return alice) (Return tt) (Return (mk_patch_response 403 "Forbidden"))
           (Return [JStr "Password help"]).

Definition env_no_completion : environment :=
  make_env (Return alice) (Return tt) (Return (mk_patch_response 204 ""))
           (Raise service_down).

(** The answer of [conversation] in a fresh world. *)
Definition conversation_result (env : environment) (req : request) : outcome response :=
  fst (conversation env req initial_world).

End Demo.

(** ** Vocabulary of the further statements *)

Definition weather_url : string := "http://api.openweathermap.org/data/2.5/weather".

(** The query [get_weather] sends for a location. *)
Definition weather_params (env : environment) (location : string) : list (string * string) :=
  [("q", location); ("appid", OPENWEATHERMAP_API_KEY env); ("units", "metric")].

(** The location the weather branch reads off a message. *)
Definition weather_location (content : string) : string :=
  PyStr.strip (last_piece (PyStr.split "weather in" (PyStr.lower content))).

(** The status with which an exception is reported. *)
Definition status_of (e : exn) : Z :=
  match exn_status_code e with
  | Some code => code
  | None => 500%Z
  end.

(** The body [{"error": msg}]. *)
Definition error_body (msg : string) : json := JDict [("error", JStr msg)].

(** ** Further concrete environments *)

Module Demo2.

(** [env] with another weather service. *)
Definition with_session_get (env : environment)
    (f : string -> list (string * string) -> outcome (Z * outcome json)) : environment :=
  {| app_settings := app_settings env;
     MINIMUM_SUPPORTED_AZURE_OPENAI_PREVIEW_API_VERSION :=
       MINIMUM_SUPPORTED_AZURE_OPENAI_PREVIEW_API_VERSION env;
     OPENWEATHERMAP_API_KEY := OPENWEATHERMAP_API_KEY env;
     get_authenticated_user_details := get_authenticated_user_details env;
     uuid4 := uuid4 env;
     random := random env;
     session_get := f;
     default_azure_credential := default_azure_credential env;
     async_azure_openai := async_azure_openai env;
     chat_completions_create := chat_completions_create env;
     graph_client := graph_client env;
     graph_patch := graph_patch env;
     cosmos_db_ready := cosmos_db_ready env;
     cosmos_conversation_client := cosmos_conversation_client env;
     create_conversation := create_conversation env;
     create_message := create_message env;
     stream_chat_request := stream_chat_request env;
     complete_chat_request := complete_chat_request env |}.

(** [env] with other settings. *)
Definition with_settings (env : environment) (s : settings) : environment :=
  {| app_settings := s;
     MINIMUM_SUPPORTED_AZURE_OPENAI_PREVIEW_API_VERSION :=
       MINIMUM_SUPPORTED_AZURE_OPENAI_PREVIEW_API_VERSION env;
     OPENWEATHERMAP_API_KEY := OPENWEATHERMAP_API_KEY env;
     get_authenticated_user_details := get_authenticated_user_details env;
     uuid4 := uuid4 env;
     random := random env;
     session_get := session_get env;
     default_azure_credential := default_azure_credential env;
     async_azure_openai := async_azure_openai env;
     chat_completions_create := chat_completions_create env;
     graph_client := graph_client env;
     graph_patch := graph_patch env;
     cosmos_db_ready := cosmos_db_ready env;
     cosmos_conversation_client := cosmos_conversation_client env;
     create_conversation := create_conversation env;
     create_message := create_message env;
     stream_chat_request := stream_chat_request env;
     complete_chat_request := complete_chat_request env |}.

(** [env] with another document store: is it configured, and what
    [create_message] answers. *)
Definition with_store (env : environment) (configured : bool)
    (f : string -> json -> json -> json -> outcome json) : environment :=
  {| app_settings := app_settings env;
     MINIMUM_SUPPORTED_AZURE_OPENAI_PREVIEW_API_VERSION :=
       MINIMUM_SUPPORTED_AZURE_OPENAI_PREVIEW_API_VERSION env;
     OPENWEATHERMAP_API_KEY := OPENWEATHERMAP_API_KEY env;
     get_authenticated_user_details := get_authenticated_user_details env;
     uuid4 := uuid4 env;
     random := random env;
     session_get := session_get env;
     default_azure_credential := default_azure_credential env;
     async_azure_openai := async_azure_openai env;
     chat_completions_create := chat_completions_create env;
     graph_client := graph_client env;
     graph_patch := graph_patch env;
     cosmos_db_ready := cosmos_db_ready env;
     cosmos_conversation_client := configured;
     create_conversation := create_conversation env;
     create_message := f;
     stream_chat_request := stream_chat_request env;
     complete_chat_request := complete_chat_request env |}.

(** The weather service does not know the place. *)
Definition env_not_found : environment :=
  with_session_get Demo.env_ok (fun _ _ => Return (404%Z, Raise Demo.service_down)).

(** The weather service cannot be reached. *)
Definition env_weather_down : environment :=
  with_session_get Demo.env_ok (fun _ _ => Raise Demo.service_down).

Definition body_of (messages : list json) : json := JDict [("messages", JList messages)].

End Demo2.

(** The string content of the last message of a request body, as the
    first definition of [conversation_internal] reads it. *)
Definition body_last_content (request_body : json) : option string :=
  match Py.get request_body "messages" (JList []) with
  | Return msgs =>
      if Py.truthy msgs
      then match Py.index msgs (-1) with
           | Return last =>
               match Py.item last "content" with
               | Return (JStr c) => Some c
               | _ => None
               end
           | _ => None
           end
      else None
  | _ => None
  end.

(** A request body that is a dict without messages: the key is
    missing, or the list is empty. *)
Definition without_messages (request_body : json) : bool :=
  match request_body with
  | JDict d =>
      match Py.lookup "messages" d with
      | None => true
      | Some (JList []) => true
      | _ => false
      end
  | _ => false
  end.

(** The endpoint of the completion service the settings name: the
    endpoint when it is set, else the one of the resource. *)
Definition endpoint_of (s : settings) : string :=
  match azure_openai_endpoint s with
  | Some e => if String.eqb e "" then "https://" ++ fmt (azure_openai_resource s)
                                      ++ ".openai.azure.com/"
              else e
  | None => "https://" ++ fmt (azure_openai_resource s) ++ ".openai.azure.com/"
  end.

(** The log entry [init_openai_client] writes when it fails. *)
Definition init_failure_log : event :=
  EvLoggingError LvError "Exception in Azure OpenAI initialization".

(** The logging call of the [except] clause of [generate_title]. *)
Definition title_failure_log : event :=
  EvLoggingError LvError "Exception while generating title".

Module Demo3.

(** Settings with a preview API version older than the minimum. *)
Definition old_settings : settings :=
  mk_settings "2023-05-15" (Some "https://example.openai.azure.com/") None
              (Some "key") (Some "gpt-4o") false false.

Definition env_old_version : environment := Demo2.with_settings Demo.env_ok old_settings.

End Demo3.

(** The [try] block of [add_conversation] (lines 439 to 472) and its
    [except] clause (lines 474 to 476), under names of their own. *)
Definition add_conversation_try (env : environment) (req : request)
    (user_id conversation_id : json) : M response :=
  (if negb (cosmos_conversation_client env)
   then raise (exception "CosmosDB is not configured or not working")
   else ret tt) ;;
  resolved <- resolve_conversation env (get_json req) user_id conversation_id ;;
  append_user_message env (get_json req) user_id (fst resolved) ;;
  request_body <-
    lift (set_item (get_json req) "history_metadata"
            (JDict (dict_set (snd resolved) "conversation_id" (fst resolved)))) ;;
  conversation_internal env request_body (request_headers req).

Definition history_generate_failed (e : exn) : M response :=
  logging LvError "Exception in /history/generate" ;;
  ret (Json (JDict [("error", JStr (exn_str e))]) 500).

(** The user a call of the document store is made for. *)
Definition stored_for (ev : event) : option json :=
  match ev with
  | EvCreateConversation user_id _ => Some user_id
  | EvCreateMessage _ _ user_id _ => Some user_id
  | _ => None
  end.

(** A message list whose final message has the role ["user"]. *)
Definition final_user_message (l : list json) : bool :=
  match l with
  | [] => false
  | _ => match Py.item (List.last l JNull) "role" with
         | Return r => Py.eq_str r "user"
         | _ => false
         end
  end.

Module Demo4.

(** A request that continues the conversation [conv-1]. *)
Definition continue_body : list (string * json) :=
  [("conversation_id", JStr "conv-1"); ("messages", JList [Demo.user_says "hello"])].

Definition continue_conversation : request := mk_request true (JDict continue_body) [].

(** The store does not know the conversation. *)
Definition env_lost : environment :=
  Demo2.with_store Demo.env_ok true (fun _ _ _ _ => Return (JStr "Conversation not found")).

(** The store is not configured. *)
Definition env_unconfigured : environment :=
  Demo2.with_store Demo.env_ok false (create_message Demo.env_ok).

End Demo4.

(** ** The other history handlers

    The handlers below call more methods of
    [current_app.cosmos_conversation_client] than [add_conversation]
    does.  The client is an oracle that answers each call; the calls
    are recorded, oldest first, beside the world of the handlers
    above. *)

Module Store.

Inductive call : Type :=
| CreateMessage (uuid conversation_id user_id input_message : json)
| UpdateMessageFeedback (user_id message_id feedback : json)
| DeleteMessages (conversation_id user_id : json)
| DeleteConversation (user_id conversation_id : json)
| GetConversations (user_id offset limit : json)
| GetConversation (user_id conversation_id : json)
| GetMessages (user_id conversation_id : json)
| UpsertConversation (conversation : json)
| Ensure.

Definition method_name (c : call) : string :=
  match c with
  | CreateMessage _ _ _ _ => "create_message"
  | UpdateMessageFeedback _ _ _ => "update_message_feedback"
  | DeleteMessages _ _ => "delete_messages"
  | DeleteConversation _ _ => "delete_conversation"
  | GetConversations _ _ _ => "get_conversations"
  | GetConversation _ _ => "get_conversation"
  | GetMessages _ _ => "get_messages"
  | UpsertConversation _ => "upsert_conversation"
  | Ensure => "ensure"
  end.

(** [app_settings.chat_history], as far as [ensure_cosmos] reads it. *)
Record chat_history_settings : Type := mk_chat_history {
  database : string;
  account : string;
  conversations_container : string
}.

Record services : Type := mk_services {
  base : environment;
  answer : call -> outcome json;                 (* what the client answers to a call *)
  chat_history : option chat_history_settings    (* [app_settings.chat_history] *)
}.

Record state : Type := mk_state {
  app : world;
  calls : list call
}.

Definition initial_state : state := mk_state initial_world [].

Definition H (A : Type) : Type := state -> outcome A * state.

Definition ret {A} (a : A) : H A := fun s => (Return a, s).

Definition bind {A B} (m : H A) (k : A -> H B) : H B :=
  fun s =>
    match m s with
    | (Return a, s') => k a s'
    | (Raise e, s') => (Raise e, s')
    | (Pending, s') => (Pending, s')
    end.

Definition raise {A} (e : exn) : H A := fun s => (Raise e, s).

Definition lift {A} (o : outcome A) : H A := fun s => (o, s).

(** [try: m  except Exception as e: h e] *)
Definition try_except {A} (m : H A) (h : exn -> H A) : H A :=
  fun s =>
    match m s with
    | (Raise e, s') => h e s'
    | r => r
    end.

(** A computation of the handlers above, run on the world of the state. *)
Definition in_app {A} (m : M A) : H A :=
  fun s =>
    match m (app s) with
    | (o, w') => (o, mk_state w' (calls s))
    end.

Declare Scope store_scope.
Delimit Scope store_scope with store.
Notation "x <- m ;; k" := (bind m (fun x => k))
  (at level 61, m at next level, right associativity) : store_scope.
Notation "m ;; k" := (bind m (fun _ => k))
  (at level 61, right associativity) : store_scope.

Section Handlers.

Variable sv : services.
Variable repr_container : json -> string.

Local Open Scope store_scope.

Definition env : environment := base sv.

(** [await current_app.cosmos_conversation_client.<method>(...)]: on a
    client that is [None] the attribute lookup raises. *)
Definition ask (c : call) : H json :=
  if cosmos_conversation_client env
  then (fun s => (answer sv c, mk_state (app s) (calls s ++ [c])))
  else raise (Py.attribute_error JNull (method_name c)).

(** [if not current_app.cosmos_conversation_client: raise Exception(...)] *)
Definition require_client : H unit :=
  if negb (cosmos_conversation_client env)
  then raise (exception "CosmosDB is not configured or not working")
  else ret tt.

(** The first lines of every handler: the readiness gate, the
    authenticated user and its principal id. *)
Definition principal : headers -> H json :=
  fun hdrs =>
    in_app (cosmos_db_ready_wait env) ;;
    authenticated_user <- lift (get_authenticated_user_details env hdrs) ;;
    lift (Py.item authenticated_user "user_principal_id").

(** [logging.exception(msg); return jsonify({"error": str(e)}), 500] *)
Definition failed (msg : string) (e : exn) : H response :=
  in_app (logging LvError msg) ;;
  ret (Json (JDict [("error", JStr (exn_str e))]) 500).

Definition error (msg : string) (status : Z) : response :=
  Json (JDict [("error", JStr msg)]) status.

(** *** [update_conversation] (line 478) *)

Definition update_conversation (req : request) : H response :=
  user_id <- principal (request_headers req) ;;
  let request_json := get_json req in
  conversation_id <- lift (Py.get request_json "conversation_id" JNull) ;;
  try_except
    (require_client ;;
     (if negb (Py.truthy conversation_id)
      then raise (exception "No conversation_id found")
      else ret tt) ;;
     messages <- lift (Py.item request_json "messages") ;;
     n <- lift (Py.len messages) ;;
     is_assistant <-
       (if Nat.ltb 0 n
        then last <- lift (Py.index messages (-1)) ;;
             role <- lift (Py.item last "role") ;;
             ret (Py.eq_str role "assistant")
        else ret false) ;;
     (if is_assistant
      then
        is_tool <-
          (if Nat.ltb 1 n
           then previous <- lift (Py.index messages (-2)) ;;
                role <- lift (Py.get previous "role" JNull) ;;
                ret (Py.eq_str role "tool")
           else ret false) ;;
        (if is_tool
         then
           u <- in_app (uuid_str env) ;;
           previous <- lift (Py.index messages (-2)) ;;
           ask (CreateMessage (JStr u) conversation_id user_id previous) ;;
           ret tt
         else ret tt) ;;
        last <- lift (Py.index messages (-1)) ;;
        id <- lift (Py.item last "id") ;;
        last' <- lift (Py.index messages (-1)) ;;
        ask (CreateMessage id conversation_id user_id last') ;;
        ret tt
      else raise (exception "No bot messages found")) ;;
     ret (Json (JDict [("success", JBool true)]) 200))
    (failed "Exception in /history/update").

(** *** [update_message] (line 519) *)

Definition update_message (req : request) : H response :=
  user_id <- principal (request_headers req) ;;
  let request_json := get_json req in
  message_id <- lift (Py.get request_json "message_id" JNull) ;;
  message_feedback <- lift (Py.get request_json "message_feedback" JNull) ;;
  try_except
    (if negb (Py.truthy message_id)
     then ret (error "message_id is required" 400)
     else if negb (Py.truthy message_feedback)
     then ret (error "message_feedback is required" 400)
     else
       updated_message <- ask (UpdateMessageFeedback user_id message_id message_feedback) ;;
       if Py.truthy updated_message
       then ret (Json (JDict [("message",
                               JStr ("Successfully updated message with feedback "
                                     ++ fmt_json repr_container message_feedback));
                              ("message_id", message_id)]) 200)
       else ret (error ("Unable to update message " ++ fmt_json repr_container message_id
                        ++ ". It either does not exist or the user does not have access to it.")
                       404))
    (failed "Exception in /history/message_feedback").

(** *** [delete_conversation] (line 562) *)

Definition delete_conversation (req : request) : H response :=
  user_id <- principal (request_headers req) ;;
  let request_json := get_json req in
  conversation_id <- lift (Py.get request_json "conversation_id" JNull) ;;
  try_except
    (if negb (Py.truthy conversation_id)
     then ret (error "conversation_id is required" 400)
     else
       require_client ;;
       ask (DeleteMessages conversation_id user_id) ;;
       ask (DeleteConversation user_id conversation_id) ;;
       ret (Json (JDict [("message", JStr "Successfully deleted conversation and messages");
                         ("conversation_id", conversation_id)]) 200))
    (failed "Exception in /history/delete").

(** *** [list_conversations] (line 599)

    [offset] is [request.args.get("offset", 0)]. *)

Definition list_conversations (req : request) (offset : json) : H response :=
  in_app (cosmos_db_ready_wait env) ;;
  authenticated_user <- lift (get_authenticated_user_details env (request_headers req)) ;;
  user_id <- lift (Py.item authenticated_user "user_principal_id") ;;
  require_client ;;
  conversations <- ask (GetConversations user_id offset (JInt 25)) ;;
  match conversations with
  | JList _ => ret (Json conversations 200)
  | _ => ret (error ("No conversations for " ++ fmt_json repr_container user_id
                     ++ " were found") 404)
  end.

(** *** [get_conversation] (line 617) *)

(** [[{"id": msg["id"], ..., "feedback": msg.get("feedback")} for msg in l]] *)
Fixpoint project_messages (l : list json) : outcome (list json) :=
  match l with
  | [] => Return []
  | msg :: rest =>
      (id <- Py.item msg "id" ;;
       role <- Py.item msg "role" ;;
       content <- Py.item msg "content" ;;
       created_at <- Py.item msg "createdAt" ;;
       feedback <- Py.get msg "feedback" JNull ;;
       tl <- project_messages rest ;;
       Return (JDict [("id", id); ("role", role); ("content", content);
                      ("createdAt", created_at); ("feedback", feedback)] :: tl))%out
  end.

Definition not_found_text (conversation_id : json) : string :=
  "Conversation " ++ fmt_json repr_container conversation_id
  ++ " was not found. It either does not exist or the logged in user does not have access to it.".

Definition get_conversation (req : request) : H response :=
  user_id <- principal (request_headers req) ;;
  let request_json := get_json req in
  conversation_id <- lift (Py.get request_json "conversation_id" JNull) ;;
  if negb (Py.truthy conversation_id)
  then ret (error "conversation_id is required" 400)
  else
    require_client ;;
    conversation <- ask (GetConversation user_id conversation_id) ;;
    if negb (Py.truthy conversation)
    then ret (error (not_found_text conversation_id) 404)
    else
      conversation_messages <- ask (GetMessages user_id conversation_id) ;;
      elems <- lift (Py.iter conversation_messages) ;;
      messages <- lift (project_messages elems) ;;
      ret (Json (JDict [("conversation_id", conversation_id);
                        ("messages", JList messages)]) 200).

(** *** [rename_conversation] (line 662) *)

Definition rename_conversation (req : request) : H response :=
  user_id <- principal (request_headers req) ;;
  let request_json := get_json req in
  conversation_id <- lift (Py.get request_json "conversation_id" JNull) ;;
  if negb (Py.truthy conversation_id)
  then ret (error "conversation_id is required" 400)
  else
    require_client ;;
    conversation <- ask (GetConversation user_id conversation_id) ;;
    if negb (Py.truthy conversation)
    then ret (error (not_found_text conversation_id) 404)
    else
      title <- lift (Py.get request_json "title" JNull) ;;
      if negb (Py.truthy title)
      then ret (error "title is required" 400)
      else
        renamed <- lift (set_item conversation "title" title) ;;
        updated_conversation <- ask (UpsertConversation renamed) ;;
        ret (Json updated_conversation 200).

(** *** [delete_all_conversations] (line 700) *)

(** The loop of lines 716 to 722. *)
Fixpoint delete_each (user_id : json) (conversations : list json) : H unit :=
  match conversations with
  | [] => ret tt
  | conversation :: rest =>
      id <- lift (Py.item conversation "id") ;;
      ask (DeleteMessages id user_id) ;;
      id' <- lift (Py.item conversation "id") ;;
      ask (DeleteConversation user_id id') ;;
      delete_each user_id rest
  end.

Definition delete_all_conversations (req : request) : H response :=
  user_id <- principal (request_headers req) ;;
  try_except
    (require_client ;;
     conversations <- ask (GetConversations user_id (JInt 0) JNull) ;;
     if negb (Py.truthy conversations)
     then ret (error ("No conversations for " ++ fmt_json repr_container user_id
                      ++ " were found") 404)
     else
       elems <- lift (Py.iter conversations) ;;
       delete_each user_id elems ;;
       ret (Json (JDict [("message",
                          JStr ("Successfully deleted conversation and messages for user "
                                ++ fmt_json repr_container user_id))]) 200))
    (failed "Exception in /history/delete_all").

(** *** [clear_messages] (line 736) *)

Definition clear_messages (req : request) : H response :=
  user_id <- principal (request_headers req) ;;
  let request_json := get_json req in
  conversation_id <- lift (Py.get request_json "conversation_id" JNull) ;;
  try_except
    (if negb (Py.truthy conversation_id)
     then ret (error "conversation_id is required" 400)
     else
       require_client ;;
       ask (DeleteMessages conversation_id user_id) ;;
       ret (Json (JDict [("message", JStr "Successfully deleted messages in conversation");
                         ("conversation_id", conversation_id)]) 200))
    (failed "Exception in /history/clear_messages").

(** *** [ensure_cosmos] (line 769) *)

(** [success, err = v] *)
Definition unpack_pair (v : json) : outcome (json * json) :=
  (elems <- Py.iter v ;;
   match elems with
   | [a; b] => Return (a, b)
   | [] | [_] =>
       Raise (mk_exn ValueError
                ("not enough values to unpack (expected 2, got "
                 ++ PyStr.of_Z (Z.of_nat (List.length elems)) ++ ")") None)
   | _ => Raise (mk_exn ValueError "too many values to unpack (expected 2)" None)
   end)%out.

Definition ensure_failed (e : exn) : H response :=
  in_app (logging LvError "Exception in /history/ensure") ;;
  let cosmos_exception := exn_str e in
  if PyStr.contains "Invalid credentials" cosmos_exception
  then ret (error cosmos_exception 401)
  else if PyStr.contains "Invalid CosmosDB database name" cosmos_exception
  then
    match chat_history sv with
    | Some ch => ret (error (cosmos_exception ++ " " ++ database ch ++ " for account "
                             ++ account ch) 422)
    | None => raise (Py.attribute_error JNull "database")
    end
  else if PyStr.contains "Invalid CosmosDB container name" cosmos_exception
  then
    match chat_history sv with
    | Some ch => ret (error (cosmos_exception ++ ": " ++ conversations_container ch) 422)
    | None => raise (Py.attribute_error JNull "conversations_container")
    end
  else ret (error "CosmosDB is not working" 500).

Definition ensure_cosmos : H response :=
  in_app (cosmos_db_ready_wait env) ;;
  match chat_history sv with
  | None => ret (error "CosmosDB is not configured" 404)
  | Some _ =>
      try_except
        (answered <- ask Ensure ;;
         pair <- lift (unpack_pair answered) ;;
         let success := fst pair in
         let err := snd pair in
         if negb (cosmos_conversation_client env) || negb (Py.truthy success)
         then
           if Py.truthy err
           then ret (Json (JDict [("error", err)]) 422)
           else ret (error "CosmosDB is not configured or not working" 500)
         else ret (Json (JDict [("message", JStr "CosmosDB is configured and working")]) 200))
        ensure_failed
  end.

End Handlers.

End Store.

(** ** Vocabulary of the statements on the store *)

(** The state after the calls [cs]. *)
Definition called (s : Store.state) (cs : list Store.call) : Store.state :=
  Store.mk_state (Store.app s) (Store.calls s ++ cs).

(** The state after the log entry [msg] of a failure. *)
Definition logged (s : Store.state) (msg : string) : Store.state :=
  Store.mk_state (advance (Store.app s) [EvLog LvError msg] 0) (Store.calls s).

(** The user a call of the store is made for, when it names one. *)
Definition call_user (c : Store.call) : option json :=
  match c with
  | Store.CreateMessage _ _ user_id _ => Some user_id
  | Store.UpdateMessageFeedback user_id _ _ => Some user_id
  | Store.DeleteMessages _ user_id => Some user_id
  | Store.DeleteConversation user_id _ => Some user_id
  | Store.GetConversations user_id _ _ => Some user_id
  | Store.GetConversation user_id _ => Some user_id
  | Store.GetMessages user_id _ => Some user_id
  | Store.UpsertConversation _ => None
  | Store.Ensure => None
  end.

(** The calls after those of [s] in [s'] satisfy [P]. *)
Definition calls_extend (P : Store.call -> Prop) (s s' : Store.state) : Prop :=
  exists cs, Store.calls s' = (Store.calls s ++ cs)%list /\ Forall P cs.

(** Every call a handler makes satisfies [P]. *)
Definition calls_only {A} (P : Store.call -> Prop) (m : Store.H A) : Prop :=
  forall s, calls_extend P s (snd (m s)).

(** The store answers every call. *)
Definition store_answers (sv : Store.services) : Prop :=
  forall c, exists v, Store.answer sv c = Return v.

(** The two calls that delete a conversation. *)
Definition deletion (user_id : json) (conversation : json) : list Store.call :=
  match Py.item conversation "id" with
  | Return id => [Store.DeleteMessages id user_id; Store.DeleteConversation user_id id]
  | _ => []
  end.

(** Every conversation of the list has an id. *)
Definition all_have_id (l : list json) : bool :=
  List.forallb (fun c => match Py.item c "id" with Return _ => true | _ => false end) l.

(** A stored message and the message [get_conversation] returns for it. *)
Definition projects (msg out : json) : Prop :=
  exists id role content created_at,
    Py.item msg "id" = Return id /\
    Py.item msg "role" = Return role /\
    Py.item msg "content" = Return content /\
    Py.item msg "createdAt" = Return created_at /\
    out = JDict [("id", id); ("role", role); ("content", content);
                 ("createdAt", created_at);
                 ("feedback", match Py.get msg "feedback" JNull with
                              | Return f => f
                              | _ => JNull
                              end)].

(** A stored message with the four fields [get_conversation] reads. *)
Definition has_message_fields (msg : json) : bool :=
  match msg with
  | JDict d =>
      match Py.lookup "id" d, Py.lookup "role" d, Py.lookup "content" d,
            Py.lookup "createdAt" d with
      | Some _, Some _, Some _, Some _ => true
      | _, _, _, _ => false
      end
  | _ => false
  end.

Module DemoStore.

(** A store that holds the conversation [conv-1] of [alice], with two
    messages, and nothing of anyone else. *)
Definition conv1 : json :=
  JDict [("id", JStr "conv-1"); ("userId", JStr "alice"); ("title", JStr "Old title")].

Definition stored_messages : list json :=
  [JDict [("id", JStr "m1"); ("role", JStr "user"); ("content", JStr "hello");
          ("createdAt", JStr "2024-06-01T00:00:00Z"); ("userId", JStr "alice")];
   JDict [("id", JStr "m2"); ("role", JStr "assistant"); ("content", JStr "hi");
          ("createdAt", JStr "2024-06-01T00:00:05Z"); ("userId", JStr "alice");
          ("feedback", JStr "positive")]].

Definition answers (c : Store.call) : outcome json :=
  match c with
  | Store.GetConversation (JStr "alice") (JStr "conv-1") => Return conv1
  | Store.GetConversation _ _ => Return JNull
  | Store.GetMessages (JStr "alice") (JStr "conv-1") => Return (JList stored_messages)
  | Store.GetMessages _ _ => Return (JList [])
  | Store.GetConversations (JStr "alice") _ _ => Return (JList [conv1])
  | Store.GetConversations _ _ _ => Return (JList [])
  | Store.UpsertConversation c => Return c
  | Store.UpdateMessageFeedback (JStr "alice") (JStr "m2") _ => Return (JBool true)
  | Store.UpdateMessageFeedback _ _ _ => Return (JBool false)
  | Store.Ensure => Return (JList [JBool true; JNull])
  | _ => Return JNull
  end.

Definition history : Store.chat_history_settings :=
  Store.mk_chat_history "db" "account" "conversations".

(** [alice] is signed in. *)
Definition alice_services : Store.services :=
  Store.mk_services Demo.env_ok answers (Some history).

(** [bob] is signed in. *)
Definition bob_services : Store.services :=
  Store.mk_services Demo.env_bob answers (Some history).

(** The store client was never created. *)
Definition no_client : Store.services :=
  Store.mk_services Demo4.env_unconfigured answers (Some history).

(** The store loses its connection while messages are deleted. *)
Definition failing_answers (c : Store.call) : outcome json :=
  match c with
  | Store.DeleteMessages _ _ => Raise Demo.service_down
  | _ => answers c
  end.

Definition failing_services : Store.services :=
  Store.mk_services Demo.env_ok failing_answers (Some history).

Definition about (fields : list (string * json)) : request :=
  mk_request true (JDict fields) [].

End DemoStore.

(** The store answers each of the calls [cs] with a value. *)
Definition answered (sv : Store.services) (cs : list Store.call) : bool :=
  List.forallb (fun c => match Store.answer sv c with Return _ => true | _ => false end) cs.


(** A call that names a user names [user_id]. *)
Definition owned_by (user_id : json) (c : Store.call) : Prop :=
  forall u, call_user c = Some u -> u = user_id.

(** The call is [delete_messages] of the conversation for the user. *)
Definition is_delete_messages (conversation_id user_id : json) (c : Store.call) : Prop :=
  c = Store.DeleteMessages conversation_id user_id.


Module DemoUpdate.

(** The end of a turn in which the assistant used a tool. *)
Definition question : json :=
  JDict [("id", JStr "q1"); ("role", JStr "user"); ("content", JStr "weather in Lisbon")].
Definition tool_output : json :=
  JDict [("role", JStr "tool"); ("content", JStr "18 C, clear")].
Definition reply : json :=
  JDict [("id", JStr "r1"); ("role", JStr "assistant"); ("content", JStr "It is 18 C.")].

Definition turn : request :=
  DemoStore.about [("conversation_id", JStr "conv-1");
                   ("messages", JList [question; tool_output; reply])].

(** A request that ends with the user's message. *)
Definition unanswered : request :=
  DemoStore.about [("conversation_id", JStr "conv-1"); ("messages", JList [question])].

End DemoUpdate.


(** Every member of [ws] is one whitespace character. *)
Definition whitespace_characters (ws : list string) : bool :=
  List.forallb (fun w => List.existsb (String.eqb w) PyStr.whitespace) ws.


(** ** The answers of the password-reset flow, as the client reads them *)

(** An assistant message with status 200. *)
Definition assistant_answer (id content : string) : response :=
  Json (JDict [("id", JStr id); ("role", JStr "assistant"); ("content", JStr content)]) 200.

(** The request for a username. *)
Definition clarification_answer (id : string) : response :=
  assistant_answer id
    "I'm sorry, but I couldn't find your username in our conversation. Can you please provide your username?".

(** The decline: not authenticated, or another user's name. *)
Definition decline_answer (id : string) : response :=
  assistant_answer id
    "I'm sorry, but I can't reset your password because you're not currently authenticated or the username doesn't match your authenticated account. Please ensure you're logged in with the correct account and try again.".

(** The new credential. *)
Definition credential_answer (id new_password : string) : response :=
  assistant_answer id
    ("Your password has been reset successfully. Your new temporary password is: "
     ++ new_password ++ PyStr.newline ++ PyStr.newline
     ++ "Please log in with this temporary password and change it to a strong, unique password of your choosing immediately."
     ++ PyStr.newline ++ PyStr.newline
     ++ "Is there anything else I can assist you with regarding your account or any other IT matters?").

(** The apology of the [except] clause. *)
Definition apology_answer (id : string) : response :=
  assistant_answer id
    "I apologize, but I encountered an error while trying to reset your password. This might be due to a temporary issue with our password reset system. Please try again later or contact the IT support team for assistance.".

(** The response shows [s] in one of its strings. *)
Definition response_shows (s : string) (r : response) : bool :=
  List.existsb (PyStr.contains s) (response_strings r).


(** An entry written to the log at the level of an error. *)
Definition is_error_entry (ev : event) : bool :=
  match ev with
  | EvLog LvError _ => true
  | _ => false
  end.

(** * Properties *)

Unset Implicit Arguments.

(** ** Strings *)

Example lower_ex :
  PyStr.lower "What's The WEATHER in Seattle" = "what's the weather in seattle".
Proof. reflexivity. Qed.

(** Letters outside ASCII are mapped as well, and a capital sigma at
    the end of a word becomes the final sigma. *)
Example lower_ex2 : PyStr.lower "ZÜRICH ΟΔΟΣ İ" = "zürich οδος i̇".
Proof. vm_compute. reflexivity. Qed.

Example length_ex : PyStr.length "zürich" = 6 /\ String.length "zürich" = 7.
Proof. split; reflexivity. Qed.

Example split_ex1 :
  PyStr.split "weather in" "what's the weather in seattle" = ["what's the "; " seattle"].
Proof. reflexivity. Qed.

Example split_ex2 : PyStr.split "aa" "aaa" = [""; "a"].
Proof. reflexivity. Qed.

Example split_ex3 : PyStr.split "ab" "xabyab" = ["x"; "y"; ""].
Proof. reflexivity. Qed.

Example strip_ex : PyStr.strip "  seattle  " = "seattle".
Proof. reflexivity. Qed.

(** A no-break space and an em space are whitespace too. *)
Example strip_ex2 :
  PyStr.strip (PyStr.encode_point 0xA0 ++ "alice" ++ PyStr.encode_point 0x2003) = "alice".
Proof. reflexivity. Qed.

Example weather_location_ex :
  weather_location ("Weather in ZÜRICH" ++ PyStr.encode_point 0xA0) = "zürich".
Proof. vm_compute. reflexivity. Qed.

Example of_Z_ex : PyStr.of_Z 500 = "500" /\ PyStr.of_Z (-3) = "-3" /\ PyStr.of_Z 0 = "0".
Proof. repeat split; reflexivity. Qed.

Section StringFacts.

Lemma starts_with_app p s : PyStr.starts_with p (p ++ s) = true.
Proof.
  induction p as [|a p IH]; simpl; [reflexivity|].
  now rewrite Ascii.eqb_refl, IH.
Qed.

Lemma contains_app p a b : PyStr.contains p (a ++ p ++ b) = true.
Proof.
  induction a as [|c a IH]; simpl.
  - destruct (p ++ b) eqn:E.
    + pose proof (starts_with_app p b) as H. rewrite E in H. simpl. now rewrite H.
    + simpl. apply orb_true_iff. left. rewrite <- E. apply starts_with_app.
  - apply orb_true_iff. right. exact IH.
Qed.

Lemma starts_with_run q p s :
  PyStr.forallb q p = true -> PyStr.starts_with p s = true ->
  String.length p <= PyStr.head_run q s.
Proof.
  revert s. induction p as [|a p IH]; intros s Hq Hp; simpl; [lia|].
  destruct s as [|b s]; simpl in Hp; [discriminate|].
  simpl in Hq. apply andb_true_iff in Hq as [Ha Hq]. apply andb_true_iff in Hp as [Hab Hp].
  apply Ascii.eqb_eq in Hab. subst b. simpl. rewrite Ha.
  specialize (IH s Hq Hp). lia.
Qed.

Lemma head_run_le_longest q s : PyStr.head_run q s <= PyStr.longest_run q s.
Proof. destruct s; simpl; lia. Qed.

(** A needle made of [q]-characters fits in a block of [q]-characters
    of the text that contains it. *)
Lemma contains_run q p s :
  PyStr.forallb q p = true -> PyStr.contains p s = true ->
  String.length p <= PyStr.longest_run q s.
Proof.
  intros Hq. induction s as [|c s IH]; intros Hc.
  - simpl in Hc. rewrite orb_false_r in Hc.
    destruct p; [simpl; lia | discriminate].
  - change (PyStr.contains p (String c s))
      with (PyStr.starts_with p (String c s) || PyStr.contains p s) in Hc.
    change (PyStr.longest_run q (String c s))
      with (Nat.max (PyStr.head_run q (String c s)) (PyStr.longest_run q s)).
    apply orb_true_iff in Hc as [Hc|Hc].
    + pose proof (starts_with_run q p (String c s) Hq Hc). lia.
    + specialize (IH Hc). lia.
Qed.

End StringFacts.

(** ** The effect monad *)

Section MonadFacts.

Context {A B : Type}.

Lemma bind_return (m : M A) (k : A -> M B) w a w' :
  m w = (Return a, w') -> bind m k w = k a w'.
Proof. intros H. unfold bind. now rewrite H. Qed.

Lemma bind_raise (m : M A) (k : A -> M B) w e w' :
  m w = (Raise e, w') -> bind m k w = (Raise e, w').
Proof. intros H. unfold bind. now rewrite H. Qed.

Lemma bind_ret (a : A) (k : A -> M B) w : bind (ret a) k w = k a w.
Proof. reflexivity. Qed.

Lemma bind_lift_return (o : outcome A) (k : A -> M B) w a :
  o = Return a -> bind (lift o) k w = k a w.
Proof. intros ->. reflexivity. Qed.

Lemma bind_lift_raise (o : outcome A) (k : A -> M B) w e :
  o = Raise e -> bind (lift o) k w = (Raise e, w).
Proof. intros ->. reflexivity. Qed.

End MonadFacts.

Section Emits.

Variable P : event -> Prop.

Lemma extends_refl w : extends P w w.
Proof. exists []. split; [now rewrite app_nil_r | constructor]. Qed.

Lemma extends_trans w1 w2 w3 : extends P w1 w2 -> extends P w2 w3 -> extends P w1 w3.
Proof.
  intros [e1 [H1 F1]] [e2 [H2 F2]]. exists (e1 ++ e2)%list. split.
  - now rewrite H2, H1, app_assoc.
  - apply Forall_app. now split.
Qed.

Lemma emits_ret {A} (a : A) : emits_only P (ret a).
Proof. intros w. apply extends_refl. Qed.

Lemma emits_raise {A} e : emits_only P (@raise A e).
Proof. intros w. apply extends_refl. Qed.

Lemma emits_lift {A} (o : outcome A) : emits_only P (lift o).
Proof. intros w. apply extends_refl. Qed.

Lemma emits_emit ev : P ev -> emits_only P (emit ev).
Proof.
  intros H w. exists [ev]. split; [reflexivity | now constructor].
Qed.

Lemma emits_logging lvl msg : P (EvLog lvl msg) -> emits_only P (logging lvl msg).
Proof. apply emits_emit. Qed.

Lemma emits_logging_with_argument lvl msg :
  P (EvLoggingError lvl msg) -> emits_only P (logging_with_argument lvl msg).
Proof. apply emits_emit. Qed.

Lemma emits_bind {A B} (m : M A) (k : A -> M B) :
  emits_only P m -> (forall a, emits_only P (k a)) -> emits_only P (bind m k).
Proof.
  intros Hm Hk w. specialize (Hm w). unfold bind.
  destruct (m w) as [[a|e|] w']; simpl in *; trivial.
  eapply extends_trans; [exact Hm | apply Hk].
Qed.

Lemma emits_try_except {A} (m : M A) (h : exn -> M A) :
  emits_only P m -> (forall e, emits_only P (h e)) -> emits_only P (try_except m h).
Proof.
  intros Hm Hh w. specialize (Hm w). unfold try_except.
  destruct (m w) as [[a|e|] w']; simpl in *; trivial.
  eapply extends_trans; [exact Hm | apply Hh].
Qed.

Lemma emits_try_binding {A B} (m : M A) (rest : A -> M B) h :
  emits_only P m -> (forall a, emits_only P (rest a)) ->
  (forall b e, emits_only P (h b e)) -> emits_only P (try_binding m rest h).
Proof.
  intros Hm Hr Hh w. specialize (Hm w). unfold try_binding.
  destruct (m w) as [[a|e|] w']; simpl in *; trivial.
  - eapply extends_trans; [exact Hm |]. apply emits_try_except; auto.
  - eapply extends_trans; [exact Hm | apply Hh].
Qed.

Lemma emits_bind_lift {A B} (o : outcome A) (k : A -> M B) :
  (forall a, o = Return a -> emits_only P (k a)) -> emits_only P (bind (lift o) k).
Proof.
  intros Hk w. unfold bind, lift. destruct o as [a|e|]; simpl.
  - now apply Hk.
  - apply extends_refl.
  - apply extends_refl.
Qed.

Lemma emits_uuid_str env : emits_only P (uuid_str env).
Proof. intros w. exists []. split; [simpl; now rewrite app_nil_r | constructor]. Qed.

Lemma emits_random_draw env : emits_only P (random_draw env).
Proof. intros w. exists []. split; [simpl; now rewrite app_nil_r | constructor]. Qed.

Lemma emits_choices env population k : emits_only P (choices env population k).
Proof.
  induction k as [|k IH]; simpl.
  - apply emits_ret.
  - apply emits_bind; [apply emits_random_draw | intros r].
    apply emits_bind; [exact IH | intros rest]. apply emits_ret.
Qed.

End Emits.

(** One step of a proof that a handler only emits events of a kind:
    the rule is chosen by the shape of the computation. *)
Ltac emits_step :=
  cbv beta zeta;
  lazymatch goal with
  | |- emits_only _ (bind _ _) => apply emits_bind; [| intros ?]
  | |- emits_only _ (ret _) => apply emits_ret
  | |- emits_only _ (raise _) => apply emits_raise
  | |- emits_only _ (lift _) => apply emits_lift
  | |- emits_only _ (uuid_str _) => apply emits_uuid_str
  | |- emits_only _ (choices _ _ _) => apply emits_choices
  | |- emits_only _ (logging _ _) => apply emits_logging; reflexivity
  | |- emits_only _ (logging_with_argument _ _) =>
      apply emits_logging_with_argument; reflexivity
  | |- emits_only _ (emit _) => apply emits_emit; reflexivity
  | |- emits_only _ (try_except _ _) => apply emits_try_except; [| intros ?]
  | |- emits_only _ (try_binding _ _ _) =>
      apply emits_try_binding; [| intros ? | intros ? ?]
  | |- emits_only _ (if ?b then _ else _) => destruct b
  | |- emits_only _ (match ?x with _ => _ end) => destruct x
  | H : context [emits_only] |- emits_only _ _ => apply H
  end.

Ltac emits := repeat emits_step.

Section NeverRaises.





Lemma never_raises_try_except {A} (m : M A) h :
  (forall e, never_raises (h e)) -> never_raises (try_except m h).
Proof.
  intros Hh w e. unfold try_except.
  destruct (m w) as [[a|e'|] w']; simpl; try discriminate. apply Hh.
Qed.


End NeverRaises.

(** ** The router *)

Section Router.

Variable env : environment.

Lemma has_last_content_inv req :
  has_last_content req = true ->
  is_json req = true /\
  exists last c,
    Py.item (get_json req) "messages" = Return (messages_of req) /\
    Py.index (messages_of req) (-1) = Return last /\
    Py.item last "content" = Return (JStr c) /\
    last_content req = Some c.
Proof.
  unfold has_last_content, last_content, messages_of. intros H.
  apply andb_true_iff in H as [Hj H]. split; [exact Hj|].
  destruct (Py.item (get_json req) "messages") as [msgs| |] eqn:Em;
    try (simpl in H; discriminate).
  destruct (Py.index msgs (-1)) as [last| |] eqn:El; try discriminate.
  destruct (Py.item last "content") as [[| | | |c| |]| |] eqn:Ec; try discriminate.
  exists last, c. auto.
Qed.

Lemma last_message_has_content phrase req :
  last_message_has phrase req = true -> has_last_content req = true.
Proof.
  unfold last_message_has, has_last_content. intros H.
  apply andb_true_iff in H as [-> H]. simpl. now destruct (last_content req).
Qed.

(** A request whose last message asks for a reset runs the [try]
    block of the password-reset flow. *)
Lemma conversation_reset req w :
  last_message_has "reset my password" req = true ->
  conversation env req w =
  try_binding (lift (extract_username (messages_of req))) (reset_steps env req)
              (reset_failed env) w.
Proof.
  intros H. pose proof (last_message_has_content _ _ H) as Hc.
  apply has_last_content_inv in Hc as (Hj & last & c & Hm & Hl & Hi & Hlc).
  unfold last_message_has in H. rewrite Hj, Hlc in H. simpl in H.
  unfold conversation. rewrite Hj. cbv beta iota zeta delta [negb].
  rewrite (bind_lift_return _ _ _ _ Hm), (bind_lift_return _ _ _ _ Hl),
    (bind_lift_return _ _ _ _ Hi).
  simpl Py.lower. rewrite (bind_lift_return _ _ _ _ eq_refl), H.
  unfold try_binding. rewrite (bind_lift_return _ _ _ _ Hm). reflexivity.
Qed.

(** Any other request with a last message goes to [conversation_internal]. *)
Lemma conversation_chat req w :
  has_last_content req = true ->
  last_message_has "reset my password" req = false ->
  conversation env req w = conversation_internal env (get_json req) (request_headers req) w.
Proof.
  intros Hc H.
  apply has_last_content_inv in Hc as (Hj & last & c & Hm & Hl & Hi & Hlc).
  unfold last_message_has in H. rewrite Hj, Hlc in H. simpl in H.
  unfold conversation. rewrite Hj. cbv beta iota zeta delta [negb].
  rewrite (bind_lift_return _ _ _ _ Hm), (bind_lift_return _ _ _ _ Hl),
    (bind_lift_return _ _ _ _ Hi).
  simpl Py.lower. rewrite (bind_lift_return _ _ _ _ eq_refl), H. reflexivity.
Qed.

(** With a username bound, the outcome of [not_authenticated] on a user
    record is decided by its principal id. *)
Lemma not_authenticated_spec a u :
  is_user_record a = true ->
  not_authenticated a (Some u) =
  Return (match principal_id a with
          | Some (JStr p) => negb (String.eqb p u)
          | _ => true
          end).
Proof.
  destruct a as [| | | | | |d]; try discriminate; intros _.
  - reflexivity.
  - unfold not_authenticated, principal_id. destruct d as [|kv d]; [reflexivity|].
    cbn [Py.truthy negb Py.get obind].
    destruct (Py.lookup "user_principal_id" (kv :: d)) as [[]|]; reflexivity.
Qed.

Lemma not_authenticated_mismatch a u d :
  principal_is a u = false -> not_authenticated a (Some u) = Return d -> d = true.
Proof.
  unfold not_authenticated, principal_is, principal_id. intros Hp.
  destruct (Py.truthy a); simpl; [| congruence].
  destruct a as [| | | | | |items]; simpl; try discriminate.
  intros H. injection H as <-.
  destruct (Py.lookup "user_principal_id" items) as [[| | | |p| |]|]; simpl; trivial.
  now rewrite Hp.
Qed.

Lemma not_authenticated_match a u :
  principal_is a u = true -> not_authenticated a (Some u) = Return false.
Proof.
  unfold not_authenticated, principal_is, principal_id. intros Hp.
  destruct a as [| | | | | |items]; try discriminate.
  destruct (Py.lookup "user_principal_id" items) as [[| | | |p| |]|] eqn:E; try discriminate.
  destruct items as [|kv items]; [discriminate|].
  cbn [Py.truthy negb Py.get obind]. rewrite E. simpl. now rewrite Hp.
Qed.

(** The handler of the password-reset flow calls no collaborator. *)
Lemma reset_failed_emits (P : event -> Prop) bound e :
  (forall lvl msg, P (EvLog lvl msg)) -> emits_only P (reset_failed env bound e).
Proof.
  intros HP. unfold reset_failed, log_failed_password_reset_attempt, logging.
  repeat first
    [ apply emits_bind; [| intros ?] | apply emits_emit, HP | apply emits_ret
    | apply emits_uuid_str
    | match goal with |- emits_only _ (match ?x with _ => _ end) => destruct x end ].
Qed.


(** Without a matching principal the steps of the flow never reach the
    directory adapter. *)
Lemma reset_steps_unauthenticated req u :
  String.eqb u "" = false ->
  (forall a, get_authenticated_user_details env (request_headers req) = Return a ->
             principal_is a u = false) ->
  emits_only (fun ev => is_directory_call ev = false) (reset_steps env req (Some u)).
Proof.
  intros Hu Ha. unfold reset_steps. simpl falsy. rewrite Hu.
  apply emits_bind_lift. intros a Ea.
  apply emits_bind_lift. intros d Ed.
  rewrite (not_authenticated_mismatch _ _ _ (Ha a Ea) Ed). emits.
Qed.

End Router.

(** C1. In the password-reset flow, when the principal id derived from
    the request headers is absent or differs from the resolved
    username, the handler answers with the decline message and the
    directory adapter is never called: whatever the authentication
    collaborator does, no event of the directory adapter is emitted,
    and when it returns a user record ([None] or a dict) the answer is
    the decline message and no event at all is emitted. *)
Theorem C1_mismatch_declines_without_directory_call :
  forall env req w u,
    last_message_has "reset my password" req = true ->
    extract_username (messages_of req) = Return (Some u) ->
    String.eqb u "" = false ->
    (forall a, get_authenticated_user_details env (request_headers req) = Return a ->
               principal_is a u = false) ->
    extends (fun ev => is_directory_call ev = false) w (snd (conversation env req w)) /\
    (forall a, get_authenticated_user_details env (request_headers req) = Return a ->
               is_user_record a = true ->
               conversation env req w =
               (Return (decline_answer (uuid4 env (uuids_drawn w))),
                mk_world (trace w) (S (uuids_drawn w)) (randoms_drawn w))).
Proof.
  intros env req w u Hreq Hname Hu Hauth. split.
  - rewrite (conversation_reset env req w Hreq), Hname.
    change (extends (fun ev => is_directory_call ev = false) w
              (snd (try_except (reset_steps env req (Some u))
                               (reset_failed env (Some (Some u))) w))).
    apply emits_try_except.
    + now apply reset_steps_unauthenticated.
    + intros e. apply reset_failed_emits. reflexivity.
  - intros a Ea Hrec.
    rewrite (conversation_reset env req w Hreq), Hname.
    change (try_binding (lift (Return (Some u))) (reset_steps env req) (reset_failed env) w)
      with (try_except (reset_steps env req (Some u)) (reset_failed env (Some (Some u))) w).
    unfold try_except, reset_steps. cbn [falsy]. rewrite Hu.
    rewrite (bind_lift_return _ _ _ _ Ea).
    destruct (not_authenticated a (Some u)) as [d| |] eqn:Ed.
    + pose proof (not_authenticated_mismatch _ _ _ (Hauth a Ea) Ed) as ->. reflexivity.
    + rewrite not_authenticated_spec in Ed by exact Hrec. discriminate.
    + rewrite not_authenticated_spec in Ed by exact Hrec. discriminate.
Qed.

Lemma C1_witness :
  Demo.conversation_result Demo.env_bob Demo.reset_by_alice =
  Return (decline_answer "7d444840-9dc0-11d1-b245-5ffdce74fad0").
Proof.
  unfold Demo.conversation_result.
  rewrite (proj2 (C1_mismatch_declines_without_directory_call
                    Demo.env_bob Demo.reset_by_alice initial_world "alice"
                    eq_refl eq_refl eq_refl
                    (fun a H => f_equal (fun o => match o with
                                                  | Return x => principal_is x "alice"
                                                  | _ => false
                                                  end) (eq_sym H)))
                 Demo.bob eq_refl eq_refl).
  reflexivity.
Defined.

(** ** Username extraction *)

Section Extraction.

Lemma extract_username_loop_without_marker l :
  without_marker l = true -> extract_username_loop l = Return None.
Proof.
  induction l as [|m l IH]; simpl; [reflexivity|]. intros H.
  apply andb_true_iff in H as [Hm Hl].
  destruct (Py.item m "content") as [[| | | |c| |]| |]; try discriminate.
  cbn [obind Py.str_in]. apply negb_true_iff in Hm. rewrite Hm. auto.
Qed.

Lemma without_marker_rev l : without_marker (List.rev l) = without_marker l.
Proof.
  unfold without_marker. induction l as [|m l IH]; simpl; [reflexivity|].
  rewrite forallb_app, IH. simpl. rewrite andb_true_r. apply andb_comm.
Qed.

(** Strategy (b): a history without a [Username:] marker resolves to [None]. *)
Lemma extract_username_without_marker l :
  without_marker l = true -> extract_username (JList l) = Return None.
Proof.
  intros H. unfold extract_username. cbn [Py.reversed obind].
  apply extract_username_loop_without_marker. now rewrite without_marker_rev.
Qed.

(** Strategy (b): the marker in the most recent message that has one
    gives the username. *)
Example extract_username_ex :
  extract_username (messages_of Demo.reset_by_alice) = Return (Some "alice").
Proof. reflexivity. Qed.

(** The username is stripped of whitespace of every kind: here a
    no-break space follows it. *)
Example extract_username_ex2 :
  extract_username
    (JList [Demo.user_says ("reset my password Username: alice" ++ PyStr.encode_point 0xA0)]) =
  Return (Some "alice").
Proof. reflexivity. Qed.

(** Strategy (a): the reply [Unknown] of the completion service
    resolves to [None]. *)
Lemma extract_username_with_openai_unknown env l w client w1 choices reply rest :
  init_openai_client env w = (Return client, w1) ->
  chat_completions_create env client
    (JList (l ++ [JDict [("role", JStr "user"); ("content", JStr extraction_prompt)]])) =
    Return choices ->
  choices = JStr reply :: rest ->
  PyStr.strip reply = "Unknown" ->
  fst (extract_username_with_openai env (JList l) w) = Return None.
Proof.
  intros Hinit Hc -> Hr.
  unfold extract_username_with_openai, completions_create, bind, emit, lift.
  rewrite Hinit. cbn [list_append]. cbv iota beta. rewrite Hc.
  cbn [first_choice Py.strip]. cbv iota beta. rewrite Hr. reflexivity.
Qed.

End Extraction.

(** ** The generated credential *)

Section Credential.

Variable env : environment.

Lemma choices_run population k w :
  choices env population k w =
  (Return (map (pick population) (draws env (randoms_drawn w) k)),
   mk_world (trace w) (uuids_drawn w) (randoms_drawn w + k)).
Proof.
  revert w. induction k as [|k IH]; intros w.
  - simpl. unfold ret, draws. simpl. rewrite Nat.add_0_r. now destruct w.
  - cbn [choices]. unfold bind at 1. cbn [random_draw]. rewrite (bind_return _ _ _ _ _ (IH _)).
    unfold ret, draws. cbn [randoms_drawn trace uuids_drawn seq map].
    now rewrite Nat.add_succ_r.
Qed.

Lemma draws_length start n : List.length (draws env start n) = n.
Proof. unfold draws. now rewrite length_map, length_seq. Qed.

Lemma draws_bound start n : Forall (fun k => (k < 2 ^ 53)%N) (draws env start n).
Proof.
  unfold draws. apply Forall_forall. intros k Hk. apply in_map_iff in Hk as [i [<- _]].
  apply N.mod_lt. discriminate.
Qed.

Lemma get_in n s :
  n < String.length s ->
  exists c, String.get n s = Some c /\ In c (list_ascii_of_string s).
Proof.
  revert n. induction s as [|a s IH]; intros n Hn; simpl in Hn; [lia|].
  destruct n as [|n]; simpl.
  - exists a. auto.
  - destruct (IH n) as [c [Hc Hin]]; [lia|]. exists c. auto.
Qed.

Lemma alphabet_length : String.length alphabet = 94.
Proof. reflexivity. Qed.

(** A product of less than 60 bits loses 7 bits at most. *)
Lemma round53_lost_bits p :
  (p < 2 ^ 60)%N -> (N.log2 p + 1 - 53 <= 7)%N.
Proof.
  intros Hp. destruct (N.eq_dec p 0) as [-> | Hnz]; [cbn; lia |].
  assert (N.log2 p < 60)%N by (apply N.log2_lt_pow2; lia). lia.
Qed.

(** The rounded product is within half a unit of the last place of the
    exact one, and it does not cross a whole number. *)
Lemma round53_spec p :
  (p < 2 ^ 60)%N ->
  (round53 p <= p + 64)%N /\ (p <= round53 p + 64)%N /\
  forall m, ((m * 2 ^ 53 <= p -> m * 2 ^ 53 <= round53 p) /\
             (p <= m * 2 ^ 53 -> round53 p <= m * 2 ^ 53))%N.
Proof.
  intros Hp. pose proof (round53_lost_bits p Hp) as He.
  unfold round53. revert He. generalize (N.log2 p + 1 - 53)%N. intros e He.
  assert (e = 0 \/ e = 1 \/ e = 2 \/ e = 3 \/ e = 4 \/ e = 5 \/ e = 6 \/ e = 7)%N
    as Hcases by lia.
  change (2 ^ 53)%N with 9007199254740992%N.
  destruct Hcases as [-> | [-> | [-> | [-> | [-> | [-> | [-> | ->]]]]]]];
    match goal with
    | |- context [(2 ^ ?k)%N] =>
        let u := eval vm_compute in (2 ^ k)%N in
        change (2 ^ k)%N with u;
        pose proof (N.div_mod p u ltac:(discriminate)) as Hdm;
        pose proof (N.mod_lt p u ltac:(discriminate)) as Hlt;
        generalize dependent (p / u)%N; generalize dependent (p mod u)%N;
        intros r Hlt q Hdm
    end;
    cbv zeta;
    repeat match goal with
           | |- context [(?a <? ?b)%N] => destruct (N.ltb_spec a b)
           | |- context [N.even ?q] => destruct (N.even q)
           end;
    repeat split; intros; lia.
Qed.

(** The index [floor(random() * n)] of a draw lies in the population. *)
Lemma pick_index_bound k :
  (k < 2 ^ 53)%N -> N.to_nat (round53 (k * 94) / 2 ^ 53) < 94.
Proof.
  intros Hk. assert (round53 (k * 94) / 2 ^ 53 < 94)%N; [|lia].
  apply N.Div0.div_lt_upper_bound.
  assert (k * 94 < 2 ^ 60)%N as Hp by (change (2 ^ 60)%N with (2 ^ 53 * 128)%N; lia).
  destruct (round53_spec (k * 94) Hp) as (Hup & _). lia.
Qed.

(** A draw whose product with 94 is rounded up to a whole number picks
    the next character. *)
Example pick_ex :
  pick alphabet 6228382463384728 = "$" /\
  (6228382463384728 * 94 / 2 ^ 53 = 64)%N /\
  (round53 (6228382463384728 * 94) / 2 ^ 53 = 65)%N.
Proof. repeat split; vm_compute; reflexivity. Qed.

Lemma pick_alphabet k :
  (k < 2 ^ 53)%N ->
  exists c, pick alphabet k = String c EmptyString /\ In c (list_ascii_of_string alphabet).
Proof.
  intros Hk. unfold pick. rewrite alphabet_length. change (N.of_nat 94) with 94%N.
  destruct (get_in (N.to_nat (round53 (k * 94) / 2 ^ 53)) alphabet) as [c [Hc Hin]].
  - rewrite alphabet_length. now apply pick_index_bound.
  - rewrite Hc. eauto.
Qed.

Lemma picks_chars ks :
  Forall (fun k => (k < 2 ^ 53)%N) ks ->
  exists cs,
    PyStr.join (map (pick alphabet) ks) = string_of_list_ascii cs /\
    List.length cs = List.length ks /\
    Forall (fun c => In c (list_ascii_of_string alphabet)) cs.
Proof.
  induction 1 as [|k ks Hk _ [cs [Hj [Hl Hc]]]].
  - exists []. repeat split; constructor.
  - destruct (pick_alphabet _ Hk) as [c [Hp Hin]]. exists (c :: cs).
    unfold PyStr.join in *. cbn [map String.concat]. rewrite Hp.
    repeat split.
    + cbn [string_of_list_ascii]. rewrite <- Hj.
      destruct (map (pick alphabet) ks); reflexivity.
    + simpl. now rewrite Hl.
    + now constructor.
Qed.

(** The credential is a string of 16 characters of the alphabet. *)
Lemma generated_password_chars start :
  exists cs,
    generated_password env start = string_of_list_ascii cs /\
    List.length cs = 16 /\
    Forall (fun c => In c (list_ascii_of_string alphabet)) cs.
Proof.
  destruct (picks_chars _ (draws_bound start 16)) as [cs [Hj [Hl Hc]]].
  exists cs. rewrite draws_length in Hl. auto.
Qed.

Lemma length_string_of_list_ascii cs :
  String.length (string_of_list_ascii cs) = List.length cs.
Proof. induction cs; simpl; auto. Qed.

Lemma generated_password_length start :
  String.length (generated_password env start) = 16.
Proof.
  destruct (generated_password_chars start) as [cs [-> [Hl _]]].
  now rewrite length_string_of_list_ascii.
Qed.

Lemma generated_password_alphabet start c :
  In c (list_ascii_of_string (generated_password env start)) ->
  In c (list_ascii_of_string alphabet).
Proof.
  destruct (generated_password_chars start) as [cs [-> [_ Hc]]].
  rewrite list_ascii_of_string_of_list_ascii. intros Hin.
  now apply (proj1 (Forall_forall _ _) Hc).
Qed.

Lemma forallb_chars q s :
  (forall c, In c (list_ascii_of_string s) -> q c = true) -> PyStr.forallb q s = true.
Proof.
  induction s as [|a s IH]; simpl; intros H; [reflexivity|].
  rewrite H by auto. simpl. apply IH. auto.
Qed.

Lemma chars_forallb q s c :
  PyStr.forallb q s = true -> In c (list_ascii_of_string s) -> q c = true.
Proof.
  induction s as [|a s IH]; simpl; intros H Hin; [contradiction|].
  apply andb_true_iff in H as [Ha Hs]. destruct Hin as [<-|Hin]; auto.
Qed.

Lemma alphabet_not_space : PyStr.forallb not_space alphabet = true.
Proof. reflexivity. Qed.

Lemma generated_password_not_space start :
  PyStr.forallb not_space (generated_password env start) = true.
Proof.
  apply forallb_chars. intros c Hc.
  apply (chars_forallb _ _ _ alphabet_not_space).
  eapply generated_password_alphabet. eassumption.
Qed.

(** The credential does not occur in a text whose words are shorter
    than 16 characters. *)
Lemma generated_password_absent start s :
  PyStr.longest_run not_space s < 16 ->
  PyStr.contains (generated_password env start) s = false.
Proof.
  intros Hs. destruct (PyStr.contains (generated_password env start) s) eqn:E; [|reflexivity].
  pose proof (contains_run not_space _ _ (generated_password_not_space start) E) as H.
  rewrite generated_password_length in H. lia.
Qed.

End Credential.

(** ** The directory adapter *)

Section Directory.

Variable env : environment.

Lemma advance_advance w e1 n1 e2 n2 :
  advance (advance w e1 n1) e2 n2 = advance w (e1 ++ e2) (n1 + n2).
Proof. unfold advance. simpl. now rewrite app_assoc, Nat.add_assoc. Qed.

Lemma emit_run ev w : emit ev w = (Return tt, advance w [ev] 0).
Proof. unfold emit, advance. now rewrite Nat.add_0_r. Qed.

Lemma logging_run lvl msg w : logging lvl msg w = (Return tt, advance w [EvLog lvl msg] 0).
Proof. apply emit_run. Qed.

Lemma logging_with_argument_run lvl msg w :
  logging_with_argument lvl msg w = (Return tt, advance w [EvLoggingError lvl msg] 0).
Proof. apply emit_run. Qed.

Lemma choices_advance population k w :
  choices env population k w =
  (Return (map (pick population) (draws env (randoms_drawn w) k)), advance w [] k).
Proof. rewrite choices_run. unfold advance. now rewrite app_nil_r. Qed.

Lemma init_graph_client_ok w x :
  graph_client env = Return x ->
  init_graph_client env w = (Return x, advance w [EvGraphClient] 0).
Proof.
  intros H. unfold init_graph_client, try_except.
  rewrite (bind_return _ _ _ _ _ (emit_run _ _)). unfold lift. now rewrite H.
Qed.

Lemma init_graph_client_raises w e :
  graph_client env = Raise e ->
  init_graph_client env w =
  (Raise e, advance w [EvGraphClient;
                       EvLog LvError "Exception in Microsoft Graph initialization"] 0).
Proof.
  intros H. unfold init_graph_client, try_except.
  rewrite (bind_return _ _ _ _ _ (emit_run _ _)). unfold lift. rewrite H.
  rewrite (bind_return _ _ _ _ _ (logging_run _ _ _)). unfold raise.
  now rewrite advance_advance.
Qed.

(** The four ways [reset_user_password] ends. *)

Lemma reset_user_password_no_client u w e :
  graph_client env = Raise e ->
  reset_user_password env (Some u) w =
  (Raise e,
   advance w [EvGraphClient;
              EvLog LvError "Exception in Microsoft Graph initialization";
              EvLog LvError ("Password reset failed: " ++ exn_str e)] 0).
Proof.
  intros H. unfold reset_user_password, try_except.
  rewrite (bind_raise _ _ _ _ _ (init_graph_client_raises _ _ H)).
  rewrite (bind_return _ _ _ _ _ (logging_run _ _ _)). unfold raise.
  now rewrite advance_advance.
Qed.

Lemma reset_user_password_patch_raises u w x e :
  graph_client env = Return x ->
  graph_patch env ("/users/" ++ u) (reset_payload (generated_password env (randoms_drawn w)))
    = Raise e ->
  reset_user_password env (Some u) w =
  (Raise e,
   advance w [EvGraphClient;
              EvGraphPatch ("/users/" ++ u)
                           (reset_payload (generated_password env (randoms_drawn w)));
              EvLog LvError ("Password reset failed: " ++ exn_str e)] 16).
Proof.
  intros Hc Hp. unfold reset_user_password, try_except.
  rewrite (bind_return _ _ _ _ _ (init_graph_client_ok _ _ Hc)).
  rewrite (bind_return _ _ _ _ _ (choices_advance _ _ _)).
  rewrite (bind_return _ _ _ _ _ (emit_run _ _)).
  cbn [fmt]. fold alphabet.
  change (randoms_drawn (advance w [EvGraphClient] 0)) with (randoms_drawn w + 0).
  rewrite Nat.add_0_r. fold (generated_password env (randoms_drawn w)).
  fold (reset_payload (generated_password env (randoms_drawn w))).
  rewrite (bind_lift_raise _ _ _ _ Hp).
  rewrite (bind_return _ _ _ _ _ (logging_run _ _ _)). unfold raise.
  now rewrite !advance_advance.
Qed.

Lemma reset_user_password_refused u w x r :
  graph_client env = Return x ->
  graph_patch env ("/users/" ++ u) (reset_payload (generated_password env (randoms_drawn w)))
    = Return r ->
  status_code r <> 204%Z ->
  reset_user_password env (Some u) w =
  (Raise (exception ("Failed to reset password: " ++ PyStr.of_Z (status_code r))),
   advance w [EvGraphClient;
              EvGraphPatch ("/users/" ++ u)
                           (reset_payload (generated_password env (randoms_drawn w)));
              EvLog LvError ("Failed to reset password: " ++ text r);
              EvLog LvError ("Password reset failed: Failed to reset password: "
                             ++ PyStr.of_Z (status_code r))] 16).
Proof.
  intros Hc Hp Hs. unfold reset_user_password, try_except.
  rewrite (bind_return _ _ _ _ _ (init_graph_client_ok _ _ Hc)).
  rewrite (bind_return _ _ _ _ _ (choices_advance _ _ _)).
  rewrite (bind_return _ _ _ _ _ (emit_run _ _)).
  cbn [fmt]. fold alphabet.
  change (randoms_drawn (advance w [EvGraphClient] 0)) with (randoms_drawn w + 0).
  rewrite Nat.add_0_r. fold (generated_password env (randoms_drawn w)).
  fold (reset_payload (generated_password env (randoms_drawn w))).
  rewrite (bind_lift_return _ _ _ _ Hp).
  apply Z.eqb_neq in Hs. rewrite Hs.
  rewrite (bind_return _ _ _ _ _ (logging_run _ _ _)). unfold raise.
  rewrite (bind_return _ _ _ _ _ (logging_run _ _ _)).
  now rewrite !advance_advance.
Qed.

Lemma reset_user_password_ok u w x r :
  graph_client env = Return x ->
  graph_patch env ("/users/" ++ u) (reset_payload (generated_password env (randoms_drawn w)))
    = Return r ->
  status_code r = 204%Z ->
  reset_user_password env (Some u) w =
  (Return (generated_password env (randoms_drawn w)),
   advance w [EvGraphClient;
              EvGraphPatch ("/users/" ++ u)
                           (reset_payload (generated_password env (randoms_drawn w)));
              EvLog LvInfo ("Password reset successfully for user " ++ u)] 16).
Proof.
  intros Hc Hp Hs. unfold reset_user_password, try_except.
  rewrite (bind_return _ _ _ _ _ (init_graph_client_ok _ _ Hc)).
  rewrite (bind_return _ _ _ _ _ (choices_advance _ _ _)).
  rewrite (bind_return _ _ _ _ _ (emit_run _ _)).
  cbn [fmt]. fold alphabet.
  change (randoms_drawn (advance w [EvGraphClient] 0)) with (randoms_drawn w + 0).
  rewrite Nat.add_0_r. fold (generated_password env (randoms_drawn w)).
  fold (reset_payload (generated_password env (randoms_drawn w))).
  rewrite (bind_lift_return _ _ _ _ Hp).
  rewrite Hs. cbn [Z.eqb Pos.eqb].
  rewrite (bind_return _ _ _ _ _ (logging_run _ _ _)). unfold ret.
  now rewrite !advance_advance.
Qed.

End Directory.

(** ** The password-reset flow *)

Section ResetFlow.

Variable env : environment.

Lemma try_except_raise {A} (m : M A) h w e w' :
  m w = (Raise e, w') -> try_except m h w = h e w'.
Proof. intros H. unfold try_except. now rewrite H. Qed.

Lemma try_except_return {A} (m : M A) h w a w' :
  m w = (Return a, w') -> try_except m h w = (Return a, w').
Proof. intros H. unfold try_except. now rewrite H. Qed.

(** What the [except] clause does once [username] is bound ... *)
Lemma reset_failed_bound username e w :
  reset_failed env (Some username) e w =
  (Return (Json (assistant_message (uuid4 env (uuids_drawn w)) apology_text) 200),
   next_uuid (advance w [EvLog LvError ("An error occurred during password reset: "
                                        ++ exn_str e);
                         failure_audit username (exn_str e)] 0)).
Proof.
  unfold reset_failed, log_failed_password_reset_attempt.
  rewrite (bind_return _ _ _ _ _ (logging_run _ _ _)).
  rewrite (bind_return _ _ _ _ _ (logging_run _ _ _)).
  rewrite advance_advance. reflexivity.
Qed.

(** ... and when it is not. *)
Lemma reset_failed_unbound e w :
  reset_failed env None e w =
  (Return (Json (assistant_message (uuid4 env (uuids_drawn w)) apology_text) 200),
   next_uuid (advance w [EvLog LvError ("An error occurred during password reset: "
                                        ++ exn_str e)] 0)).
Proof.
  unfold reset_failed.
  rewrite (bind_return _ _ _ _ _ (logging_run _ _ _)). reflexivity.
Qed.

(** The flow of an authenticated request is the call of the directory
    adapter, under the [except] clause. *)
Lemma conversation_authenticated req w u a :
  last_message_has "reset my password" req = true ->
  extract_username (messages_of req) = Return (Some u) ->
  String.eqb u "" = false ->
  get_authenticated_user_details env (request_headers req) = Return a ->
  principal_is a u = true ->
  conversation env req w =
  try_except
    (new_password <- reset_user_password env (Some u) ;;
     log_password_reset (Some u) ;;
     id <- uuid_str env ;;
     ret (Json (assistant_message id (success_text new_password)) 200))
    (reset_failed env (Some (Some u))) w.
Proof.
  intros Hreq Hname Hu Ea Hp.
  rewrite (conversation_reset env req w Hreq), Hname.
  change (try_binding (lift (Return (Some u))) (reset_steps env req) (reset_failed env) w)
    with (try_except (reset_steps env req (Some u)) (reset_failed env (Some (Some u))) w).
  unfold try_except, reset_steps. cbn [falsy]. rewrite Hu.
  rewrite (bind_lift_return _ _ _ _ Ea).
  rewrite (bind_lift_return _ _ _ _ (not_authenticated_match _ _ Hp)). reflexivity.
Qed.

Lemma directory_fails_raises u w :
  directory_fails env u (generated_password env (randoms_drawn w)) = true ->
  exists e evs n,
    reset_user_password env (Some u) w = (Raise e, advance w evs n).
Proof.
  unfold directory_fails. intros H.
  destruct (graph_client env) as [x|e|] eqn:Ec; try discriminate.
  - destruct (graph_patch env _ _) as [r|e|] eqn:Ep; try discriminate.
    + apply negb_true_iff, Z.eqb_neq in H.
      rewrite (reset_user_password_refused _ _ _ _ _ Ec Ep H). eauto.
    + rewrite (reset_user_password_patch_raises _ _ _ _ _ Ec Ep). eauto.
  - rewrite (reset_user_password_no_client _ _ _ _ Ec). eauto.
Qed.

End ResetFlow.

(** C2. In the password-reset flow, when the directory adapter raises
    or the patch answers with a status other than 204, the reset has
    failed: the handler answers with the fixed apology, the failure
    audit record is the last event emitted, and no string of the
    response contains the generated credential (the [id] is a fresh
    UUID, drawn without reading the credential). *)
Theorem C2_directory_failure_hides_credential :
  forall env req w u a,
    last_message_has "reset my password" req = true ->
    extract_username (messages_of req) = Return (Some u) ->
    String.eqb u "" = false ->
    get_authenticated_user_details env (request_headers req) = Return a ->
    principal_is a u = true ->
    directory_fails env u (generated_password env (randoms_drawn w)) = true ->
    exists e evs n,
      conversation env req w =
      (Return (Json (assistant_message (uuid4 env (uuids_drawn w)) apology_text) 200),
       next_uuid
         (advance w
            (evs ++ [EvLog LvError ("An error occurred during password reset: " ++ exn_str e);
                     failure_audit (Some u) (exn_str e)]) n)) /\
      forall s,
        In s (response_strings
                (Json (assistant_message (uuid4 env (uuids_drawn w)) apology_text) 200)) ->
        s = uuid4 env (uuids_drawn w) \/
        PyStr.contains (generated_password env (randoms_drawn w)) s = false.
Proof.
  intros env req w u a Hreq Hname Hu Ea Hp Hfail.
  destruct (directory_fails_raises env u w Hfail) as (e & evs & n & Hr).
  exists e, evs, n. split.
  - rewrite (conversation_authenticated env req w u a Hreq Hname Hu Ea Hp).
    rewrite (try_except_raise _ _ _ _ _ (bind_raise _ _ _ _ _ Hr)).
    rewrite reset_failed_bound, advance_advance, Nat.add_0_r. reflexivity.
  - intros s Hs. cbn in Hs.
    destruct Hs as [<-|[<-|[<-|[<-|[<-|[<-|[]]]]]]]; auto;
      right; apply generated_password_absent; vm_compute; lia.
Qed.

Lemma C2_witness :
  exists w',
    conversation Demo.env_forbidden Demo.reset_by_alice initial_world =
    (Return (Json (assistant_message "7d444840-9dc0-11d1-b245-5ffdce74fad0" apology_text) 200),
     w') /\
    PyStr.contains (generated_password Demo.env_forbidden 0) apology_text = false.
Proof.
  destruct (C2_directory_failure_hides_credential
              Demo.env_forbidden Demo.reset_by_alice initial_world "alice" Demo.alice
              eq_refl eq_refl eq_refl eq_refl eq_refl eq_refl)
    as (e & evs & n & Hrun & Hstr).
  eexists. split; [exact Hrun |].
  destruct (Hstr apology_text) as [H|H]; [cbn; tauto | discriminate H | exact H].
Defined.

(** C3 (amended). Every failure branch of the password-reset flow that
    is reached by an exception raised after [username] is bound emits
    the failure audit record, as the last event before the apology is
    returned; when the resolution of the username itself raises, the
    apology is returned and only the error is logged. *)
Theorem C3_audit_on_failure_once_username_is_bound :
  forall env req w e,
    last_message_has "reset my password" req = true ->
    (forall username w1,
        extract_username (messages_of req) = Return username ->
        reset_steps env req username w = (Raise e, w1) ->
        conversation env req w =
        (Return (Json (assistant_message (uuid4 env (uuids_drawn w1)) apology_text) 200),
         next_uuid
           (advance w1 [EvLog LvError ("An error occurred during password reset: "
                                       ++ exn_str e);
                        failure_audit username (exn_str e)] 0))) /\
    (extract_username (messages_of req) = Raise e ->
     conversation env req w =
     (Return (Json (assistant_message (uuid4 env (uuids_drawn w)) apology_text) 200),
      next_uuid
        (advance w [EvLog LvError ("An error occurred during password reset: "
                                   ++ exn_str e)] 0))).
Proof.
  intros env req w e Hreq. split.
  - intros username w1 Hname Hsteps.
    rewrite (conversation_reset env req w Hreq), Hname.
    change (try_binding (lift (Return username)) (reset_steps env req) (reset_failed env) w)
      with (try_except (reset_steps env req username) (reset_failed env (Some username)) w).
    rewrite (try_except_raise _ _ _ _ _ Hsteps). apply reset_failed_bound.
  - intros Hname.
    rewrite (conversation_reset env req w Hreq), Hname.
    change (try_binding (lift (Raise e)) (reset_steps env req) (reset_failed env) w)
      with (reset_failed env None e w).
    apply reset_failed_unbound.
Qed.

Lemma C3_witness :
  exists w',
    conversation Demo.env_forbidden Demo.reset_by_alice initial_world =
    (Return (Json (assistant_message "7d444840-9dc0-11d1-b245-5ffdce74fad0" apology_text) 200),
     w') /\
    List.last (trace w') EvGraphClient =
    failure_audit (Some "alice") "Failed to reset password: 403".
Proof.
  eexists. split.
  - rewrite (proj1 (C3_audit_on_failure_once_username_is_bound
                      Demo.env_forbidden Demo.reset_by_alice initial_world
                      (exception "Failed to reset password: 403") eq_refl)
                   (Some "alice")
                   (mk_world
                      [EvGraphClient;
                       EvGraphPatch "/users/alice"
                         (reset_payload (generated_password Demo.env_forbidden 0));
                       EvLog LvError "Failed to reset password: Forbidden";
                       EvLog LvError "Password reset failed: Failed to reset password: 403"]
                      0 16)
                   eq_refl eq_refl).
    reflexivity.
  - reflexivity.
Defined.

(** The claim as written fails when the resolution of the username
    raises: a message without [content] before the request makes
    [extract_username] raise a [KeyError]; the apology is returned and
    no failure audit record is in the trace. *)
Lemma C3_counterexample :
  extract_username (messages_of Demo.reset_after_malformed) = Raise (Py.key_error "content") /\
  conversation Demo.env_ok Demo.reset_after_malformed initial_world =
  (Return (Json (assistant_message "7d444840-9dc0-11d1-b245-5ffdce74fad0" apology_text) 200),
   mk_world [EvLog LvError "An error occurred during password reset: 'content'"] 1 0) /\
  List.existsb is_failure_audit
    (trace (snd (conversation Demo.env_ok Demo.reset_after_malformed initial_world))) = false.
Proof. repeat split; reflexivity. Qed.

(** ** Uniform choice *)

Section Uniform.

Lemma get_length n s c : String.get n s = Some c -> n < String.length s.
Proof.
  revert n. induction s as [|a s IH]; intros n H; [discriminate|].
  destruct n as [|n]; simpl in *; [lia|]. apply IH in H. lia.
Qed.

Lemma alphabet_distinct : distinct_upto alphabet 94 = true.
Proof. vm_compute. reflexivity. Qed.

(** The 94 characters of the alphabet are pairwise distinct. *)
Lemma alphabet_get_inj i j c :
  String.get i alphabet = Some c -> String.get j alphabet = Some c -> i = j.
Proof.
  intros Hi Hj.
  assert (forall n, String.get n alphabet = Some c -> find_index c alphabet = n) as H.
  { intros n Hn. pose proof (get_length _ _ _ Hn) as Hlt. rewrite alphabet_length in Hlt.
    pose proof (proj1 (forallb_forall _ _) alphabet_distinct n) as Hd.
    cbv beta in Hd. rewrite Hn in Hd. apply Nat.eqb_eq, Hd, in_seq. lia. }
  rewrite <- (H i Hi). exact (H j Hj).
Qed.

(** [random.choices] gives every character of the alphabet the draws
    of an interval of the same width, [[j/94, (j+1)/94)], give or take
    the rounding of the product: the character at position [j] is
    picked only when [random() * 94] is in [[j - 2^-47, j + 1)], and it
    is picked whenever [random() * 94] is in [[j, j + 1 - 2^-47)]. *)
Lemma pick_interval k j c :
  (k < 2 ^ 53)%N ->
  String.get j alphabet = Some c ->
  (pick alphabet k = String c EmptyString ->
   (N.of_nat j * 2 ^ 53 <= k * 94 + 64 /\ k * 94 < (N.of_nat j + 1) * 2 ^ 53)%N) /\
  ((N.of_nat j * 2 ^ 53 <= k * 94 /\ k * 94 + 64 < (N.of_nat j + 1) * 2 ^ 53)%N ->
   pick alphabet k = String c EmptyString).
Proof.
  intros Hk Hj. unfold pick. rewrite alphabet_length. change (N.of_nat 94) with 94%N.
  pose proof (pick_index_bound k Hk) as Hb.
  destruct (get_in (N.to_nat (round53 (k * 94) / 2 ^ 53)) alphabet) as [ci [Hci _]];
    [now rewrite alphabet_length|].
  rewrite Hci.
  assert (k * 94 < 2 ^ 60)%N as Hp by (change (2 ^ 60)%N with (2 ^ 53 * 128)%N; lia).
  destruct (round53_spec (k * 94) Hp) as (Hup & Hdown & Hwhole).
  pose proof (N.Div0.mul_div_le (round53 (k * 94)) (2 ^ 53)) as Hlo.
  pose proof (N.mul_succ_div_gt (round53 (k * 94)) (2 ^ 53) ltac:(discriminate)) as Hhi.
  split.
  - intros H. injection H as ->.
    pose proof (alphabet_get_inj _ _ _ Hci Hj) as E.
    assert (round53 (k * 94) / 2 ^ 53 = N.of_nat j)%N as Eq by lia.
    rewrite Eq in Hlo, Hhi. split; [lia |].
    destruct (N.lt_ge_cases (k * 94) ((N.of_nat j + 1) * 2 ^ 53)) as [Hlt | Hge];
      [exact Hlt |].
    apply (proj1 (Hwhole (N.of_nat j + 1)%N)) in Hge. lia.
  - intros [Hfrom Hto].
    pose proof (proj1 (Hwhole (N.of_nat j)) Hfrom) as Hfloor.
    assert (round53 (k * 94) / 2 ^ 53 = N.of_nat j)%N as E.
    { symmetry.
      apply (N.div_unique _ _ _ (round53 (k * 94) - N.of_nat j * 2 ^ 53)); lia. }
    rewrite E in Hci. replace (N.to_nat (N.of_nat j)) with j in Hci by lia. congruence.
Qed.

End Uniform.

Lemma directory_succeeds_inv env u pw :
  directory_succeeds env u pw = true ->
  exists x r,
    graph_client env = Return x /\
    graph_patch env ("/users/" ++ u) (reset_payload pw) = Return r /\
    status_code r = 204%Z.
Proof.
  unfold directory_succeeds. intros H.
  destruct (graph_client env) as [x| |]; try discriminate.
  destruct (graph_patch env _ _) as [r| |]; try discriminate.
  exists x, r. repeat split. now apply Z.eqb_eq.
Qed.

(** C4. In the password-reset flow, when the directory patch answers
    204, the handler answers with the assistant message of the new
    credential, and the response shows the credential; the credential
    has exactly 16 characters, each one a letter, a digit or a
    punctuation sign, picked from the 94 distinct characters of the
    alphabet by a draw of [random()] that gives every character an
    interval of the same width, give or take the rounding of the
    floating-point product; and the success audit record for the
    resolved username is the last event emitted. *)
Theorem C4_directory_success_returns_credential :
  forall env req w u a,
    last_message_has "reset my password" req = true ->
    extract_username (messages_of req) = Return (Some u) ->
    String.eqb u "" = false ->
    get_authenticated_user_details env (request_headers req) = Return a ->
    principal_is a u = true ->
    directory_succeeds env u (generated_password env (randoms_drawn w)) = true ->
    conversation env req w =
    (Return (credential_answer (uuid4 env (uuids_drawn w))
                               (generated_password env (randoms_drawn w))),
     next_uuid
       (advance w
          [EvGraphClient;
           EvGraphPatch ("/users/" ++ u)
                        (reset_payload (generated_password env (randoms_drawn w)));
           EvLog LvInfo ("Password reset successfully for user " ++ u);
           success_audit (Some u)] 16)) /\
    response_shows (generated_password env (randoms_drawn w))
      (credential_answer (uuid4 env (uuids_drawn w))
                         (generated_password env (randoms_drawn w))) = true /\
    String.length (generated_password env (randoms_drawn w)) = 16 /\
    (forall c, In c (list_ascii_of_string (generated_password env (randoms_drawn w))) ->
               In c (list_ascii_of_string (ascii_letters ++ digits ++ punctuation))) /\
    generated_password env (randoms_drawn w) =
      PyStr.join (map (pick (ascii_letters ++ digits ++ punctuation))
                      (draws env (randoms_drawn w) 16)) /\
    (forall i j c d,
        String.get i (ascii_letters ++ digits ++ punctuation) = Some c ->
        String.get j (ascii_letters ++ digits ++ punctuation) = Some d ->
        c = d -> i = j) /\
    (forall k j c,
        (k < 2 ^ 53)%N ->
        String.get j (ascii_letters ++ digits ++ punctuation) = Some c ->
        (pick (ascii_letters ++ digits ++ punctuation) k = String c EmptyString ->
         (N.of_nat j * 2 ^ 53 <= k * 94 + 64 /\ k * 94 < (N.of_nat j + 1) * 2 ^ 53)%N) /\
        ((N.of_nat j * 2 ^ 53 <= k * 94 /\ k * 94 + 64 < (N.of_nat j + 1) * 2 ^ 53)%N ->
         pick (ascii_letters ++ digits ++ punctuation) k = String c EmptyString)).
Proof.
  intros env req w u a Hreq Hname Hu Ea Hp Hok.
  destruct (directory_succeeds_inv _ _ _ Hok) as (x & r & Hc & Hpatch & Hs).
  split; [| split; [| split; [| split; [| split; [| split]]]]].
  - rewrite (conversation_authenticated env req w u a Hreq Hname Hu Ea Hp).
    apply try_except_return.
    rewrite (bind_return _ _ _ _ _ (reset_user_password_ok _ _ _ _ _ Hc Hpatch Hs)).
    unfold log_password_reset.
    rewrite (bind_return _ _ _ _ _ (logging_run _ _ _)).
    rewrite advance_advance. reflexivity.
  - unfold response_shows, credential_answer, assistant_answer.
    cbn [response_strings json_strings flat_map app List.existsb].
    rewrite (contains_app (generated_password env (randoms_drawn w))
               "Your password has been reset successfully. Your new temporary password is: ").
    now rewrite !orb_true_r.
  - apply generated_password_length.
  - apply generated_password_alphabet.
  - reflexivity.
  - intros i j c d Hi Hj ->. exact (alphabet_get_inj _ _ _ Hi Hj).
  - apply pick_interval.
Qed.

Lemma C4_witness :
  conversation Demo.env_ok Demo.reset_by_alice initial_world =
  (Return (credential_answer "7d444840-9dc0-11d1-b245-5ffdce74fad0" "agmszFLRY4!'.>^~"),
   mk_world [EvGraphClient;
             EvGraphPatch "/users/alice" (reset_payload "agmszFLRY4!'.>^~");
             EvLog LvInfo "Password reset successfully for user alice";
             EvLog LvInfo "Password reset successful for user alice"] 1 16).
Proof.
  rewrite (proj1 (C4_directory_success_returns_credential
                    Demo.env_ok Demo.reset_by_alice initial_world "alice" Demo.alice
                    eq_refl eq_refl eq_refl eq_refl eq_refl eq_refl)).
  reflexivity.
Defined.

(** ** Dispatch *)

Section Dispatch.

Variable env : environment.

Ltac unfold_reset_flow :=
  unfold reset_steps, reset_failed, reset_user_password, init_graph_client,
    log_password_reset, log_failed_password_reset_attempt.

(** The password-reset flow calls neither the weather adapter nor the
    chat flow. *)
Lemma reset_flow_emits req :
  emits_only (fun ev => is_weather_call ev || is_chat_request ev = false)
    (try_binding (lift (extract_username (messages_of req))) (reset_steps env req)
                 (reset_failed env)).
Proof. unfold_reset_flow. emits. Qed.

(** [conversation_internal], as bound at line 325, never calls the
    weather adapter. *)
Lemma conversation_internal_emits request_body hdrs :
  emits_only (fun ev => is_weather_call ev = false)
    (conversation_internal env request_body hdrs).
Proof. unfold conversation_internal, chat_flow, internal_error. emits. Qed.

(** Nor does [conversation], as bound at line 360. *)
Lemma conversation_emits req :
  emits_only (fun ev => is_weather_call ev = false) (conversation env req).
Proof.
  unfold conversation. cbv zeta. unfold_reset_flow.
  unfold conversation_internal, chat_flow, internal_error. emits.
Qed.

(** The first definition of [conversation] (line 247) dispatches in the
    same order: the reset phrase is tested before the request is handed
    to [conversation_internal]. *)
Lemma line247_reset_first req w :
  has_last_content req = true ->
  conversation_line247 env req w =
  if last_message_has "reset my password" req
  then
    try_binding
      (extract_username_with_openai env (messages_of req))
      (fun username =>
         if falsy username
         then generate_openai_response env clarification_text
         else
           authenticated_user <-
             lift (get_authenticated_user_details env (request_headers req)) ;;
           declined <- lift (not_authenticated authenticated_user username) ;;
           if declined
           then generate_openai_response env decline_text
           else
             new_password <- reset_user_password env username ;;
             log_password_reset username ;;
             generate_openai_response env (success_text new_password))
      (fun bound e =>
         logging LvError ("An error occurred during password reset: " ++ exn_str e) ;;
         match bound with
         | Some username => log_failed_password_reset_attempt username (exn_str e)
         | None => ret tt
         end ;;
         generate_openai_response env apology_text) w
  else conversation_internal env (get_json req) (request_headers req) w.
Proof.
  intros Hc.
  apply has_last_content_inv in Hc as (Hj & last & c & Hm & Hl & Hi & Hlc).
  unfold last_message_has. rewrite Hj, Hlc. cbn [andb].
  unfold conversation_line247. rewrite Hj. cbv beta iota zeta delta [negb].
  rewrite (bind_lift_return _ _ _ _ Hm), (bind_lift_return _ _ _ _ Hl),
    (bind_lift_return _ _ _ _ Hi).
  simpl Py.lower. rewrite (bind_lift_return _ _ _ _ eq_refl).
  destruct (PyStr.contains "reset my password" (PyStr.lower c)); [|reflexivity].
  unfold try_binding. now rewrite (bind_lift_return _ _ _ _ Hm).
Qed.

End Dispatch.

(** C5 (amended). The dispatch is decided on the most recent message by
    a case-insensitive substring match, the password reset first: a
    request whose last message contains "reset my password", also one
    that contains "weather in" as well, enters the password-reset flow,
    which calls neither the weather adapter nor the chat flow; any
    other request is handed to [conversation_internal]. *)
Theorem C5_reset_takes_precedence :
  forall env req w,
    has_last_content req = true ->
    if last_message_has "reset my password" req
    then
      conversation env req w =
      try_binding (lift (extract_username (messages_of req))) (reset_steps env req)
                  (reset_failed env) w /\
      extends (fun ev => is_weather_call ev || is_chat_request ev = false) w
              (snd (conversation env req w))
    else
      conversation env req w =
      conversation_internal env (get_json req) (request_headers req) w.
Proof.
  intros env req w Hc.
  destruct (last_message_has "reset my password" req) eqn:Hreq.
  - split; [now apply conversation_reset|].
    rewrite (conversation_reset env req w Hreq). apply reset_flow_emits.
  - now apply conversation_chat.
Qed.

Lemma C5_witness :
  last_message_has "weather in" Demo.reset_and_weather = true /\
  extends (fun ev => is_weather_call ev || is_chat_request ev = false) initial_world
          (snd (conversation Demo.env_ok Demo.reset_and_weather initial_world)).
Proof.
  split; [reflexivity|].
  exact (proj2 (C5_reset_takes_precedence Demo.env_ok Demo.reset_and_weather
                  initial_world eq_refl)).
Defined.

(** The claim as written fails on a message with both phrases: the
    password-reset flow answers (here with the clarification request,
    as the history names no user) and the weather adapter is not
    called. *)
Lemma C5_counterexample :
  last_message_has "weather in" Demo.reset_and_weather = true /\
  last_message_has "reset my password" Demo.reset_and_weather = true /\
  conversation Demo.env_ok Demo.reset_and_weather initial_world =
  (Return (Json (assistant_message "7d444840-9dc0-11d1-b245-5ffdce74fad0"
                   clarification_text) 200),
   mk_world [] 1 0).
Proof. repeat split; reflexivity. Qed.

(** ** The weather branch *)

Section Weather.

Variable env : environment.
Variable repr_container : json -> string.

(** The first definition of [conversation_internal] on the request of
    the claim: the location is [seattle] and the answer is built from
    what [get_weather] returns for it. *)
Lemma line85_extracts_seattle hdrs w :
  conversation_internal_line85 env repr_container
    (get_json Demo.weather_in_seattle) hdrs w =
  try_except
    (weather_info <- get_weather env repr_container "seattle" ;;
     u <- uuid_str env ;;
     ret (Json (assistant_message u weather_info) 200))
    (internal_error) w.
Proof. reflexivity. Qed.

(** [get_weather] starts with the request to the weather service. *)
Lemma get_weather_starts_with_the_request location w :
  extends (fun _ => True)
    (advance w [EvHttpGet "http://api.openweathermap.org/data/2.5/weather"
                  [("q", location); ("appid", OPENWEATHERMAP_API_KEY env);
                   ("units", "metric")]] 0)
    (snd (get_weather env repr_container location w)).
Proof.
  unfold get_weather. cbv zeta. rewrite (bind_return _ _ _ _ _ (emit_run _ _)).
  generalize (advance w [EvHttpGet "http://api.openweathermap.org/data/2.5/weather"
                           [("q", location); ("appid", OPENWEATHERMAP_API_KEY env);
                            ("units", "metric")]] 0).
  change (emits_only (fun _ : event => True)
            (resp <- lift (session_get env "http://api.openweathermap.org/data/2.5/weather"
                             [("q", location); ("appid", OPENWEATHERMAP_API_KEY env);
                              ("units", "metric")]) ;;
             if Z.eqb (fst resp) 200
             then
               data <- lift (snd resp) ;;
               w <- lift (Py.item data "weather") ;;
               w0 <- lift (Py.index w 0) ;;
               weather_description <- lift (Py.item w0 "description") ;;
               m <- lift (Py.item data "main") ;;
               temperature <- lift (Py.item m "temp") ;;
               m' <- lift (Py.item data "main") ;;
               humidity <- lift (Py.item m' "humidity") ;;
               wd <- lift (Py.item data "wind") ;;
               wind_speed <- lift (Py.item wd "speed") ;;
               ret ("Current weather in " ++ location ++ ": "
                    ++ fmt_json repr_container weather_description
                    ++ ". Temperature: " ++ fmt_json repr_container temperature
                    ++ "°C, Humidity: " ++ fmt_json repr_container humidity
                    ++ "%, Wind speed: " ++ fmt_json repr_container wind_speed ++ " m/s.")
             else
               ret ("Unable to fetch weather data for " ++ location
                    ++ ". Please check the location name and try again."))).
  emits.
Qed.

Example line85_in_seattle :
  conversation_internal_line85 Demo.env_ok repr_container
    (get_json Demo.weather_in_seattle) [] initial_world =
  (Return (Json (assistant_message "7d444840-9dc0-11d1-b245-5ffdce74fad0"
                   "Current weather in seattle: light rain. Temperature: 11.5°C, Humidity: 81%, Wind speed: 4.1 m/s.")
                200),
   mk_world [EvHttpGet "http://api.openweathermap.org/data/2.5/weather"
               [("q", "seattle"); ("appid", "your_api_key_here"); ("units", "metric")]] 1 0).
Proof. reflexivity. Qed.

End Weather.

(** C8 (the code at the failing input). On the request whose only
    message is "what's the weather in Seattle" the router, in every
    environment, hands the request to the [conversation_internal] of
    line 325 and emits no call of the weather adapter. *)
Theorem C8_router_never_calls_weather_adapter :
  forall env w,
    conversation env Demo.weather_in_seattle w =
    conversation_internal env (get_json Demo.weather_in_seattle) [] w /\
    extends (fun ev => is_weather_call ev = false) w
            (snd (conversation env Demo.weather_in_seattle w)).
Proof.
  intros env w. split.
  - reflexivity.
  - apply conversation_emits.
Qed.

(** ** The handler boundary *)

Section Boundary.

Variable env : environment.

Lemma internal_error_run ex w :
  internal_error ex w =
  (Return (Json (JDict [("error", JStr (exn_str ex))])
                (match exn_status_code ex with Some code => code | None => 500%Z end)),
   advance w [EvLog LvError (exn_str ex)] 0).
Proof.
  unfold internal_error. rewrite (bind_return _ _ _ _ _ (logging_run _ _ _)).
  now destruct (exn_status_code ex).
Qed.

Lemma internal_error_never_raises ex : never_raises (internal_error ex).
Proof. intros w e. rewrite internal_error_run. discriminate. Qed.

Lemma conversation_internal_never_raises request_body hdrs :
  never_raises (conversation_internal env request_body hdrs).
Proof.
  unfold conversation_internal. apply never_raises_try_except.
  apply internal_error_never_raises.
Qed.


End Boundary.




(** ** Title generation *)

Section Title.

Variable env : environment.

(** When the request to the completion service raises, the title is
    the content of the second-to-last message of the history, when
    there is one. *)
Lemma generate_title_fallback l copied w e w1 m c :
  role_and_content l = Return copied ->
  request_title env (copied ++ [title_instruction]) w = (Raise e, w1) ->
  Py.index (JList l) (-2) = Return m ->
  Py.item m "content" = Return c ->
  generate_title env (JList l) w =
  (Return c, advance w1 [title_failure_log] 0).
Proof.
  intros Hcopy Hreq Hm Hc. unfold generate_title. cbn [Py.iter].
  rewrite (bind_lift_return _ _ _ _ eq_refl), (bind_lift_return _ _ _ _ Hcopy).
  cbv zeta. fold title_instruction. rewrite (try_except_raise _ _ _ _ _ Hreq).
  rewrite (bind_return _ _ _ _ _ (logging_with_argument_run _ _ _)).
  rewrite (bind_lift_return _ _ _ _ Hm). unfold lift. now rewrite Hc.
Qed.

Example generate_title_fallback_ex :
  fst (generate_title Demo.env_no_completion
         (JList [Demo.user_says "hi"; Demo.user_says "there"]) initial_world) =
  Return (JStr "hi").
Proof. reflexivity. Qed.

End Title.

(** C9 (the code at the failing input). For a history of a single
    message, the usual history of a new conversation, a request to the
    completion service that raises makes [generate_title] raise an
    [IndexError] from its [except] clause: there is no second-to-last
    message. *)
Theorem C9_single_message_history_raises :
  forall env msg role content w e w1,
    Py.item msg "role" = Return role ->
    Py.item msg "content" = Return content ->
    request_title env [JDict [("role", role); ("content", content)]; title_instruction] w =
      (Raise e, w1) ->
    generate_title env (JList [msg]) w =
    (Raise (Py.index_error "list"), advance w1 [title_failure_log] 0).
Proof.
  intros env msg role content w e w1 Hrole Hcontent Hreq.
  unfold generate_title. cbn [Py.iter].
  rewrite (bind_lift_return _ _ _ _ eq_refl). cbn [role_and_content].
  rewrite Hrole, Hcontent. cbn [obind].
  rewrite (bind_lift_return _ _ _ _ eq_refl). cbv zeta. cbn [app].
  fold title_instruction. rewrite (try_except_raise _ _ _ _ _ Hreq).
  rewrite (bind_return _ _ _ _ _ (logging_with_argument_run _ _ _)). reflexivity.
Qed.

Lemma C9_witness :
  fst (generate_title Demo.env_no_completion (JList [Demo.user_says "hi"]) initial_world) =
  Raise (Py.index_error "list").
Proof.
  rewrite (C9_single_message_history_raises
             Demo.env_no_completion (Demo.user_says "hi") (JStr "user") (JStr "hi")
             initial_world Demo.service_down
             (mk_world
                [EvLog LvInfo ("System message being used: " ++ SYSTEM_MESSAGE);
                 EvCompletion (JStr "gpt-4o")
                   (JList [JDict [("role", JStr "user"); ("content", JStr "hi")];
                           title_instruction]) "1" 64] 0 0)
             eq_refl eq_refl eq_refl).
  reflexivity.
Defined.

(** ** The history handler *)

Section History.

Variable env : environment.

Lemma nth_error_last (l : list json) d :
  l <> [] -> nth_error l (List.length l - 1) = Some (List.last l d).
Proof.
  induction l as [|x l IH]; [congruence|]. intros _.
  destruct l as [|y l]; [reflexivity|].
  change (List.last (x :: y :: l) d) with (List.last (y :: l) d).
  rewrite <- IH by discriminate. simpl. now rewrite Nat.sub_0_r.
Qed.

(** [messages[-1]] is the last element of a list that has one. *)
Lemma index_last l :
  l <> [] -> Py.index (JList l) (-1) = Return (List.last l JNull).
Proof.
  intros Hl. unfold Py.index, Py.seq_index. cbn [Z.ltb Z.compare].
  assert (0 < List.length l) as Hlen by (destruct l; [congruence | simpl; lia]).
  replace ((0 <=? -1 + Z.of_nat (List.length l))%Z
           && (-1 + Z.of_nat (List.length l) <? Z.of_nat (List.length l))%Z) with true
    by (symmetry; apply andb_true_iff; split; [apply Z.leb_le | apply Z.ltb_lt]; lia).
  replace (Z.to_nat (-1 + Z.of_nat (List.length l))) with (List.length l - 1) by lia.
  now rewrite (nth_error_last l JNull Hl).
Qed.

Lemma last_is_user_false l :
  no_final_user_message l = true -> last_is_user (JList l) = Return false.
Proof.
  unfold no_final_user_message, last_is_user. cbn [Py.len obind].
  destruct l as [|x l]; [reflexivity|]. intros H.
  change (Nat.ltb 0 (List.length (x :: l))) with true. cbv iota.
  rewrite index_last by discriminate. cbn [obind].
  destruct (Py.item (List.last (x :: l) JNull) "role") as [r| |]; try discriminate.
  cbn [obind]. apply negb_true_iff in H. now rewrite H.
Qed.

(** Without a final user message nothing is stored and the step raises. *)
Lemma append_user_message_raises request_json user_id conversation_id l w :
  Py.item request_json "messages" = Return (JList l) ->
  no_final_user_message l = true ->
  append_user_message env request_json user_id conversation_id w =
  (Raise (exception "No user message found"), w).
Proof.
  intros Hm Hl. unfold append_user_message.
  rewrite (bind_lift_return _ _ _ _ Hm).
  now rewrite (bind_lift_return _ _ _ _ (last_is_user_false l Hl)).
Qed.

Lemma history_failed_run e w :
  (logging LvError "Exception in /history/generate" ;;
   ret (Json (JDict [("error", JStr (exn_str e))]) 500)) w =
  (Return (error_500 (exn_str e)), advance w [EvLog LvError "Exception in /history/generate"] 0).
Proof. now rewrite (bind_return _ _ _ _ _ (logging_run _ _ _)). Qed.

Ltac unfold_history :=
  unfold add_conversation, cosmos_db_ready_wait, resolve_conversation, generate_title,
    request_title, init_openai_client, completions_create, conversation_internal,
    chat_flow, internal_error.

(** Without a final user message [create_message] is never called. *)
Lemma add_conversation_stores_nothing req l :
  Py.item (get_json req) "messages" = Return (JList l) ->
  no_final_user_message l = true ->
  emits_only (fun ev => is_create_message ev = false) (add_conversation env req).
Proof.
  intros Hm Hl.
  assert (forall user_id conversation_id,
             emits_only (fun ev => is_create_message ev = false)
               (append_user_message env (get_json req) user_id conversation_id)) as Happend.
  { intros user_id conversation_id w.
    rewrite (append_user_message_raises _ _ _ l w Hm Hl). apply extends_refl. }
  unfold_history. cbv zeta. emits.
Qed.

(** Nor does the request succeed: whatever the handler returns is an
    error response with status 500. *)
Lemma add_conversation_fails req l w r :
  Py.item (get_json req) "messages" = Return (JList l) ->
  no_final_user_message l = true ->
  fst (add_conversation env req w) = Return r ->
  exists msg, r = error_500 msg.
Proof.
  intros Hm Hl. unfold add_conversation.
  unfold bind at 1. destruct (cosmos_db_ready_wait env w) as [[[]| |] w0]; try discriminate.
  unfold bind at 1, lift at 1.
  destruct (get_authenticated_user_details env (request_headers req)) as [a| |];
    try discriminate.
  unfold bind at 1, lift at 1.
  destruct (Py.item a "user_principal_id") as [user_id| |]; try discriminate.
  cbv zeta. unfold bind at 1, lift at 1.
  destruct (Py.get (get_json req) "conversation_id" JNull) as [cid| |]; try discriminate.
  unfold try_except.
  unfold bind at 1.
  destruct ((if negb (cosmos_conversation_client env)
             then raise (exception "CosmosDB is not configured or not working")
             else ret tt) w0) as [[[]|e|] w1] eqn:E1.
  - unfold bind at 1.
    destruct (resolve_conversation env (get_json req) user_id cid w1)
      as [[resolved|e|] w2] eqn:E2.
    + rewrite (bind_raise _ _ _ _ _ (append_user_message_raises _ _ _ l w2 Hm Hl)).
      rewrite history_failed_run. intros H. injection H as <-. eauto.
    + rewrite history_failed_run. intros H. injection H as <-. eauto.
    + discriminate.
  - rewrite history_failed_run. intros H. injection H as <-. eauto.
  - discriminate.
Qed.

End History.

(** C10 (amended). The handler of [/history/generate], on a message
    list that is empty or whose final message has a role other than
    "user": in every environment it stores no message and, when it
    returns, it returns an error response with status 500; and when
    the store is ready and configured, the user is known and the
    conversation of the request is resolved (named by the request, or
    created), the error is "No user message found". *)
Theorem C10_no_user_message_is_an_error :
  forall env req msgs,
    Py.item (get_json req) "messages" = Return (JList msgs) ->
    no_final_user_message msgs = true ->
    (forall w,
        extends (fun ev => is_create_message ev = false) w (snd (add_conversation env req w)) /\
        forall r, fst (add_conversation env req w) = Return r -> exists msg, r = error_500 msg) /\
    (forall w a user_id conversation_id resolved w1,
        cosmos_db_ready env = true ->
        get_authenticated_user_details env (request_headers req) = Return a ->
        Py.item a "user_principal_id" = Return user_id ->
        Py.get (get_json req) "conversation_id" JNull = Return conversation_id ->
        cosmos_conversation_client env = true ->
        resolve_conversation env (get_json req) user_id conversation_id w =
          (Return resolved, w1) ->
        add_conversation env req w =
        (Return (error_500 "No user message found"),
         advance w1 [EvLog LvError "Exception in /history/generate"] 0)).
Proof.
  intros env req msgs Hm Hl. split.
  - intros w. split.
    + now apply (add_conversation_stores_nothing env req msgs).
    + intros r. now apply (add_conversation_fails env req msgs).
  - intros w a user_id conversation_id resolved w1 Hready Ha Hid Hcid Hclient Hres.
    unfold add_conversation, cosmos_db_ready_wait. rewrite Hready.
    rewrite bind_ret.
    rewrite (bind_lift_return _ _ _ _ Ha), (bind_lift_return _ _ _ _ Hid).
    cbv zeta. rewrite (bind_lift_return _ _ _ _ Hcid).
    rewrite Hclient. cbn [negb].
    erewrite try_except_raise; cycle 1.
    + rewrite bind_ret.
      rewrite (bind_return _ _ _ _ _ Hres).
      now rewrite (bind_raise _ _ _ _ _
                     (append_user_message_raises env _ _ _ msgs w1 Hm Hl)).
    + apply history_failed_run.
Qed.

Lemma C10_witness :
  add_conversation Demo.env_ok Demo.empty_messages initial_world =
  (Return (error_500 "No user message found"),
   mk_world [EvLog LvInfo ("System message being used: " ++ SYSTEM_MESSAGE);
             EvCompletion (JStr "gpt-4o") (JList [title_instruction]) "1" 64;
             EvCreateConversation (JStr "alice") (JStr "Password help");
             EvLog LvError "Exception in /history/generate"] 0 0).
Proof.
  rewrite (proj2 (C10_no_user_message_is_an_error
                    Demo.env_ok Demo.empty_messages [] eq_refl eq_refl)
                 initial_world Demo.alice (JStr "alice") JNull
                 (JStr "conv-1",
                  [("title", JStr "Password help"); ("date", JStr "2024-06-01T00:00:00Z")])
                 (mk_world
                    [EvLog LvInfo ("System message being used: " ++ SYSTEM_MESSAGE);
                     EvCompletion (JStr "gpt-4o") (JList [title_instruction]) "1" 64;
                     EvCreateConversation (JStr "alice") (JStr "Password help")] 0 0)
                 eq_refl eq_refl eq_refl eq_refl eq_refl eq_refl).
  reflexivity.
Defined.

(** The claim as written fails when a step before the check fails:
    the error of that step is surfaced, not "No user message found".
    With an empty message list, a store that is not configured is
    reported as such; and with no conversation id and a completion
    service that is down, the title of the new conversation is asked
    for first and its fallback raises on the empty history. *)
Lemma C10_counterexample :
  Py.item (get_json Demo.empty_messages) "messages" = Return (JList []) /\
  no_final_user_message [] = true /\
  add_conversation Demo4.env_unconfigured Demo.empty_messages initial_world =
  (Return (error_500 "CosmosDB is not configured or not working"),
   mk_world [EvLog LvError "Exception in /history/generate"] 0 0) /\
  add_conversation Demo.env_no_completion Demo.empty_messages initial_world =
  (Return (error_500 "list index out of range"),
   mk_world [EvLog LvInfo ("System message being used: " ++ SYSTEM_MESSAGE);
             EvCompletion (JStr "gpt-4o") (JList [title_instruction]) "1" 64;
             title_failure_log;
             EvLog LvError "Exception in /history/generate"] 0 0).
Proof. repeat split; reflexivity. Qed.

(** * Further properties *)

(** ** The weather adapter *)

Lemma get_weather_failure_status env repr_container location w status body :
  session_get env weather_url (weather_params env location) = Return (status, body) ->
  Z.eqb status 200 = false ->
  get_weather env repr_container location w =
  (Return ("Unable to fetch weather data for " ++ location
           ++ ". Please check the location name and try again."),
   advance w [EvHttpGet weather_url (weather_params env location)] 0).
Proof.
  intros Hget Hstatus.
  unfold get_weather. cbv zeta. fold weather_url. fold (weather_params env location).
  rewrite (bind_return _ _ _ _ _ (emit_run _ _)).
  rewrite (bind_lift_return _ _ _ _ Hget). cbn [fst]. now rewrite Hstatus.
Qed.

Section WeatherBranch.

Variable env : environment.
Variable repr_container : json -> string.

(** The weather branch of the first definition of [conversation_internal]. *)
Lemma line85_weather_branch request_body hdrs c w :
  body_last_content request_body = Some c ->
  PyStr.contains "weather in" (PyStr.lower c) = true ->
  conversation_internal_line85 env repr_container request_body hdrs w =
  try_except
    (weather_info <- get_weather env repr_container (weather_location c) ;;
     u <- uuid_str env ;;
     ret (Json (assistant_message u weather_info) 200))
    internal_error w.
Proof.
  unfold body_last_content, conversation_internal_line85. intros Hc Hw.
  destruct (Py.get request_body "messages" (JList [])) as [msgs| |] eqn:Em; try discriminate.
  destruct (Py.truthy msgs) eqn:Et; try discriminate.
  destruct (Py.index msgs (-1)) as [last| |] eqn:El; try discriminate.
  destruct (Py.item last "content") as [[| | | |c'| |]| |] eqn:Ei; try discriminate.
  injection Hc as ->.
  assert ((m <- lift (Py.index msgs (-1)) ;;
           c0 <- lift (Py.item m "content") ;;
           lift (Py.lower c0)) w = (Return (PyStr.lower c), w)) as Hlast.
  { rewrite (bind_lift_return _ _ _ _ El). now rewrite (bind_lift_return _ _ _ _ Ei). }
  unfold try_except. rewrite (bind_lift_return _ _ _ _ eq_refl), Et.
  rewrite (bind_return _ _ _ _ _ Hlast), Hw. reflexivity.
Qed.

End WeatherBranch.

(** X1. In the first definition of [conversation_internal], a weather
    service that raises is not answered with an assistant message: the
    exception is logged and reduced to the body [{error: <message>}],
    with the status code of the exception or 500, after the single
    request for the location read off the last message. *)
Theorem X1_line85_weather_exception_is_an_error_body :
  forall env repr_container request_body hdrs c w e,
    body_last_content request_body = Some c ->
    PyStr.contains "weather in" (PyStr.lower c) = true ->
    session_get env weather_url (weather_params env (weather_location c)) = Raise e ->
    conversation_internal_line85 env repr_container request_body hdrs w =
    (Return (Json (error_body (exn_str e)) (status_of e)),
     advance w [EvHttpGet weather_url (weather_params env (weather_location c));
                EvLog LvError (exn_str e)] 0).
Proof.
  intros env rc request_body hdrs c w e Hc Hw Hget.
  rewrite (line85_weather_branch env rc request_body hdrs c w Hc Hw).
  assert (get_weather env rc (weather_location c) w =
          (Raise e, advance w [EvHttpGet weather_url
                                 (weather_params env (weather_location c))] 0)) as Hraise.
  { unfold get_weather. cbv zeta. fold weather_url.
    fold (weather_params env (weather_location c)).
    rewrite (bind_return _ _ _ _ _ (emit_run _ _)).
    now rewrite (bind_lift_raise _ _ _ _ Hget). }
  rewrite (try_except_raise _ _ _ _ _ (bind_raise _ _ _ _ _ Hraise)).
  rewrite internal_error_run, advance_advance. reflexivity.
Qed.

Lemma X1_witness :
  conversation_internal_line85 Demo2.env_weather_down (fun _ => "")
    (get_json Demo.weather_in_seattle) [] initial_world =
  (Return (Json (error_body "service unavailable") 503),
   mk_world [EvHttpGet weather_url
               [("q", "seattle"); ("appid", "your_api_key_here"); ("units", "metric")];
             EvLog LvError "service unavailable"] 0 0).
Proof.
  rewrite (X1_line85_weather_exception_is_an_error_body
             Demo2.env_weather_down (fun _ => "") (get_json Demo.weather_in_seattle) []
             "what's the weather in Seattle" initial_world Demo.service_down
             eq_refl eq_refl eq_refl).
  reflexivity.
Defined.

(** X2. In the first definition of [conversation_internal], a status
    other than 200 of the weather service gives a single assistant
    message, with a fresh id and status 200, whose content is the
    "unable to fetch" text for the location read off the last message. *)
Theorem X2_line85_weather_failure_status_is_an_assistant_message :
  forall env repr_container request_body hdrs c w status body,
    body_last_content request_body = Some c ->
    PyStr.contains "weather in" (PyStr.lower c) = true ->
    session_get env weather_url (weather_params env (weather_location c))
      = Return (status, body) ->
    Z.eqb status 200 = false ->
    conversation_internal_line85 env repr_container request_body hdrs w =
    (Return (assistant_answer (uuid4 env (uuids_drawn w))
               ("Unable to fetch weather data for " ++ weather_location c
                ++ ". Please check the location name and try again.")),
     next_uuid (advance w [EvHttpGet weather_url
                             (weather_params env (weather_location c))] 0)).
Proof.
  intros env rc request_body hdrs c w status body Hc Hw Hget Hstatus.
  rewrite (line85_weather_branch env rc request_body hdrs c w Hc Hw).
  apply try_except_return.
  rewrite (bind_return _ _ _ _ _
             (get_weather_failure_status env rc (weather_location c) w status body Hget Hstatus)).
  reflexivity.
Qed.

Lemma X2_witness :
  conversation_internal_line85 Demo2.env_not_found (fun _ => "")
    (get_json Demo.weather_in_seattle) [] initial_world =
  (Return (assistant_answer "7d444840-9dc0-11d1-b245-5ffdce74fad0"
             "Unable to fetch weather data for seattle. Please check the location name and try again."),
   mk_world [EvHttpGet weather_url
               [("q", "seattle"); ("appid", "your_api_key_here"); ("units", "metric")]] 1 0).
Proof.
  rewrite (X2_line85_weather_failure_status_is_an_assistant_message
             Demo2.env_not_found (fun _ => "") (get_json Demo.weather_in_seattle) []
             "what's the weather in Seattle" initial_world 404%Z (Raise Demo.service_down)
             eq_refl eq_refl eq_refl eq_refl).
  reflexivity.
Defined.

(** X3. The first definition of [conversation_internal] accepts a body
    without messages: when the key is missing or the list is empty it
    reads the empty string as the last message and answers as the
    general chat flow does, where [conversation] (line 367) raises. *)
Theorem X3_line85_accepts_a_body_without_messages :
  forall env repr_container request_body hdrs w,
    without_messages request_body = true ->
    conversation_internal_line85 env repr_container request_body hdrs w =
    conversation_internal env request_body hdrs w.
Proof.
  intros env rc request_body hdrs w H. unfold without_messages in H.
  destruct request_body as [| | | | | |d]; try discriminate.
  unfold conversation_internal_line85, conversation_internal, try_except.
  cbn [Py.get].
  destruct (Py.lookup "messages" d) as [[| | | | |[|x l]|]|]; try discriminate;
    rewrite (bind_lift_return _ _ _ _ eq_refl); cbn [Py.truthy];
    rewrite bind_ret; reflexivity.
Qed.

Lemma X3_witness :
  conversation_internal_line85 Demo.env_ok (fun _ => "") (get_json Demo.no_messages) []
    initial_world =
  conversation_internal Demo.env_ok (get_json Demo.no_messages) [] initial_world /\
  fst (conversation Demo.env_ok Demo.no_messages initial_world) =
  Raise (Py.key_error "messages").
Proof.
  split; [| reflexivity].
  exact (X3_line85_accepts_a_body_without_messages
           Demo.env_ok (fun _ => "") (get_json Demo.no_messages) [] initial_world eq_refl).
Defined.

(** ** Reading a run backwards *)

Section Inversion.

Context {A B : Type}.

Lemma bind_raise_now (e : exn) (k : A -> M B) w : bind (raise e) k w = (Raise e, w).
Proof. reflexivity. Qed.

Lemma bind_inv_return (m : M A) (k : A -> M B) w b w' :
  bind m k w = (Return b, w') ->
  exists a w1, m w = (Return a, w1) /\ k a w1 = (Return b, w').
Proof.
  unfold bind. destruct (m w) as [[a|e|] w1]; try discriminate. eauto.
Qed.

Lemma bind_inv_raise (m : M A) (k : A -> M B) w e w' :
  bind m k w = (Raise e, w') ->
  m w = (Raise e, w') \/ exists a w1, m w = (Return a, w1) /\ k a w1 = (Raise e, w').
Proof.
  unfold bind. destruct (m w) as [[a|e0|] w1]; try discriminate; intros H.
  - right. exists a, w1. auto.
  - injection H as -> ->. now left.
Qed.

Lemma try_except_inv_return (m : M A) h w a w' :
  try_except m h w = (Return a, w') ->
  m w = (Return a, w') \/ exists e w1, m w = (Raise e, w1) /\ h e w1 = (Return a, w').
Proof.
  unfold try_except. destruct (m w) as [[a0|e|] w1]; try discriminate; intros H.
  - left. exact H.
  - right. exists e, w1. auto.
Qed.

Lemma try_except_inv_raise (m : M A) h w e w' :
  try_except m h w = (Raise e, w') ->
  exists e0 w1, m w = (Raise e0, w1) /\ h e0 w1 = (Raise e, w').
Proof.
  unfold try_except. destruct (m w) as [[a0|e0|] w1]; try discriminate; intros H.
  exists e0, w1. auto.
Qed.

Lemma ret_inv (a b : A) w w' : ret a w = (Return b, w') -> a = b /\ w' = w.
Proof. unfold ret. intros H. injection H as -> ->. auto. Qed.

Lemma lift_inv (o : outcome A) a w w' : lift o w = (Return a, w') -> o = Return a /\ w' = w.
Proof. unfold lift. intros H. injection H as -> ->. auto. Qed.

End Inversion.

Lemma logging_inv lvl msg u w w' :
  logging lvl msg w = (Return u, w') -> w' = advance w [EvLog lvl msg] 0.
Proof. rewrite logging_run. intros H. now injection H as _ <-. Qed.

Lemma emit_inv ev u w w' :
  emit ev w = (Return u, w') -> w' = advance w [ev] 0.
Proof. rewrite emit_run. intros H. now injection H as _ <-. Qed.

(** Take a run that returned apart into the runs of its steps. *)
Ltac invert_runs :=
  repeat match goal with
    | H : bind _ _ _ = (Return _, _) |- _ =>
        apply bind_inv_return in H; destruct H as (? & ? & ? & ?)
    | H : ret _ _ = (Return _, _) |- _ =>
        apply ret_inv in H; destruct H as [? ?]; subst
    | H : raise _ _ = (Return _, _) |- _ => discriminate H
    | H : lift _ _ = (Return _, _) |- _ =>
        apply lift_inv in H; destruct H as [? ?]; subst
    | H : logging _ _ _ = (Return _, _) |- _ => apply logging_inv in H; subst
    | H : emit _ _ = (Return _, _) |- _ => apply emit_inv in H; subst
    | H : (if ?b then _ else _) _ = (Return _, _) |- _ => destruct b eqn:?
    end.

(** ** The completion client *)

Section CompletionClient.

Variable env : environment.

Lemma endpoint_of_spec s :
  (if negb (falsy (azure_openai_endpoint s))
   then fmt (azure_openai_endpoint s)
   else "https://" ++ fmt (azure_openai_resource s) ++ ".openai.azure.com/") = endpoint_of s.
Proof.
  unfold endpoint_of, falsy, fmt.
  destruct (azure_openai_endpoint s) as [e|]; [|reflexivity].
  now destruct (String.eqb e "").
Qed.

End CompletionClient.

(** X4. [init_openai_client] returns a client only for settings that
    pass its three checks (an API version not below the minimum, an
    endpoint or a resource, a model), and the client is built from
    them: the endpoint when it is set, else the one derived from the
    resource; the key as it is, with a token provider exactly when
    there is no key. *)
Theorem X4_init_openai_client_returns_a_checked_client :
  forall env w client w',
  init_openai_client env w = (Return client, w') ->
  String.ltb (azure_openai_preview_api_version (app_settings env))
             (MINIMUM_SUPPORTED_AZURE_OPENAI_PREVIEW_API_VERSION env) = false /\
  falsy (azure_openai_endpoint (app_settings env))
    && falsy (azure_openai_resource (app_settings env)) = false /\
  falsy (azure_openai_model (app_settings env)) = false /\
  client = mk_client (azure_openai_preview_api_version (app_settings env))
                     (azure_openai_key (app_settings env))
                     (falsy (azure_openai_key (app_settings env)))
                     (endpoint_of (app_settings env)) /\
  async_azure_openai env client = Return tt.
Proof.
  intros env w client w'.
  unfold init_openai_client. cbv zeta. rewrite endpoint_of_spec. intros H.
  apply try_except_inv_return in H as [H | (e & w1 & _ & H)].
  - invert_runs.
    all: match goal with
         | H : async_azure_openai _ _ = Return ?u |- _ => destruct u
         end; auto.
  - apply bind_inv_return in H as (? & ? & _ & H). discriminate H.
Qed.

Lemma X4_witness :
  client_azure_endpoint
    (mk_client "2024-05-01-preview" (Some "key") false "https://example.openai.azure.com/") =
  endpoint_of Demo.demo_settings.
Proof.
  exact (f_equal client_azure_endpoint
           (proj1 (proj2 (proj2 (proj2
              (X4_init_openai_client_returns_a_checked_client
                 Demo.env_ok initial_world
                 (mk_client "2024-05-01-preview" (Some "key") false
                            "https://example.openai.azure.com/")
                 (mk_world [EvLog LvInfo ("System message being used: " ++ SYSTEM_MESSAGE)] 0 0)
                 eq_refl)))))).
Defined.

(** One step of a proof that a computation only extends the trace. *)
Ltac extends_step :=
  cbv beta zeta;
  lazymatch goal with
  | |- emits_only _ (bind _ _) => apply emits_bind; [| intros ?]
  | |- emits_only _ (ret _) => apply emits_ret
  | |- emits_only _ (raise _) => apply emits_raise
  | |- emits_only _ (lift _) => apply emits_lift
  | |- emits_only _ (uuid_str _) => apply emits_uuid_str
  | |- emits_only _ (choices _ _ _) => apply emits_choices
  | |- emits_only _ (logging _ _) => apply emits_logging; exact I
  | |- emits_only _ (logging_with_argument _ _) =>
      apply emits_logging_with_argument; exact I
  | |- emits_only _ (emit _) => apply emits_emit; exact I
  | |- emits_only _ (try_except _ _) => apply emits_try_except; [| intros ?]
  | |- emits_only _ (try_binding _ _ _) =>
      apply emits_try_binding; [| intros ? | intros ? ?]
  | |- emits_only _ (if ?b then _ else _) => destruct b
  | |- emits_only _ (match ?x with _ => _ end) => destruct x
  | H : context [emits_only] |- emits_only _ _ => apply H
  end.

(** A [try] whose handler makes one call and raises again: when it
    raises, the event of that call is the last one, after those of
    the body. *)
Lemma logged_reraise {A} (P : event -> Prop) (m : M A) ev w e w' :
  emits_only P m ->
  try_except m (fun e0 => emit ev ;; raise e0) w = (Raise e, w') ->
  exists evs, trace w' = (trace w ++ evs ++ [ev])%list /\ Forall P evs.
Proof.
  intros Hm H. apply try_except_inv_raise in H as (e0 & w1 & Hbody & Hh).
  rewrite (bind_return _ _ _ _ _ (emit_run _ _)) in Hh. unfold raise in Hh.
  injection Hh as _ <-.
  specialize (Hm w). rewrite Hbody in Hm. destruct Hm as [evs [Hevs HP]].
  exists evs. split; [| exact HP].
  unfold advance. cbn [trace snd] in *. now rewrite Hevs, app_assoc.
Qed.

(** X5. A failure of [init_openai_client] leaves the function, but not
    a trace in the log: when it raises, the last thing it did is the
    logging call of its [except] clause, whose record cannot be
    formatted, and none of the events before it is an entry at the
    level of an error. *)
Theorem X5_init_openai_client_failure_is_not_logged :
  forall env w e w',
    init_openai_client env w = (Raise e, w') ->
    exists evs,
      trace w' = (trace w ++ evs ++ [init_failure_log])%list /\
      List.existsb is_error_entry (evs ++ [init_failure_log]) = false.
Proof.
  intros env w e w' H.
  assert (exists evs, trace w' = (trace w ++ evs ++ [init_failure_log])%list /\
                      Forall (fun ev => is_error_entry ev = false) evs)
    as (evs & Htrace & Hevs).
  { revert H. unfold init_openai_client, logging_with_argument. cbv zeta.
    apply logged_reraise. repeat emits_step. }
  exists evs. split; [exact Htrace |].
  rewrite existsb_app. cbn [List.existsb init_failure_log is_error_entry orb].
  rewrite orb_false_r.
  clear Htrace. induction Hevs as [|ev evs Hev _ IH]; [reflexivity |].
  cbn [List.existsb]. now rewrite Hev.
Qed.

Lemma X5_witness :
  exists evs,
    trace (snd (init_openai_client Demo3.env_old_version initial_world)) =
    ([] ++ evs ++ [init_failure_log])%list /\
    List.existsb is_error_entry (evs ++ [init_failure_log]) = false.
Proof.
  exact (X5_init_openai_client_failure_is_not_logged
           Demo3.env_old_version initial_world
           (value_error "The minimum supported Azure OpenAI preview API version is '2024-02-15-preview'")
           (mk_world [init_failure_log] 0 0) eq_refl).
Defined.

Section OldVersion.

Variable env : environment.

Hypothesis old_version :
  String.ltb (azure_openai_preview_api_version (app_settings env))
             (MINIMUM_SUPPORTED_AZURE_OPENAI_PREVIEW_API_VERSION env) = true.

(** With an API version below the minimum no client is built. *)
Lemma init_openai_client_old_version w :
  init_openai_client env w =
  (Raise (value_error ("The minimum supported Azure OpenAI preview API version is '"
                       ++ MINIMUM_SUPPORTED_AZURE_OPENAI_PREVIEW_API_VERSION env ++ "'")),
   advance w [init_failure_log] 0).
Proof.
  unfold init_openai_client. cbv zeta. rewrite old_version.
  erewrite try_except_raise; [| apply bind_raise_now].
  now rewrite (bind_return _ _ _ _ _ (logging_with_argument_run _ _ _)).
Qed.

Lemma request_title_old_version messages w :
  request_title env messages w =
  (Raise (value_error ("The minimum supported Azure OpenAI preview API version is '"
                       ++ MINIMUM_SUPPORTED_AZURE_OPENAI_PREVIEW_API_VERSION env ++ "'")),
   advance w [init_failure_log] 0).
Proof.
  unfold request_title. apply bind_raise. apply init_openai_client_old_version.
Qed.

End OldVersion.

(** [l[-2]] is the element before the last. *)
Lemma index_second_to_last front m2 m1 :
  Py.index (JList (front ++ [m2; m1])) (-2) = Return m2.
Proof.
  unfold Py.index, Py.seq_index. cbn [Z.ltb Z.compare].
  rewrite length_app. cbn [List.length].
  replace ((0 <=? -2 + Z.of_nat (List.length front + 2))%Z
           && (-2 + Z.of_nat (List.length front + 2)
               <? Z.of_nat (List.length front + 2))%Z) with true
    by (symmetry; apply andb_true_iff; split; [apply Z.leb_le | apply Z.ltb_lt]; lia).
  replace (Z.to_nat (-2 + Z.of_nat (List.length front + 2))) with (List.length front + 0)
    by lia.
  now rewrite nth_error_app2, Nat.add_comm, Nat.add_sub by lia.
Qed.

(** X6. With a preview API version below the supported minimum, the
    title of a history of two or more well-formed messages is always
    the content of its second-to-last message, and the completion
    service is never asked: the only events are the logging calls of
    the two [except] clauses, and neither writes an entry, its record
    cannot be formatted. *)
Theorem X6_old_api_version_gives_the_fallback_title :
  forall env front m2 m1 copied c w,
    String.ltb (azure_openai_preview_api_version (app_settings env))
               (MINIMUM_SUPPORTED_AZURE_OPENAI_PREVIEW_API_VERSION env) = true ->
    role_and_content (front ++ [m2; m1]) = Return copied ->
    Py.item m2 "content" = Return c ->
    generate_title env (JList (front ++ [m2; m1])) w =
    (Return c,
     advance w [init_failure_log; title_failure_log] 0).
Proof.
  intros env front m2 m1 copied c w Hold Hcopy Hc.
  rewrite (generate_title_fallback env (front ++ [m2; m1]) copied w _ _ m2 c Hcopy
             (request_title_old_version env Hold _ w)).
  - now rewrite advance_advance.
  - apply index_second_to_last.
  - exact Hc.
Qed.

Lemma X6_witness :
  generate_title Demo3.env_old_version
    (JList [Demo.user_says "Username: alice"; Demo.user_says "reset my password"])
    initial_world =
  (Return (JStr "Username: alice"),
   mk_world [init_failure_log; title_failure_log] 0 0).
Proof.
  exact (X6_old_api_version_gives_the_fallback_title
           Demo3.env_old_version [] (Demo.user_says "Username: alice")
           (Demo.user_says "reset my password")
           [JDict [("role", JStr "user"); ("content", JStr "Username: alice")];
            JDict [("role", JStr "user"); ("content", JStr "reset my password")]]
           (JStr "Username: alice") initial_world eq_refl eq_refl eq_refl).
Defined.

(** X7. When the request for a title raises (the client cannot be
    built, the completion service fails, or it returns no choice), the
    title of a history of two or more well-formed messages is the
    content of its second-to-last message.  The failure leaves no
    entry in the log: the only event after those of the request is
    the logging call whose record cannot be formatted. *)
Theorem X7_title_falls_back_to_the_second_to_last_message :
  forall env front m2 m1 copied c w e w1,
    role_and_content (front ++ [m2; m1]) = Return copied ->
    Py.item m2 "content" = Return c ->
    request_title env (copied ++ [title_instruction]) w = (Raise e, w1) ->
    generate_title env (JList (front ++ [m2; m1])) w =
    (Return c, advance w1 [title_failure_log] 0).
Proof.
  intros env front m2 m1 copied c w e w1 Hcopy Hc Hreq.
  apply (generate_title_fallback env (front ++ [m2; m1]) copied w e w1 m2 c Hcopy Hreq).
  - apply index_second_to_last.
  - exact Hc.
Qed.

Lemma X7_witness :
  fst (generate_title Demo.env_no_completion
         (JList [Demo.user_says "hi"; Demo.user_says "there"]) initial_world) =
  Return (JStr "hi").
Proof.
  exact (f_equal fst (X7_title_falls_back_to_the_second_to_last_message
             Demo.env_no_completion [] (Demo.user_says "hi") (Demo.user_says "there")
             [JDict [("role", JStr "user"); ("content", JStr "hi")];
              JDict [("role", JStr "user"); ("content", JStr "there")]]
             (JStr "hi") initial_world Demo.service_down
             (mk_world
                [EvLog LvInfo ("System message being used: " ++ SYSTEM_MESSAGE);
                 EvCompletion (JStr "gpt-4o")
                   (JList [JDict [("role", JStr "user"); ("content", JStr "hi")];
                           JDict [("role", JStr "user"); ("content", JStr "there")];
                           title_instruction]) "1" 64] 0 0)
             eq_refl eq_refl eq_refl)).
Defined.

(** ** More on the handler of [/history/generate] *)

Section AddConversation.

Variable env : environment.
Variable req : request.
Variables a user_id conversation_id : json.

Hypothesis ready : cosmos_db_ready env = true.
Hypothesis authenticated :
  get_authenticated_user_details env (request_headers req) = Return a.
Hypothesis principal : Py.item a "user_principal_id" = Return user_id.
Hypothesis named : Py.get (get_json req) "conversation_id" JNull = Return conversation_id.

(** Past its first lines the handler is its [try] block under its
    [except] clause. *)
Lemma add_conversation_entered w :
  add_conversation env req w =
  try_except (add_conversation_try env req user_id conversation_id)
             history_generate_failed w.
Proof.
  unfold add_conversation, cosmos_db_ready_wait. rewrite ready, bind_ret.
  rewrite (bind_lift_return _ _ _ _ authenticated), (bind_lift_return _ _ _ _ principal).
  cbv zeta. now rewrite (bind_lift_return _ _ _ _ named).
Qed.

Lemma last_is_user_true l :
  final_user_message l = true -> last_is_user (JList l) = Return true.
Proof.
  unfold final_user_message, last_is_user. cbn [Py.len obind].
  destruct l as [|x l]; [discriminate|]. intros H.
  change (Nat.ltb 0 (List.length (x :: l))) with true. cbv iota.
  rewrite index_last by discriminate. cbn [obind].
  destruct (Py.item (List.last (x :: l) JNull) "role") as [r| |]; try discriminate.
  cbn [obind]. now rewrite H.
Qed.

(** The final user message is stored once, under a fresh id. *)
Lemma append_user_message_stores l cid w v :
  Py.item (get_json req) "messages" = Return (JList l) ->
  final_user_message l = true ->
  create_message env (uuid4 env (uuids_drawn w)) cid user_id (List.last l JNull) = Return v ->
  append_user_message env (get_json req) user_id cid w =
  (if Py.eq_str v "Conversation not found"
   then
     msg <- lift (Py.str_add "Conversation not found for the given conversation ID: " cid) ;;
     raise (exception (msg ++ "."))
   else ret tt)
    (advance (next_uuid w)
       [EvCreateMessage (uuid4 env (uuids_drawn w)) cid user_id (List.last l JNull)] 0).
Proof.
  intros Hm Hl Hv. unfold append_user_message.
  rewrite (bind_lift_return _ _ _ _ Hm).
  rewrite (bind_lift_return _ _ _ _ (last_is_user_true l Hl)).
  rewrite (bind_return _ _ _ _ _ (eq_refl : uuid_str env w = (Return _, next_uuid w))).
  assert (l <> []) as Hne by (intros ->; discriminate).
  rewrite (bind_lift_return _ _ _ _ (index_last l Hne)).
  rewrite (bind_return _ _ _ _ _ (emit_run _ _)).
  now rewrite (bind_lift_return _ _ _ _ Hv).
Qed.

End AddConversation.

Lemma try_except_unraised {A} (m : M A) h w :
  (forall e, fst (m w) <> Raise e) -> try_except m h w = m w.
Proof.
  intros H. unfold try_except. destruct (m w) as [[x|e|] w'] eqn:E; trivial.
  exfalso. now apply (H e).
Qed.

(** X8. [add_conversation] with the id of a conversation and a final
    user message stores that message exactly once, for the
    authenticated principal and under a fresh id, and only then runs
    the chat, on the request body extended with the history metadata
    [{conversation_id: id}]. *)
Theorem X8_user_message_is_stored_before_the_chat :
  forall env req a user_id cid d l v w,
    cosmos_db_ready env = true ->
    get_authenticated_user_details env (request_headers req) = Return a ->
    Py.item a "user_principal_id" = Return user_id ->
    cosmos_conversation_client env = true ->
    get_json req = JDict d ->
    Py.lookup "conversation_id" d = Some cid ->
    Py.truthy cid = true ->
    Py.lookup "messages" d = Some (JList l) ->
    final_user_message l = true ->
    create_message env (uuid4 env (uuids_drawn w)) cid user_id (List.last l JNull) = Return v ->
    Py.eq_str v "Conversation not found" = false ->
    add_conversation env req w =
    conversation_internal env
      (JDict (dict_set d "history_metadata" (JDict [("conversation_id", cid)])))
      (request_headers req)
      (advance (next_uuid w)
         [EvCreateMessage (uuid4 env (uuids_drawn w)) cid user_id (List.last l JNull)] 0).
Proof.
  intros env req a user_id cid d l v w Hready Ha Hid Hclient Hbody Hcid Htruthy Hm Hl Hv Hnf.
  assert (Py.get (get_json req) "conversation_id" JNull = Return cid) as Hget
      by (rewrite Hbody; cbn [Py.get]; now rewrite Hcid).
  assert (Py.item (get_json req) "messages" = Return (JList l)) as Hitem
      by (rewrite Hbody; cbn [Py.item]; now rewrite Hm).
  rewrite (add_conversation_entered env req a user_id cid Hready Ha Hid Hget w).
  assert (add_conversation_try env req user_id cid w =
          conversation_internal env
            (JDict (dict_set d "history_metadata" (JDict [("conversation_id", cid)])))
            (request_headers req)
            (advance (next_uuid w)
               [EvCreateMessage (uuid4 env (uuids_drawn w)) cid user_id
                                (List.last l JNull)] 0)) as Htry.
  { pose proof (append_user_message_stores env req user_id l cid w v Hitem Hl Hv) as Happ.
    rewrite Hnf in Happ. unfold ret in Happ.
    unfold add_conversation_try, resolve_conversation.
    rewrite Hclient, Htruthy. cbn [negb]. rewrite !bind_ret. cbn [fst snd].
    rewrite (bind_return _ _ _ _ _ Happ).
    rewrite Hbody. cbn [set_item dict_set]. now rewrite (bind_lift_return _ _ _ _ eq_refl). }
  rewrite try_except_unraised; [exact Htry|].
  intros e. rewrite Htry. apply conversation_internal_never_raises.
Qed.

Lemma X8_witness :
  add_conversation Demo.env_ok Demo4.continue_conversation initial_world =
  (Return (Json (JDict [("id", JStr "chat-1"); ("choices", JList [])]) 200),
   mk_world
     [EvCreateMessage "7d444840-9dc0-11d1-b245-5ffdce74fad0" (JStr "conv-1") (JStr "alice")
        (Demo.user_says "hello");
      EvChatRequest false
        (JDict [("conversation_id", JStr "conv-1");
                ("messages", JList [Demo.user_says "hello"]);
                ("history_metadata", JDict [("conversation_id", JStr "conv-1")])]) []] 1 0).
Proof.
  rewrite (X8_user_message_is_stored_before_the_chat
             Demo.env_ok Demo4.continue_conversation Demo.alice (JStr "alice") (JStr "conv-1")
             Demo4.continue_body [Demo.user_says "hello"] (Demo.user_says "hello")
             initial_world eq_refl eq_refl eq_refl eq_refl eq_refl eq_refl eq_refl eq_refl
             eq_refl eq_refl eq_refl).
  reflexivity.
Defined.

(** X9. When the store answers "Conversation not found" to the message
    it was asked to create, [add_conversation] answers 500 with an
    error that names the conversation id, and the chat is not run: the
    only events are the call of the store and the error log. *)
Theorem X9_unknown_conversation_is_an_error :
  forall env req a user_id id d l v w,
    cosmos_db_ready env = true ->
    get_authenticated_user_details env (request_headers req) = Return a ->
    Py.item a "user_principal_id" = Return user_id ->
    cosmos_conversation_client env = true ->
    get_json req = JDict d ->
    Py.lookup "conversation_id" d = Some (JStr id) ->
    String.eqb id "" = false ->
    Py.lookup "messages" d = Some (JList l) ->
    final_user_message l = true ->
    create_message env (uuid4 env (uuids_drawn w)) (JStr id) user_id (List.last l JNull)
      = Return v ->
    Py.eq_str v "Conversation not found" = true ->
    add_conversation env req w =
    (Return (error_500 ("Conversation not found for the given conversation ID: " ++ id ++ ".")),
     advance (next_uuid w)
       [EvCreateMessage (uuid4 env (uuids_drawn w)) (JStr id) user_id (List.last l JNull);
        EvLog LvError "Exception in /history/generate"] 0).
Proof.
  intros env req a user_id id d l v w Hready Ha Hid Hclient Hbody Hcid Hne Hm Hl Hv Hnf.
  assert (Py.get (get_json req) "conversation_id" JNull = Return (JStr id)) as Hget
      by (rewrite Hbody; cbn [Py.get]; now rewrite Hcid).
  assert (Py.item (get_json req) "messages" = Return (JList l)) as Hitem
      by (rewrite Hbody; cbn [Py.item]; now rewrite Hm).
  rewrite (add_conversation_entered env req a user_id (JStr id) Hready Ha Hid Hget w).
  pose proof (append_user_message_stores env req user_id l (JStr id) w v Hitem Hl Hv) as Happ.
  rewrite Hnf in Happ. cbn [Py.str_add] in Happ.
  rewrite (bind_lift_return _ _ _ _ eq_refl) in Happ. unfold raise in Happ.
  erewrite try_except_raise; cycle 1.
  - unfold add_conversation_try, resolve_conversation.
    rewrite Hclient. cbn [negb Py.truthy]. rewrite Hne. cbn [negb].
    rewrite !bind_ret. cbn [fst snd].
    apply bind_raise. exact Happ.
  - unfold history_generate_failed.
    rewrite (bind_return _ _ _ _ _ (logging_run _ _ _)).
    now rewrite advance_advance.
Qed.

Lemma X9_witness :
  add_conversation Demo4.env_lost Demo4.continue_conversation initial_world =
  (Return (error_500 "Conversation not found for the given conversation ID: conv-1."),
   mk_world
     [EvCreateMessage "7d444840-9dc0-11d1-b245-5ffdce74fad0" (JStr "conv-1") (JStr "alice")
        (Demo.user_says "hello");
      EvLog LvError "Exception in /history/generate"] 1 0).
Proof.
  rewrite (X9_unknown_conversation_is_an_error
             Demo4.env_lost Demo4.continue_conversation Demo.alice (JStr "alice") "conv-1"
             Demo4.continue_body [Demo.user_says "hello"] (JStr "Conversation not found")
             initial_world eq_refl eq_refl eq_refl eq_refl eq_refl eq_refl eq_refl eq_refl
             eq_refl eq_refl eq_refl).
  reflexivity.
Defined.

(** X10. When the document store is not configured, [add_conversation]
    answers 500 with "CosmosDB is not configured or not working"
    before it reads the messages: no title is asked for, nothing is
    stored and the chat is not run. *)
Theorem X10_unconfigured_store_is_an_error :
  forall env req a user_id conversation_id w,
    cosmos_db_ready env = true ->
    get_authenticated_user_details env (request_headers req) = Return a ->
    Py.item a "user_principal_id" = Return user_id ->
    Py.get (get_json req) "conversation_id" JNull = Return conversation_id ->
    cosmos_conversation_client env = false ->
    add_conversation env req w =
    (Return (error_500 "CosmosDB is not configured or not working"),
     advance w [EvLog LvError "Exception in /history/generate"] 0).
Proof.
  intros env req a user_id conversation_id w Hready Ha Hid Hget Hclient.
  rewrite (add_conversation_entered env req a user_id conversation_id Hready Ha Hid Hget w).
  erewrite try_except_raise; cycle 1.
  - unfold add_conversation_try. rewrite Hclient. cbn [negb]. apply bind_raise_now.
  - unfold history_generate_failed.
    now rewrite (bind_return _ _ _ _ _ (logging_run _ _ _)).
Qed.

Lemma X10_witness :
  add_conversation Demo4.env_unconfigured Demo.empty_messages initial_world =
  (Return (error_500 "CosmosDB is not configured or not working"),
   mk_world [EvLog LvError "Exception in /history/generate"] 0 0).
Proof.
  exact (X10_unconfigured_store_is_an_error
           Demo4.env_unconfigured Demo.empty_messages Demo.alice (JStr "alice") JNull
           initial_world eq_refl eq_refl eq_refl eq_refl eq_refl).
Defined.

(** One step of a proof that the events of a computation satisfy a
    property, [tac] proving it for each event emitted. *)
Ltac emits_step_with tac :=
  cbv beta zeta;
  lazymatch goal with
  | |- emits_only _ (bind (lift _) _) => apply emits_bind_lift; intros ? ?
  | |- emits_only _ (bind _ _) => apply emits_bind; [| intros ?]
  | |- emits_only _ (ret _) => apply emits_ret
  | |- emits_only _ (raise _) => apply emits_raise
  | |- emits_only _ (lift _) => apply emits_lift
  | |- emits_only _ (uuid_str _) => apply emits_uuid_str
  | |- emits_only _ (choices _ _ _) => apply emits_choices
  | |- emits_only _ (logging _ _) => apply emits_logging; tac
  | |- emits_only _ (logging_with_argument _ _) => apply emits_logging_with_argument; tac
  | |- emits_only _ (emit _) => apply emits_emit; tac
  | |- emits_only _ (try_except _ _) => apply emits_try_except; [| intros ?]
  | |- emits_only _ (try_binding _ _ _) =>
      apply emits_try_binding; [| intros ? | intros ? ?]
  | |- emits_only _ (if ?b then _ else _) => destruct b
  | |- emits_only _ (match ?x with _ => _ end) => destruct x
  end.

(** X11. Every call of the document store that [add_conversation]
    makes, to create a conversation or to create a message, is made
    for the principal id of the authenticated user, whatever the
    request body says. *)
Theorem X11_store_calls_are_made_for_the_principal :
  forall env req a w,
    get_authenticated_user_details env (request_headers req) = Return a ->
    extends (fun ev => forall uid, stored_for ev = Some uid ->
                                   Py.item a "user_principal_id" = Return uid)
            w (snd (add_conversation env req w)).
Proof.
  intros env req a w Ha. revert w.
  change (emits_only (fun ev => forall uid, stored_for ev = Some uid ->
                                            Py.item a "user_principal_id" = Return uid)
            (add_conversation env req)).
  unfold add_conversation. apply emits_bind.
  { unfold cosmos_db_ready_wait. destruct (cosmos_db_ready env);
      [apply emits_ret | apply emits_lift]. }
  intros _. apply emits_bind_lift. intros a0 Ha0. rewrite Ha in Ha0. injection Ha0 as <-.
  apply emits_bind_lift. intros user_id Hid.
  unfold resolve_conversation, append_user_message, generate_title, request_title,
    init_openai_client, completions_create, conversation_internal, chat_flow, internal_error.
  repeat emits_step_with
    ltac:(intros uid Hs; cbn [stored_for] in Hs;
          first [discriminate Hs | injection Hs as <-; exact Hid]).
Qed.

Lemma X11_witness :
  extends (fun ev => forall uid, stored_for ev = Some uid ->
                                 Py.item Demo.alice "user_principal_id" = Return uid)
          initial_world
          (snd (add_conversation Demo.env_ok Demo4.continue_conversation initial_world)).
Proof.
  exact (X11_store_calls_are_made_for_the_principal
           Demo.env_ok Demo4.continue_conversation Demo.alice initial_world eq_refl).
Defined.

(** X12. A new conversation whose history holds a message without a
    role or a content is refused before any service is asked: the
    [KeyError] leaves [generate_title] outside its [try] block, and
    [add_conversation] answers 500 with the name of the missing key;
    no title is requested and nothing is created. *)
Theorem X12_malformed_history_is_refused_before_any_call :
  forall env req a user_id d l e w,
    cosmos_db_ready env = true ->
    get_authenticated_user_details env (request_headers req) = Return a ->
    Py.item a "user_principal_id" = Return user_id ->
    cosmos_conversation_client env = true ->
    get_json req = JDict d ->
    Py.lookup "conversation_id" d = None ->
    Py.lookup "messages" d = Some (JList l) ->
    role_and_content l = Raise e ->
    add_conversation env req w =
    (Return (error_500 (exn_str e)),
     advance w [EvLog LvError "Exception in /history/generate"] 0).
Proof.
  intros env req a user_id d l e w Hready Ha Hid Hclient Hbody Hcid Hm Hl.
  assert (Py.get (get_json req) "conversation_id" JNull = Return JNull) as Hget
      by (rewrite Hbody; cbn [Py.get]; now rewrite Hcid).
  assert (Py.item (get_json req) "messages" = Return (JList l)) as Hitem
      by (rewrite Hbody; cbn [Py.item]; now rewrite Hm).
  rewrite (add_conversation_entered env req a user_id JNull Hready Ha Hid Hget w).
  erewrite try_except_raise; cycle 1.
  - unfold add_conversation_try, resolve_conversation.
    rewrite Hclient. cbn [negb Py.truthy]. rewrite bind_ret.
    apply bind_raise. rewrite (bind_lift_return _ _ _ _ Hitem).
    apply bind_raise. unfold generate_title. cbn [Py.iter].
    rewrite (bind_lift_return _ _ _ _ eq_refl).
    apply (bind_lift_raise _ _ _ _ Hl).
  - unfold history_generate_failed.
    now rewrite (bind_return _ _ _ _ _ (logging_run _ _ _)).
Qed.

Lemma X12_witness :
  add_conversation Demo.env_ok Demo.reset_after_malformed initial_world =
  (Return (error_500 "'content'"),
   mk_world [EvLog LvError "Exception in /history/generate"] 0 0).
Proof.
  exact (X12_malformed_history_is_refused_before_any_call
           Demo.env_ok Demo.reset_after_malformed Demo.alice (JStr "alice")
           [("messages", JList [JDict [("role", JStr "user")];
                                Demo.user_says "reset my password"])]
           [JDict [("role", JStr "user")]; Demo.user_says "reset my password"]
           (Py.key_error "content") initial_world
           eq_refl eq_refl eq_refl eq_refl eq_refl eq_refl eq_refl eq_refl).
Defined.

(** ** More on the extraction of the username *)

Section SplitFacts.

Lemma split_scan_nonempty sep skip acc s : PyStr.split_scan sep skip acc s <> [].
Proof.
  revert skip acc. induction s as [|c s IH]; intros skip acc; simpl; [discriminate|].
  destruct skip; [|apply IH].
  destruct (PyStr.starts_with sep (String c s)); [discriminate | apply IH].
Qed.

(** A text that contains the separator splits in two pieces or more. *)
Lemma split_scan_two sep acc s :
  PyStr.starts_with sep "" = false ->
  PyStr.contains sep s = true ->
  2 <= List.length (PyStr.split_scan sep 0 acc s).
Proof.
  intros Hsep. revert acc. induction s as [|c s IH]; intros acc Hc.
  - simpl in Hc. rewrite Hsep in Hc. discriminate.
  - change (PyStr.contains sep (String c s))
      with (PyStr.starts_with sep (String c s) || PyStr.contains sep s) in Hc.
    cbn [PyStr.split_scan].
    destruct (PyStr.starts_with sep (String c s)).
    + pose proof (split_scan_nonempty sep (String.length sep - 1) "" s) as Hne.
      destruct (PyStr.split_scan sep (String.length sep - 1) "" s); [congruence|].
      simpl. lia.
    + apply IH. exact Hc.
Qed.

Lemma split_scan_skip sep p acc s :
  PyStr.split_scan sep (String.length p) acc (p ++ s) = PyStr.split_scan sep 0 acc s.
Proof.
  induction p as [|c p IH]; [reflexivity|]. simpl. exact IH.
Qed.

(** A text that starts with the separator: the first piece is empty. *)
Lemma split_at_start c sep s :
  PyStr.split (String c sep) (String c sep ++ s) = "" :: PyStr.split (String c sep) s.
Proof.
  unfold PyStr.split. cbn [String.append PyStr.split_scan].
  change (PyStr.starts_with (String c sep) (String c (sep ++ s)))
    with (PyStr.starts_with (String c sep) (String c sep ++ s)).
  rewrite starts_with_app. cbn [String.length Nat.sub PyStr.rev PyStr.rev_onto].
  rewrite Nat.sub_0_r. now rewrite split_scan_skip.
Qed.

Lemma rev_onto_app acc s t :
  PyStr.rev_onto acc (s ++ t) = PyStr.rev_onto (PyStr.rev_onto acc s) t.
Proof. revert acc. induction s as [|c s IH]; intros acc; simpl; auto. Qed.

Lemma rev_onto_rev_onto acc s t :
  PyStr.rev_onto t (PyStr.rev_onto acc s) = PyStr.rev_onto (s ++ t) acc.
Proof.
  revert acc t. induction s as [|c s IH]; intros acc t; simpl; [reflexivity|].
  now rewrite IH.
Qed.

Lemma rev_rev s : PyStr.rev (PyStr.rev s) = s.
Proof.
  unfold PyStr.rev. rewrite rev_onto_rev_onto. simpl.
  induction s as [|c s IH]; simpl; [reflexivity|]. now rewrite IH.
Qed.

(** A text without the separator is a single piece. *)
Lemma split_scan_none sep acc s :
  PyStr.contains sep s = false ->
  PyStr.split_scan sep 0 acc s = [PyStr.rev (PyStr.rev_onto acc s)].
Proof.
  revert acc. induction s as [|c s IH]; intros acc Hc; [reflexivity|].
  change (PyStr.contains sep (String c s))
    with (PyStr.starts_with sep (String c s) || PyStr.contains sep s) in Hc.
  apply orb_false_iff in Hc as [Hs Hc].
  cbn [PyStr.split_scan PyStr.rev_onto]. rewrite Hs. now apply IH.
Qed.

Lemma split_none sep s : PyStr.contains sep s = false -> PyStr.split sep s = [s].
Proof.
  intros H. unfold PyStr.split. rewrite (split_scan_none sep "" s H).
  fold (PyStr.rev s). now rewrite rev_rev.
Qed.

End SplitFacts.

Section MostRecentMarker.

Lemma extract_username_loop_skips l1 l2 :
  without_marker l1 = true ->
  extract_username_loop (l1 ++ l2) = extract_username_loop l2.
Proof.
  induction l1 as [|m l1 IH]; [reflexivity|]. unfold without_marker. cbn [List.forallb].
  intros H. apply andb_true_iff in H as [Hm Hl].
  cbn [app extract_username_loop].
  destruct (Py.item m "content") as [[| | | |c| |]| |]; try discriminate.
  cbn [obind Py.str_in]. apply negb_true_iff in Hm. rewrite Hm. now apply IH.
Qed.

Lemma extract_username_loop_found m c rest :
  Py.item m "content" = Return (JStr c) ->
  PyStr.contains "Username:" c = true ->
  extract_username_loop (m :: rest) =
  Return (Some (PyStr.strip (nth 1 (PyStr.split "Username:" c) ""))).
Proof.
  intros Hm Hc. cbn [extract_username_loop]. rewrite Hm. cbn [obind Py.str_in].
  rewrite Hc. cbn [Py.split obind].
  pose proof (split_scan_two "Username:" "" c eq_refl Hc) as Hlen.
  fold (PyStr.split "Username:" c) in Hlen.
  destruct (PyStr.split "Username:" c) as [|p0 [|p1 ps]]; simpl in Hlen; try lia.
  reflexivity.
Qed.

End MostRecentMarker.

Lemma extract_username_most_recent older m newer c :
  without_marker newer = true ->
  Py.item m "content" = Return (JStr c) ->
  PyStr.contains "Username:" c = true ->
  extract_username (JList (older ++ m :: newer)) =
  Return (Some (PyStr.strip (nth 1 (PyStr.split "Username:" c) ""))).
Proof.
  intros Hnewer Hm Hc. unfold extract_username. cbn [Py.reversed obind].
  rewrite rev_app_distr. cbn [List.rev]. rewrite <- app_assoc. cbn [app].
  rewrite extract_username_loop_skips by now rewrite without_marker_rev.
  now apply extract_username_loop_found.
Qed.

(** X13. [extract_username] reads the username off the most recent
    message that carries the marker: the messages after it carry none,
    and the messages before it are not inspected at all, whatever they
    are.  The username is the text between the first marker of that
    message and its next marker, if any, without the surrounding
    whitespace. *)
Theorem X13_username_comes_from_the_most_recent_marker :
  forall older m newer c,
    without_marker newer = true ->
    Py.item m "content" = Return (JStr c) ->
    PyStr.contains "Username:" c = true ->
    extract_username (JList (older ++ m :: newer)) =
    Return (Some (PyStr.strip (nth 1 (PyStr.split "Username:" c) ""))).
Proof.
  intros older m newer c. apply extract_username_most_recent.
Qed.

Lemma X13_witness :
  extract_username
    (JList [JInt 7; Demo.user_says "Username: bob"; Demo.user_says "Username: alice Username: eve";
            Demo.user_says "Please reset my password"]) =
  Return (Some "alice").
Proof.
  exact (X13_username_comes_from_the_most_recent_marker
           [JInt 7; Demo.user_says "Username: bob"]
           (Demo.user_says "Username: alice Username: eve")
           [Demo.user_says "Please reset my password"]
           "Username: alice Username: eve" eq_refl eq_refl eq_refl).
Defined.

Section RoundTrip.

Lemma whitespace_member w :
  List.existsb (String.eqb w) PyStr.whitespace = true -> In w PyStr.whitespace.
Proof.
  intros H. apply existsb_exists in H as (x & Hin & Heq).
  apply String.eqb_eq in Heq. now subst x.
Qed.

(** A whitespace character at the start is passed over. *)
Lemma lstrip_member w s : In w PyStr.whitespace -> PyStr.lstrip (w ++ s) = PyStr.lstrip s.
Proof.
  intros H. unfold PyStr.whitespace in H.
  repeat (destruct H as [<- | H]; [reflexivity |]). destruct H.
Qed.

Lemma append_assoc (a b c : string) : ((a ++ b) ++ c = a ++ (b ++ c))%string.
Proof. induction a as [|x a IH]; simpl; [reflexivity | now rewrite IH]. Qed.

Lemma join_cons w ws s : PyStr.join (w :: ws) ++ s = w ++ (PyStr.join ws ++ s).
Proof.
  unfold PyStr.join. destruct ws as [|w' ws]; cbn [String.concat].
  - induction w as [|x w IH]; simpl; [reflexivity | now rewrite IH].
  - apply append_assoc.
Qed.

Lemma lstrip_pad ws s :
  whitespace_characters ws = true -> PyStr.lstrip (PyStr.join ws ++ s) = PyStr.lstrip s.
Proof.
  unfold whitespace_characters.
  induction ws as [|w ws IH]; [reflexivity |]. cbn [List.forallb]. intros H.
  apply andb_true_iff in H as [Hw Hws]. rewrite join_cons.
  rewrite (lstrip_member _ _ (whitespace_member _ Hw)). now apply IH.
Qed.

Lemma strip_pad ws s :
  whitespace_characters ws = true -> PyStr.strip (PyStr.join ws ++ s) = PyStr.strip s.
Proof. intros H. unfold PyStr.strip. now rewrite lstrip_pad. Qed.

(** No whitespace character holds a byte of the marker, so no marker
    starts in the padding. *)
Lemma contains_member w s :
  In w PyStr.whitespace -> PyStr.contains "Username:" (w ++ s) = PyStr.contains "Username:" s.
Proof.
  intros H. unfold PyStr.whitespace in H.
  repeat (destruct H as [<- | H]; [reflexivity |]). destruct H.
Qed.

Lemma contains_pad ws s :
  whitespace_characters ws = true ->
  PyStr.contains "Username:" (PyStr.join ws ++ s) = PyStr.contains "Username:" s.
Proof.
  unfold whitespace_characters.
  induction ws as [|w ws IH]; [reflexivity |]. cbn [List.forallb]. intros H.
  apply andb_true_iff in H as [Hw Hws]. rewrite join_cons.
  rewrite (contains_member _ _ (whitespace_member _ Hw)). now apply IH.
Qed.

End RoundTrip.

(** X14. A username written after the marker comes back as it was
    written: for a message "Username:" followed by whitespace of any
    kind and a username that holds no marker and that [strip] leaves
    as it is, and newer messages without marker, [extract_username]
    returns that username. *)
Theorem X14_username_round_trip :
  forall older newer role ws u,
    without_marker newer = true ->
    whitespace_characters ws = true ->
    PyStr.strip u = u ->
    PyStr.contains "Username:" u = false ->
    extract_username
      (JList (older ++ JDict [("role", role);
                              ("content", JStr ("Username:" ++ PyStr.join ws ++ u))]
                    :: newer)) =
    Return (Some u).
Proof.
  intros older newer role ws u Hnewer Hpad Hstrip Hu.
  rewrite (extract_username_most_recent older
             (JDict [("role", role); ("content", JStr ("Username:" ++ PyStr.join ws ++ u))])
             newer ("Username:" ++ PyStr.join ws ++ u) Hnewer eq_refl
             (contains_app "Username:" "" (PyStr.join ws ++ u))).
  change ("Username:" ++ PyStr.join ws ++ u)
    with (String "U" "sername:" ++ (PyStr.join ws ++ u)).
  rewrite split_at_start.
  rewrite split_none by (rewrite contains_pad by exact Hpad; exact Hu).
  cbn [nth]. rewrite strip_pad by exact Hpad. now rewrite Hstrip.
Qed.

Lemma X14_witness :
  extract_username
    (JList [Demo.user_says "hello";
            Demo.user_says ("Username: " ++ PyStr.encode_point 0xA0
                            ++ PyStr.encode_point 0x2003 ++ "alice.smith");
            Demo.user_says "reset my password"]) =
  Return (Some "alice.smith").
Proof.
  exact (X14_username_round_trip
           [Demo.user_says "hello"] [Demo.user_says "reset my password"] (JStr "user")
           [" "; PyStr.encode_point 0xA0; PyStr.encode_point 0x2003] "alice.smith"
           eq_refl eq_refl eq_refl eq_refl).
Defined.

(** ** No username *)

Section NoUsername.

Lemma append_empty_r (s : string) : (s ++ "")%string = s.
Proof. induction s as [|c s IH]; simpl; [reflexivity | now rewrite IH]. Qed.

(** Whitespace alone is stripped to the empty string. *)
Lemma strip_whitespace ws : whitespace_characters ws = true -> PyStr.strip (PyStr.join ws) = "".
Proof.
  intros H. rewrite <- (append_empty_r (PyStr.join ws)). now rewrite strip_pad.
Qed.

(** A marker with nothing but whitespace after it resolves to the
    empty string. *)
Lemma extract_username_blank older m newer ws :
  without_marker newer = true ->
  Py.item m "content" = Return (JStr ("Username:" ++ PyStr.join ws)) ->
  whitespace_characters ws = true ->
  extract_username (JList (older ++ m :: newer)) = Return (Some "").
Proof.
  intros Hnewer Hm Hws.
  rewrite (extract_username_most_recent older m newer ("Username:" ++ PyStr.join ws)
             Hnewer Hm (contains_app "Username:" "" (PyStr.join ws))).
  change ("Username:" ++ PyStr.join ws) with (String "U" "sername:" ++ PyStr.join ws).
  rewrite split_at_start.
  rewrite split_none.
  - cbn [nth]. now rewrite strip_whitespace.
  - rewrite <- (append_empty_r (PyStr.join ws)). now rewrite contains_pad.
Qed.

End NoUsername.

(** C7 (amended). In the password-reset flow, when no username
    resolves, that is when the extraction returns [None] or an empty
    string, the handler answers with the clarification request and
    emits no event at all: no call of the directory adapter and no
    failure audit record.  The extraction returns [None] on a history
    whose messages all have a string content without the marker, and
    an empty string when nothing but whitespace follows the marker.
    When the extraction raises, the answer is the apology, and the
    only event is the error log. *)
Theorem C7_no_username_asks_for_clarification :
  forall env req w,
    last_message_has "reset my password" req = true ->
    (forall username,
        extract_username (messages_of req) = Return username ->
        falsy username = true ->
        conversation env req w =
        (Return (clarification_answer (uuid4 env (uuids_drawn w))), next_uuid w)) /\
    (forall l,
        messages_of req = JList l ->
        without_marker l = true ->
        conversation env req w =
        (Return (clarification_answer (uuid4 env (uuids_drawn w))), next_uuid w)) /\
    (forall older m newer ws,
        messages_of req = JList (older ++ m :: newer) ->
        Py.item m "content" = Return (JStr ("Username:" ++ PyStr.join ws)) ->
        whitespace_characters ws = true ->
        without_marker newer = true ->
        conversation env req w =
        (Return (clarification_answer (uuid4 env (uuids_drawn w))), next_uuid w)) /\
    (forall e,
        extract_username (messages_of req) = Raise e ->
        conversation env req w =
        (Return (apology_answer (uuid4 env (uuids_drawn w))),
         next_uuid (advance w [EvLog LvError ("An error occurred during password reset: "
                                              ++ exn_str e)] 0))).
Proof.
  intros env req w Hreq.
  assert (forall username,
             extract_username (messages_of req) = Return username ->
             falsy username = true ->
             conversation env req w =
             (Return (clarification_answer (uuid4 env (uuids_drawn w))), next_uuid w))
    as Hfalsy.
  { intros username Hname Hf.
    rewrite (conversation_reset env req w Hreq), Hname.
    change (try_binding (lift (Return username)) (reset_steps env req) (reset_failed env) w)
      with (try_except (reset_steps env req username) (reset_failed env (Some username)) w).
    unfold try_except, reset_steps. rewrite Hf. reflexivity. }
  split; [exact Hfalsy | split; [| split]].
  - intros l Hl Hnone. apply (Hfalsy None); [| reflexivity].
    rewrite Hl. now apply extract_username_without_marker.
  - intros older m newer ws Hl Hm Hws Hnewer. apply (Hfalsy (Some "")); [| reflexivity].
    rewrite Hl. now apply (extract_username_blank older m newer ws).
  - intros e Hname.
    rewrite (conversation_reset env req w Hreq), Hname.
    change (try_binding (lift (Raise e)) (reset_steps env req) (reset_failed env) w)
      with (reset_failed env None e w).
    apply reset_failed_unbound.
Qed.

Lemma C7_witness :
  Demo.conversation_result Demo.env_ok Demo.reset_without_username =
  Return (clarification_answer "7d444840-9dc0-11d1-b245-5ffdce74fad0").
Proof.
  exact (f_equal fst
           (proj1 (proj2 (C7_no_username_asks_for_clarification
                            Demo.env_ok Demo.reset_without_username initial_world eq_refl))
              [Demo.user_says "Hello"; Demo.user_says "Please RESET my password"]
              eq_refl eq_refl)).
Defined.

(** The claim as written fails on a history in which no message
    carries the marker but one has no text to search: the content
    [None] of an assistant message makes the extraction raise a
    [TypeError], and the answer is the apology, not the clarification
    request. *)
Lemma C7_counterexample :
  List.existsb (PyStr.contains "Username:")
    (json_strings (get_json Demo.reset_after_empty_content)) = false /\
  last_message_has "reset my password" Demo.reset_after_empty_content = true /\
  extract_username (messages_of Demo.reset_after_empty_content) =
    Raise (Py.type_error "argument of type 'NoneType' is not iterable") /\
  conversation Demo.env_ok Demo.reset_after_empty_content initial_world =
  (Return (apology_answer "7d444840-9dc0-11d1-b245-5ffdce74fad0"),
   mk_world [EvLog LvError
               "An error occurred during password reset: argument of type 'NoneType' is not iterable"]
            1 0) /\
  Demo.conversation_result Demo.env_ok Demo.reset_after_empty_content <>
  Return (clarification_answer "7d444840-9dc0-11d1-b245-5ffdce74fad0").
Proof. repeat split; try reflexivity. discriminate. Qed.

(** ** The first definition of [conversation] *)

(** X15. In the first definition of [conversation] (line 247) every
    answer of the password-reset flow is worded by the completion
    service, the apology included: with a preview API version below
    the minimum, a reset request is not answered at all, the
    [ValueError] of the client initialization leaves the handler,
    after the extraction and the apology have each failed on it. *)
Theorem X15_line247_cannot_apologise_without_the_completion_service :
  forall env req w,
    String.ltb (azure_openai_preview_api_version (app_settings env))
               (MINIMUM_SUPPORTED_AZURE_OPENAI_PREVIEW_API_VERSION env) = true ->
    last_message_has "reset my password" req = true ->
    conversation_line247 env req w =
    (Raise (value_error ("The minimum supported Azure OpenAI preview API version is '"
                         ++ MINIMUM_SUPPORTED_AZURE_OPENAI_PREVIEW_API_VERSION env ++ "'")),
     advance w
       [init_failure_log;
        EvLog LvError
          ("An error occurred during password reset: "
           ++ "The minimum supported Azure OpenAI preview API version is '"
           ++ MINIMUM_SUPPORTED_AZURE_OPENAI_PREVIEW_API_VERSION env ++ "'");
        init_failure_log] 0).
Proof.
  intros env req w Hold Hreq.
  rewrite (line247_reset_first env req w (last_message_has_content _ _ Hreq)), Hreq.
  unfold try_binding, extract_username_with_openai.
  rewrite (bind_raise _ _ _ _ _ (init_openai_client_old_version env Hold w)).
  rewrite (bind_return _ _ _ _ _ (logging_run _ _ _)). rewrite bind_ret.
  unfold generate_openai_response.
  rewrite (bind_raise _ _ _ _ _ (init_openai_client_old_version env Hold _)).
  now rewrite !advance_advance.
Qed.

Lemma X15_witness :
  fst (conversation_line247 Demo3.env_old_version Demo.reset_by_alice initial_world) =
  Raise (value_error
           "The minimum supported Azure OpenAI preview API version is '2024-02-15-preview'").
Proof.
  exact (f_equal fst
           (X15_line247_cannot_apologise_without_the_completion_service
              Demo3.env_old_version Demo.reset_by_alice initial_world eq_refl eq_refl)).
Defined.

(** ** The other history handlers *)

Section StoreMonad.

Context {A B : Type}.

Lemma sbind_return (m : Store.H A) (k : A -> Store.H B) s a s' :
  m s = (Return a, s') -> Store.bind m k s = k a s'.
Proof. intros H. unfold Store.bind. now rewrite H. Qed.

Lemma sbind_raise (m : Store.H A) (k : A -> Store.H B) s e s' :
  m s = (Raise e, s') -> Store.bind m k s = (Raise e, s').
Proof. intros H. unfold Store.bind. now rewrite H. Qed.

Lemma sbind_ret (a : A) (k : A -> Store.H B) s : Store.bind (Store.ret a) k s = k a s.
Proof. reflexivity. Qed.

Lemma sbind_lift_return (o : outcome A) (k : A -> Store.H B) s a :
  o = Return a -> Store.bind (Store.lift o) k s = k a s.
Proof. intros ->. reflexivity. Qed.

Lemma sbind_lift_raise (o : outcome A) (k : A -> Store.H B) s e :
  o = Raise e -> Store.bind (Store.lift o) k s = (Raise e, s).
Proof. intros ->. reflexivity. Qed.

Lemma stry_raise (m : Store.H A) h s e s' :
  m s = (Raise e, s') -> Store.try_except m h s = h e s'.
Proof. intros H. unfold Store.try_except. now rewrite H. Qed.

Lemma stry_return (m : Store.H A) h s a s' :
  m s = (Return a, s') -> Store.try_except m h s = (Return a, s').
Proof. intros H. unfold Store.try_except. now rewrite H. Qed.

End StoreMonad.

Section StoreSteps.

Variable sv : Store.services.

Lemma called_called s c1 c2 : called (called s c1) c2 = called s (c1 ++ c2).
Proof. unfold called. simpl. now rewrite app_assoc. Qed.

Lemma called_nil s : called s [] = s.
Proof. unfold called. rewrite app_nil_r. now destruct s. Qed.

(** A call of a configured client is recorded and answered. *)
Lemma ask_run c s :
  cosmos_conversation_client (Store.base sv) = true ->
  Store.ask sv c s = (Store.answer sv c, called s [c]).
Proof. intros H. unfold Store.ask, Store.env. now rewrite H. Qed.

(** A call of a client that is [None] raises before it is made. *)
Lemma ask_none c s :
  cosmos_conversation_client (Store.base sv) = false ->
  Store.ask sv c s = (Raise (Py.attribute_error JNull (Store.method_name c)), s).
Proof. intros H. unfold Store.ask, Store.env. now rewrite H. Qed.

Lemma require_client_ok s :
  cosmos_conversation_client (Store.base sv) = true ->
  Store.require_client sv s = (Return tt, s).
Proof. intros H. unfold Store.require_client, Store.env. now rewrite H. Qed.

Lemma require_client_none s :
  cosmos_conversation_client (Store.base sv) = false ->
  Store.require_client sv s =
  (Raise (exception "CosmosDB is not configured or not working"), s).
Proof. intros H. unfold Store.require_client, Store.env. now rewrite H. Qed.

Lemma principal_run hdrs a user_id s :
  cosmos_db_ready (Store.base sv) = true ->
  get_authenticated_user_details (Store.base sv) hdrs = Return a ->
  Py.item a "user_principal_id" = Return user_id ->
  Store.principal sv hdrs s = (Return user_id, s).
Proof.
  intros Hready Ha Hid.
  unfold Store.principal, Store.env, cosmos_db_ready_wait, Store.bind, Store.in_app,
    Store.lift.
  rewrite Hready, Ha. destruct s as [w cs]. cbn [ret Store.app Store.calls].
  now rewrite Hid.
Qed.

Lemma failed_run msg e s :
  Store.failed msg e s = (Return (error_500 (exn_str e)), logged s msg).
Proof.
  unfold Store.failed, Store.bind, Store.in_app. now rewrite logging_run.
Qed.

End StoreSteps.

(** X16. [delete_conversation] deletes the messages of a conversation
    before the conversation record, both for the principal of the
    request; when the deletion of the messages raises, the record is
    not deleted and the answer is 500 with the text of the error. *)
Theorem X16_messages_are_deleted_before_the_conversation :
  forall sv req a user_id cid s,
    cosmos_db_ready (Store.base sv) = true ->
    get_authenticated_user_details (Store.base sv) (request_headers req) = Return a ->
    Py.item a "user_principal_id" = Return user_id ->
    Py.get (get_json req) "conversation_id" JNull = Return cid ->
    Py.truthy cid = true ->
    cosmos_conversation_client (Store.base sv) = true ->
    (forall v1 v2,
        Store.answer sv (Store.DeleteMessages cid user_id) = Return v1 ->
        Store.answer sv (Store.DeleteConversation user_id cid) = Return v2 ->
        Store.delete_conversation sv req s =
        (Return (Json (JDict [("message",
                               JStr "Successfully deleted conversation and messages");
                              ("conversation_id", cid)]) 200),
         called s [Store.DeleteMessages cid user_id;
                   Store.DeleteConversation user_id cid])) /\
    (forall e,
        Store.answer sv (Store.DeleteMessages cid user_id) = Raise e ->
        Store.delete_conversation sv req s =
        (Return (error_500 (exn_str e)),
         logged (called s [Store.DeleteMessages cid user_id])
                "Exception in /history/delete")).
Proof.
  intros sv req a user_id cid s Hready Ha Hid Hget Htruthy Hclient.
  unfold Store.delete_conversation.
  rewrite (sbind_return _ _ _ _ _ (principal_run sv _ a user_id s Hready Ha Hid)).
  cbv zeta. rewrite (sbind_lift_return _ _ _ _ Hget), Htruthy. cbn [negb].
  split.
  - intros v1 v2 H1 H2. apply stry_return.
    rewrite (sbind_return _ _ _ _ _ (require_client_ok sv s Hclient)).
    rewrite (sbind_return _ _ _ v1 _ (eq_trans (ask_run sv _ s Hclient) (f_equal2 pair H1 eq_refl))).
    rewrite (sbind_return _ _ _ v2 _
               (eq_trans (ask_run sv _ _ Hclient) (f_equal2 pair H2 eq_refl))).
    now rewrite called_called.
  - intros e H1. erewrite stry_raise; [apply failed_run|].
    rewrite (sbind_return _ _ _ _ _ (require_client_ok sv s Hclient)).
    apply sbind_raise. rewrite (ask_run sv _ s Hclient). now rewrite H1.
Qed.

Lemma X16_witness :
  Store.delete_conversation DemoStore.failing_services
    (DemoStore.about [("conversation_id", JStr "conv-1")]) Store.initial_state =
  (Return (error_500 "service unavailable"),
   Store.mk_state (mk_world [EvLog LvError "Exception in /history/delete"] 0 0)
                  [Store.DeleteMessages (JStr "conv-1") (JStr "alice")]).
Proof.
  exact (proj2 (X16_messages_are_deleted_before_the_conversation
                  DemoStore.failing_services
                  (DemoStore.about [("conversation_id", JStr "conv-1")])
                  Demo.alice (JStr "alice") (JStr "conv-1") Store.initial_state
                  eq_refl eq_refl eq_refl eq_refl eq_refl eq_refl)
               Demo.service_down eq_refl).
Defined.

Section DeleteAll.

Variable sv : Store.services.
Hypothesis configured : cosmos_conversation_client (Store.base sv) = true.

Lemma ask_answered c s :
  answered sv [c] = true ->
  exists v, Store.ask sv c s = (Return v, called s [c]).
Proof.
  unfold answered. cbn [List.forallb]. rewrite andb_true_r. intros H.
  rewrite (ask_run sv c s configured).
  destruct (Store.answer sv c) as [v| |]; try discriminate. now exists v.
Qed.

(** The loop deletes, for each conversation in turn, its messages and
    then its record. *)
Lemma delete_each_run user_id convs s :
  all_have_id convs = true ->
  answered sv (flat_map (deletion user_id) convs) = true ->
  Store.delete_each sv user_id convs s =
  (Return tt, called s (flat_map (deletion user_id) convs)).
Proof.
  revert s. induction convs as [|conv convs IH]; intros s Hid Hans.
  - cbn [flat_map Store.delete_each]. now rewrite called_nil.
  - cbn [all_have_id List.forallb] in Hid. apply andb_true_iff in Hid as [Hconv Hid].
    cbn [flat_map] in *. unfold deletion at 1 in Hans. unfold deletion at 1.
    destruct (Py.item conv "id") as [id| |] eqn:Eid; try discriminate.
    unfold answered in Hans. cbn [app List.forallb] in Hans.
    apply andb_true_iff in Hans as [H1 Hans]. apply andb_true_iff in Hans as [H2 Hans].
    cbn [Store.delete_each].
    rewrite (sbind_lift_return _ _ _ _ Eid).
    destruct (ask_answered (Store.DeleteMessages id user_id) s) as [v1 Hv1];
      [unfold answered; cbn [List.forallb]; now rewrite H1 |].
    rewrite (sbind_return _ _ _ _ _ Hv1).
    rewrite (sbind_lift_return _ _ _ _ Eid).
    destruct (ask_answered (Store.DeleteConversation user_id id)
                (called s [Store.DeleteMessages id user_id])) as [v2 Hv2];
      [unfold answered; cbn [List.forallb]; now rewrite H2 |].
    rewrite (sbind_return _ _ _ _ _ Hv2).
    rewrite (IH _ Hid Hans). now rewrite !called_called.
Qed.

End DeleteAll.

(** X17. [delete_all_conversations] asks once for all the
    conversations of the principal (offset 0, no limit) and then
    deletes them in the order of the list, for each one its messages
    before its record; it makes no other call. *)
Theorem X17_every_conversation_is_deleted_messages_first :
  forall sv repr_container req a user_id convs s,
    cosmos_db_ready (Store.base sv) = true ->
    get_authenticated_user_details (Store.base sv) (request_headers req) = Return a ->
    Py.item a "user_principal_id" = Return user_id ->
    cosmos_conversation_client (Store.base sv) = true ->
    Store.answer sv (Store.GetConversations user_id (JInt 0) JNull) = Return (JList convs) ->
    Py.truthy (JList convs) = true ->
    all_have_id convs = true ->
    answered sv (flat_map (deletion user_id) convs) = true ->
    Store.delete_all_conversations sv repr_container req s =
    (Return (Json (JDict [("message",
                           JStr ("Successfully deleted conversation and messages for user "
                                 ++ fmt_json repr_container user_id))]) 200),
     called s (Store.GetConversations user_id (JInt 0) JNull
               :: flat_map (deletion user_id) convs)).
Proof.
  intros sv rc req a user_id convs s Hready Ha Hid Hclient Hget Hne Hids Hans.
  unfold Store.delete_all_conversations.
  rewrite (sbind_return _ _ _ _ _ (principal_run sv _ a user_id s Hready Ha Hid)).
  apply stry_return.
  rewrite (sbind_return _ _ _ _ _ (require_client_ok sv s Hclient)).
  rewrite (sbind_return _ _ _ (JList convs) _
             (eq_trans (ask_run sv _ s Hclient) (f_equal2 pair Hget eq_refl))).
  rewrite Hne. cbn [negb Py.iter].
  rewrite (sbind_lift_return _ _ _ _ eq_refl).
  rewrite (sbind_return _ _ _ _ _ (delete_each_run sv Hclient user_id convs _ Hids Hans)).
  now rewrite called_called.
Qed.

Lemma X17_witness :
  Store.delete_all_conversations DemoStore.alice_services (fun _ => "") (DemoStore.about [])
    Store.initial_state =
  (Return (Json (JDict [("message",
                         JStr "Successfully deleted conversation and messages for user alice")])
                200),
   Store.mk_state initial_world
     [Store.GetConversations (JStr "alice") (JInt 0) JNull;
      Store.DeleteMessages (JStr "conv-1") (JStr "alice");
      Store.DeleteConversation (JStr "alice") (JStr "conv-1")]).
Proof.
  exact (X17_every_conversation_is_deleted_messages_first
           DemoStore.alice_services (fun _ => "") (DemoStore.about [])
           Demo.alice (JStr "alice") [DemoStore.conv1] Store.initial_state
           eq_refl eq_refl eq_refl eq_refl eq_refl eq_refl eq_refl eq_refl).
Defined.

Lemma lookup_dict_set_same d k v : Py.lookup k (dict_set d k v) = Some v.
Proof.
  induction d as [|[k' v'] d IH]; cbn [dict_set Py.lookup].
  - now rewrite String.eqb_refl.
  - destruct (String.eqb k' k) eqn:E; cbn [Py.lookup].
    + now rewrite String.eqb_refl.
    + now rewrite E.
Qed.

Lemma lookup_dict_set_other d k k' v :
  k' <> k -> Py.lookup k' (dict_set d k v) = Py.lookup k' d.
Proof.
  intros Hne. induction d as [|[k0 v0] d IH]; cbn [dict_set Py.lookup].
  - destruct (String.eqb k k') eqn:E; [apply String.eqb_eq in E; congruence | reflexivity].
  - destruct (String.eqb k0 k) eqn:E; cbn [Py.lookup].
    + apply String.eqb_eq in E. subst k0.
      destruct (String.eqb k k') eqn:E'; [apply String.eqb_eq in E'; congruence | reflexivity].
    + now rewrite IH.
Qed.

(** X18. [rename_conversation] writes back the record the store
    returned for the principal with only its title replaced: the record
    handed to [upsert_conversation] has the new title and every other
    field as it was read, and the response is the store's answer. *)
Theorem X18_rename_replaces_only_the_title :
  forall sv repr_container req a user_id cid d title v s,
    cosmos_db_ready (Store.base sv) = true ->
    get_authenticated_user_details (Store.base sv) (request_headers req) = Return a ->
    Py.item a "user_principal_id" = Return user_id ->
    Py.get (get_json req) "conversation_id" JNull = Return cid ->
    Py.truthy cid = true ->
    cosmos_conversation_client (Store.base sv) = true ->
    Store.answer sv (Store.GetConversation user_id cid) = Return (JDict d) ->
    Py.truthy (JDict d) = true ->
    Py.get (get_json req) "title" JNull = Return title ->
    Py.truthy title = true ->
    Store.answer sv (Store.UpsertConversation (JDict (dict_set d "title" title))) = Return v ->
    Store.rename_conversation sv repr_container req s =
    (Return (Json v 200),
     called s [Store.GetConversation user_id cid;
               Store.UpsertConversation (JDict (dict_set d "title" title))]) /\
    Py.lookup "title" (dict_set d "title" title) = Some title /\
    (forall k, k <> "title" -> Py.lookup k (dict_set d "title" title) = Py.lookup k d).
Proof.
  intros sv rc req a user_id cid d title v s Hready Ha Hid Hget Hcid Hclient Hconv Hd
    Htitle Ht Hup.
  split; [| split; [apply lookup_dict_set_same | intros k Hk; now apply lookup_dict_set_other]].
  unfold Store.rename_conversation.
  rewrite (sbind_return _ _ _ _ _ (principal_run sv _ a user_id s Hready Ha Hid)).
  cbv zeta. rewrite (sbind_lift_return _ _ _ _ Hget), Hcid. cbn [negb].
  rewrite (sbind_return _ _ _ _ _ (require_client_ok sv s Hclient)).
  rewrite (sbind_return _ _ _ (JDict d) _
             (eq_trans (ask_run sv _ s Hclient) (f_equal2 pair Hconv eq_refl))).
  rewrite Hd. cbn [negb].
  rewrite (sbind_lift_return _ _ _ _ Htitle), Ht. cbn [negb set_item].
  rewrite (sbind_lift_return _ _ _ _ eq_refl).
  rewrite (sbind_return _ _ _ v _
             (eq_trans (ask_run sv _ _ Hclient) (f_equal2 pair Hup eq_refl))).
  now rewrite called_called.
Qed.

Lemma X18_witness :
  fst (Store.rename_conversation DemoStore.alice_services (fun _ => "")
         (DemoStore.about [("conversation_id", JStr "conv-1"); ("title", JStr "New title")])
         Store.initial_state) =
  Return (Json (JDict [("id", JStr "conv-1"); ("userId", JStr "alice");
                       ("title", JStr "New title")]) 200).
Proof.
  exact (f_equal fst
           (proj1 (X18_rename_replaces_only_the_title
                     DemoStore.alice_services (fun _ => "")
                     (DemoStore.about [("conversation_id", JStr "conv-1");
                                       ("title", JStr "New title")])
                     Demo.alice (JStr "alice") (JStr "conv-1")
                     [("id", JStr "conv-1"); ("userId", JStr "alice");
                      ("title", JStr "Old title")]
                     (JStr "New title")
                     (JDict [("id", JStr "conv-1"); ("userId", JStr "alice");
                             ("title", JStr "New title")])
                     Store.initial_state
                     eq_refl eq_refl eq_refl eq_refl eq_refl eq_refl eq_refl eq_refl
                     eq_refl eq_refl eq_refl))).
Defined.

(** X19. When the store returns nothing for the conversation and the
    principal, [get_conversation] and [rename_conversation] answer 404
    with the same text after that one call: the messages are not read,
    nothing is written back, and a missing title is not reported. *)
Theorem X19_a_conversation_of_someone_else_is_not_found :
  forall sv repr_container req a user_id cid conv s,
    cosmos_db_ready (Store.base sv) = true ->
    get_authenticated_user_details (Store.base sv) (request_headers req) = Return a ->
    Py.item a "user_principal_id" = Return user_id ->
    Py.get (get_json req) "conversation_id" JNull = Return cid ->
    Py.truthy cid = true ->
    cosmos_conversation_client (Store.base sv) = true ->
    Store.answer sv (Store.GetConversation user_id cid) = Return conv ->
    Py.truthy conv = false ->
    Store.get_conversation sv repr_container req s =
    (Return (Store.error (Store.not_found_text repr_container cid) 404),
     called s [Store.GetConversation user_id cid]) /\
    Store.rename_conversation sv repr_container req s =
    (Return (Store.error (Store.not_found_text repr_container cid) 404),
     called s [Store.GetConversation user_id cid]).
Proof.
  intros sv rc req a user_id cid conv s Hready Ha Hid Hget Hcid Hclient Hconv Hfalsy.
  split.
  - unfold Store.get_conversation.
    rewrite (sbind_return _ _ _ _ _ (principal_run sv _ a user_id s Hready Ha Hid)).
    cbv zeta. rewrite (sbind_lift_return _ _ _ _ Hget), Hcid. cbn [negb].
    rewrite (sbind_return _ _ _ _ _ (require_client_ok sv s Hclient)).
    rewrite (sbind_return _ _ _ conv _
               (eq_trans (ask_run sv _ s Hclient) (f_equal2 pair Hconv eq_refl))).
    now rewrite Hfalsy.
  - unfold Store.rename_conversation.
    rewrite (sbind_return _ _ _ _ _ (principal_run sv _ a user_id s Hready Ha Hid)).
    cbv zeta. rewrite (sbind_lift_return _ _ _ _ Hget), Hcid. cbn [negb].
    rewrite (sbind_return _ _ _ _ _ (require_client_ok sv s Hclient)).
    rewrite (sbind_return _ _ _ conv _
               (eq_trans (ask_run sv _ s Hclient) (f_equal2 pair Hconv eq_refl))).
    now rewrite Hfalsy.
Qed.

Lemma X19_witness :
  Store.rename_conversation DemoStore.bob_services (fun _ => "")
    (DemoStore.about [("conversation_id", JStr "conv-1")]) Store.initial_state =
  (Return (Store.error
             "Conversation conv-1 was not found. It either does not exist or the logged in user does not have access to it."
             404),
   Store.mk_state initial_world [Store.GetConversation (JStr "bob") (JStr "conv-1")]).
Proof.
  exact (proj2 (X19_a_conversation_of_someone_else_is_not_found
                  DemoStore.bob_services (fun _ => "")
                  (DemoStore.about [("conversation_id", JStr "conv-1")])
                  Demo.bob (JStr "bob") (JStr "conv-1") JNull Store.initial_state
                  eq_refl eq_refl eq_refl eq_refl eq_refl eq_refl eq_refl eq_refl)).
Defined.

(** The comprehension of lines 649 to 658 succeeds on messages that
    have the four fields it reads, and keeps their number and order. *)
Lemma project_messages_ok msgs :
  List.forallb has_message_fields msgs = true ->
  exists out, Store.project_messages msgs = Return out /\ Forall2 projects msgs out.
Proof.
  induction msgs as [|msg msgs IH]; intros Hall.
  - exists []. split; [reflexivity | constructor].
  - cbn [List.forallb] in Hall. apply andb_true_iff in Hall as [Hmsg Hall].
    destruct (IH Hall) as (out & Hout & Hproj).
    destruct msg as [| | | | | |d]; try discriminate.
    cbn [has_message_fields] in Hmsg.
    destruct (Py.lookup "id" d) as [id|] eqn:Eid; try discriminate.
    destruct (Py.lookup "role" d) as [role|] eqn:Erole; try discriminate.
    destruct (Py.lookup "content" d) as [content|] eqn:Econtent; try discriminate.
    destruct (Py.lookup "createdAt" d) as [created|] eqn:Ecreated; try discriminate.
    eexists. split.
    + cbn [Store.project_messages Py.item Py.get]. rewrite Eid, Erole, Econtent, Ecreated, Hout.
      reflexivity.
    + constructor; [| exact Hproj].
      exists id, role, content, created. cbn [Py.item Py.get].
      now rewrite Eid, Erole, Econtent, Ecreated.
Qed.

(** X20. [get_conversation] returns one message for each stored
    message, in the stored order, and each holds the id, role, content
    and creation time of the stored one and its feedback ([None] when
    it has none), and no other field of it. *)
Theorem X20_read_returns_the_five_fields_of_each_message :
  forall sv repr_container req a user_id cid conv msgs s,
    cosmos_db_ready (Store.base sv) = true ->
    get_authenticated_user_details (Store.base sv) (request_headers req) = Return a ->
    Py.item a "user_principal_id" = Return user_id ->
    Py.get (get_json req) "conversation_id" JNull = Return cid ->
    Py.truthy cid = true ->
    cosmos_conversation_client (Store.base sv) = true ->
    Store.answer sv (Store.GetConversation user_id cid) = Return conv ->
    Py.truthy conv = true ->
    Store.answer sv (Store.GetMessages user_id cid) = Return (JList msgs) ->
    List.forallb has_message_fields msgs = true ->
    exists out,
      Store.get_conversation sv repr_container req s =
      (Return (Json (JDict [("conversation_id", cid); ("messages", JList out)]) 200),
       called s [Store.GetConversation user_id cid; Store.GetMessages user_id cid]) /\
      Forall2 projects msgs out.
Proof.
  intros sv rc req a user_id cid conv msgs s Hready Ha Hid Hget Hcid Hclient Hconv Htruthy
    Hmsgs Hfields.
  destruct (project_messages_ok msgs Hfields) as (out & Hout & Hproj).
  exists out. split; [| exact Hproj].
  unfold Store.get_conversation.
  rewrite (sbind_return _ _ _ _ _ (principal_run sv _ a user_id s Hready Ha Hid)).
  cbv zeta. rewrite (sbind_lift_return _ _ _ _ Hget), Hcid. cbn [negb].
  rewrite (sbind_return _ _ _ _ _ (require_client_ok sv s Hclient)).
  rewrite (sbind_return _ _ _ conv _
             (eq_trans (ask_run sv _ s Hclient) (f_equal2 pair Hconv eq_refl))).
  rewrite Htruthy. cbn [negb].
  rewrite (sbind_return _ _ _ (JList msgs) _
             (eq_trans (ask_run sv _ _ Hclient) (f_equal2 pair Hmsgs eq_refl))).
  cbn [Py.iter]. rewrite (sbind_lift_return _ _ _ _ eq_refl).
  rewrite (sbind_lift_return _ _ _ _ Hout).
  now rewrite called_called.
Qed.

Lemma X20_witness :
  exists out,
    Store.get_conversation DemoStore.alice_services (fun _ => "")
      (DemoStore.about [("conversation_id", JStr "conv-1")]) Store.initial_state =
    (Return (Json (JDict [("conversation_id", JStr "conv-1"); ("messages", JList out)]) 200),
     called Store.initial_state
       [Store.GetConversation (JStr "alice") (JStr "conv-1");
        Store.GetMessages (JStr "alice") (JStr "conv-1")]) /\
    Forall2 projects DemoStore.stored_messages out.
Proof.
  exact (X20_read_returns_the_five_fields_of_each_message
           DemoStore.alice_services (fun _ => "")
           (DemoStore.about [("conversation_id", JStr "conv-1")])
           Demo.alice (JStr "alice") (JStr "conv-1") DemoStore.conv1
           DemoStore.stored_messages Store.initial_state
           eq_refl eq_refl eq_refl eq_refl eq_refl eq_refl eq_refl eq_refl eq_refl eq_refl).
Defined.

(** X21. [update_message] checks the message id, then the feedback,
    before it turns to the store: without one of them it answers 400
    and makes no call.  With both, it makes the one call
    [update_message_feedback] for the principal, and answers 200 when
    the store's answer is truthy and 404 when it is not. *)
Theorem X21_feedback_is_validated_before_the_store_is_asked :
  forall sv repr_container req a user_id message_id message_feedback s,
    cosmos_db_ready (Store.base sv) = true ->
    get_authenticated_user_details (Store.base sv) (request_headers req) = Return a ->
    Py.item a "user_principal_id" = Return user_id ->
    Py.get (get_json req) "message_id" JNull = Return message_id ->
    Py.get (get_json req) "message_feedback" JNull = Return message_feedback ->
    (Py.truthy message_id = false ->
     Store.update_message sv repr_container req s =
     (Return (Store.error "message_id is required" 400), s)) /\
    (Py.truthy message_id = true -> Py.truthy message_feedback = false ->
     Store.update_message sv repr_container req s =
     (Return (Store.error "message_feedback is required" 400), s)) /\
    (Py.truthy message_id = true -> Py.truthy message_feedback = true ->
     cosmos_conversation_client (Store.base sv) = true ->
     forall updated,
       Store.answer sv (Store.UpdateMessageFeedback user_id message_id message_feedback)
       = Return updated ->
       Store.update_message sv repr_container req s =
       (Return (if Py.truthy updated
                then Json (JDict [("message",
                                   JStr ("Successfully updated message with feedback "
                                         ++ fmt_json repr_container message_feedback));
                                  ("message_id", message_id)]) 200
                else Store.error
                       ("Unable to update message " ++ fmt_json repr_container message_id
                        ++ ". It either does not exist or the user does not have access to it.")
                       404),
        called s [Store.UpdateMessageFeedback user_id message_id message_feedback])).
Proof.
  intros sv rc req a user_id mid fb s Hready Ha Hid Hmid Hfb.
  assert (Store.update_message sv rc req s =
          Store.try_except
            (if negb (Py.truthy mid)
             then Store.ret (Store.error "message_id is required" 400)
             else if negb (Py.truthy fb)
             then Store.ret (Store.error "message_feedback is required" 400)
             else
               Store.bind (Store.ask sv (Store.UpdateMessageFeedback user_id mid fb))
                 (fun updated_message =>
                    if Py.truthy updated_message
                    then Store.ret (Json (JDict [("message",
                                   JStr ("Successfully updated message with feedback "
                                         ++ fmt_json rc fb));
                                  ("message_id", mid)]) 200)
                    else Store.ret (Store.error
                       ("Unable to update message " ++ fmt_json rc mid
                        ++ ". It either does not exist or the user does not have access to it.")
                       404)))
            (Store.failed "Exception in /history/message_feedback") s) as ->.
  { unfold Store.update_message.
    rewrite (sbind_return _ _ _ _ _ (principal_run sv _ a user_id s Hready Ha Hid)).
    cbv zeta. rewrite (sbind_lift_return _ _ _ _ Hmid).
    now rewrite (sbind_lift_return _ _ _ _ Hfb). }
  split; [| split].
  - intros ->. reflexivity.
  - intros -> ->. reflexivity.
  - intros -> -> Hclient updated Hup. cbn [negb].
    apply stry_return.
    rewrite (sbind_return _ _ _ updated _
               (eq_trans (ask_run sv _ s Hclient) (f_equal2 pair Hup eq_refl))).
    now destruct (Py.truthy updated).
Qed.

Lemma X21_witness :
  Store.update_message DemoStore.bob_services (fun _ => "")
    (DemoStore.about [("message_id", JStr "m2"); ("message_feedback", JStr "negative")])
    Store.initial_state =
  (Return (Store.error
             "Unable to update message m2. It either does not exist or the user does not have access to it."
             404),
   Store.mk_state initial_world
     [Store.UpdateMessageFeedback (JStr "bob") (JStr "m2") (JStr "negative")]).
Proof.
  exact (proj2 (proj2 (X21_feedback_is_validated_before_the_store_is_asked
                  DemoStore.bob_services (fun _ => "")
                  (DemoStore.about [("message_id", JStr "m2");
                                    ("message_feedback", JStr "negative")])
                  Demo.bob (JStr "bob") (JStr "m2") (JStr "negative") Store.initial_state
                  eq_refl eq_refl eq_refl eq_refl eq_refl))
           eq_refl eq_refl eq_refl (JBool false) eq_refl).
Defined.

Section UpdateConversation.

Variable sv : Store.services.
Variables (req : request) (a user_id cid : json) (s : Store.state).
Hypothesis Hready : cosmos_db_ready (Store.base sv) = true.
Hypothesis Ha : get_authenticated_user_details (Store.base sv) (request_headers req) = Return a.
Hypothesis Hid : Py.item a "user_principal_id" = Return user_id.
Hypothesis Hget : Py.get (get_json req) "conversation_id" JNull = Return cid.
Hypothesis Hclient : cosmos_conversation_client (Store.base sv) = true.

(** The handler up to its [try]. *)
Lemma update_conversation_entered :
  Store.update_conversation sv req s =
  Store.try_except
    (Store.bind (Store.require_client sv) (fun _ =>
     Store.bind (if negb (Py.truthy cid)
                 then Store.raise (exception "No conversation_id found")
                 else Store.ret tt) (fun _ =>
     Store.bind (Store.lift (Py.item (get_json req) "messages")) (fun messages =>
     Store.bind (Store.lift (Py.len messages)) (fun n =>
     Store.bind
       (if Nat.ltb 0 n
        then Store.bind (Store.lift (Py.index messages (-1))) (fun last =>
             Store.bind (Store.lift (Py.item last "role")) (fun role =>
             Store.ret (Py.eq_str role "assistant")))
        else Store.ret false) (fun is_assistant =>
     Store.bind
       (if is_assistant
        then
          Store.bind
            (if Nat.ltb 1 n
             then Store.bind (Store.lift (Py.index messages (-2))) (fun previous =>
                  Store.bind (Store.lift (Py.get previous "role" JNull)) (fun role =>
                  Store.ret (Py.eq_str role "tool")))
             else Store.ret false) (fun is_tool =>
          Store.bind
            (if is_tool
             then
               Store.bind (Store.in_app (uuid_str (Store.env sv))) (fun u =>
               Store.bind (Store.lift (Py.index messages (-2))) (fun previous =>
               Store.bind (Store.ask sv (Store.CreateMessage (JStr u) cid user_id previous))
                 (fun _ => Store.ret tt)))
             else Store.ret tt) (fun _ =>
          Store.bind (Store.lift (Py.index messages (-1))) (fun last =>
          Store.bind (Store.lift (Py.item last "id")) (fun id =>
          Store.bind (Store.lift (Py.index messages (-1))) (fun last' =>
          Store.bind (Store.ask sv (Store.CreateMessage id cid user_id last'))
            (fun _ => Store.ret tt))))))
        else Store.raise (exception "No bot messages found")) (fun _ =>
     Store.ret (Json (JDict [("success", JBool true)]) 200))))))))
    (Store.failed "Exception in /history/update") s.
Proof.
  unfold Store.update_conversation.
  rewrite (sbind_return _ _ _ _ _ (principal_run sv _ a user_id s Hready Ha Hid)).
  cbv zeta. now rewrite (sbind_lift_return _ _ _ _ Hget).
Qed.

End UpdateConversation.

Lemma length_app_two {T} (front : list T) x y :
  Nat.ltb 0 (List.length (front ++ [x; y])) = true /\
  Nat.ltb 1 (List.length (front ++ [x; y])) = true.
Proof.
  rewrite length_app. cbn [List.length].
  split; apply Nat.ltb_lt; lia.
Qed.

Lemma index_last_app_two front x y :
  Py.index (JList (front ++ [x; y])) (-1) = Return y.
Proof.
  rewrite index_last by (destruct front; discriminate).
  change [x; y] with ([x] ++ [y])%list. rewrite app_assoc. now rewrite last_last.
Qed.

(** X22. [update_conversation] stores the assistant's last message
    under the id the message carries.  When the message before it is a
    tool message, that one is stored first, under a fresh UUID; no
    other message of the request is stored. *)
Theorem X22_tool_message_is_stored_before_the_answer :
  forall sv req a user_id cid front previous last role previous_role id s,
    cosmos_db_ready (Store.base sv) = true ->
    get_authenticated_user_details (Store.base sv) (request_headers req) = Return a ->
    Py.item a "user_principal_id" = Return user_id ->
    Py.get (get_json req) "conversation_id" JNull = Return cid ->
    Py.truthy cid = true ->
    cosmos_conversation_client (Store.base sv) = true ->
    Py.item (get_json req) "messages" = Return (JList (front ++ [previous; last])) ->
    Py.item last "role" = Return role ->
    Py.eq_str role "assistant" = true ->
    Py.item last "id" = Return id ->
    Py.get previous "role" JNull = Return previous_role ->
    answered sv [Store.CreateMessage id cid user_id last] = true ->
    (Py.eq_str previous_role "tool" = true ->
     answered sv [Store.CreateMessage
                    (JStr (uuid4 (Store.base sv) (uuids_drawn (Store.app s))))
                    cid user_id previous] = true ->
     Store.update_conversation sv req s =
     (Return (Json (JDict [("success", JBool true)]) 200),
      Store.mk_state (next_uuid (Store.app s))
        (Store.calls s ++
         [Store.CreateMessage (JStr (uuid4 (Store.base sv) (uuids_drawn (Store.app s))))
            cid user_id previous;
          Store.CreateMessage id cid user_id last]))) /\
    (Py.eq_str previous_role "tool" = false ->
     Store.update_conversation sv req s =
     (Return (Json (JDict [("success", JBool true)]) 200),
      called s [Store.CreateMessage id cid user_id last])).
Proof.
  intros sv req a user_id cid front previous last role prole id s Hready Ha Hid Hget Hcid
    Hclient Hmsgs Hrole Hassistant Hlast Hprole Hanswer.
  rewrite (update_conversation_entered sv req a user_id cid s Hready Ha Hid Hget).
  destruct (length_app_two front previous last) as [Hlen0 Hlen1].
  assert (forall s0, exists v,
             Store.ask sv (Store.CreateMessage id cid user_id last) s0 =
             (Return v, called s0 [Store.CreateMessage id cid user_id last])) as Hask.
  { intros s0. now apply ask_answered. }
  split.
  - intros Htool Hanswer'.
    apply stry_return.
    rewrite (sbind_return _ _ _ _ _ (require_client_ok sv s Hclient)).
    rewrite Hcid. cbn [negb]. rewrite sbind_ret.
    rewrite (sbind_lift_return _ _ _ _ Hmsgs).
    cbn [Py.len]. rewrite (sbind_lift_return _ _ _ _ eq_refl).
    rewrite Hlen0, Hlen1.
    erewrite sbind_return; cycle 1.
    { rewrite (sbind_lift_return _ _ _ _ (index_last_app_two front previous last)).
      rewrite (sbind_lift_return _ _ _ _ Hrole). reflexivity. }
    rewrite Hassistant.
    erewrite sbind_return; cycle 1.
    { erewrite sbind_return; cycle 1.
      { rewrite (sbind_lift_return _ _ _ _ (index_second_to_last front previous last)).
        rewrite (sbind_lift_return _ _ _ _ Hprole). reflexivity. }
      rewrite Htool.
      destruct (ask_answered sv Hclient _
                  (Store.mk_state (next_uuid (Store.app s)) (Store.calls s)) Hanswer')
        as [v1 Hv1].
      erewrite sbind_return; cycle 1.
      { erewrite sbind_return; cycle 1.
        { unfold Store.in_app, uuid_str. reflexivity. }
        rewrite (sbind_lift_return _ _ _ _ (index_second_to_last front previous last)).
        unfold Store.env. cbn [Store.app Store.calls].
        rewrite (sbind_return _ _ _ _ _ Hv1). reflexivity. }
      rewrite (sbind_lift_return _ _ _ _ (index_last_app_two front previous last)).
      rewrite (sbind_lift_return _ _ _ _ Hlast).
      rewrite (sbind_lift_return _ _ _ _ (index_last_app_two front previous last)).
      destruct (Hask (called (Store.mk_state (next_uuid (Store.app s)) (Store.calls s))
                        [Store.CreateMessage
                           (JStr (uuid4 (Store.base sv) (uuids_drawn (Store.app s))))
                           cid user_id previous])) as [v2 Hv2].
      rewrite (sbind_return _ _ _ _ _ Hv2). reflexivity. }
    unfold Store.ret, called. cbn [Store.app Store.calls].
    now rewrite <- app_assoc.
  - intros Htool.
    apply stry_return.
    rewrite (sbind_return _ _ _ _ _ (require_client_ok sv s Hclient)).
    rewrite Hcid. cbn [negb]. rewrite sbind_ret.
    rewrite (sbind_lift_return _ _ _ _ Hmsgs).
    cbn [Py.len]. rewrite (sbind_lift_return _ _ _ _ eq_refl).
    rewrite Hlen0, Hlen1.
    erewrite sbind_return; cycle 1.
    { rewrite (sbind_lift_return _ _ _ _ (index_last_app_two front previous last)).
      rewrite (sbind_lift_return _ _ _ _ Hrole). reflexivity. }
    rewrite Hassistant.
    erewrite sbind_return; cycle 1.
    { erewrite sbind_return; cycle 1.
      { rewrite (sbind_lift_return _ _ _ _ (index_second_to_last front previous last)).
        rewrite (sbind_lift_return _ _ _ _ Hprole). reflexivity. }
      rewrite Htool. rewrite sbind_ret.
      rewrite (sbind_lift_return _ _ _ _ (index_last_app_two front previous last)).
      rewrite (sbind_lift_return _ _ _ _ Hlast).
      rewrite (sbind_lift_return _ _ _ _ (index_last_app_two front previous last)).
      destruct (Hask s) as [v2 Hv2].
      rewrite (sbind_return _ _ _ _ _ Hv2). reflexivity. }
    reflexivity.
Qed.

Lemma X22_witness :
  Store.update_conversation DemoStore.alice_services DemoUpdate.turn Store.initial_state =
  (Return (Json (JDict [("success", JBool true)]) 200),
   Store.mk_state (next_uuid initial_world)
     [Store.CreateMessage (JStr "7d444840-9dc0-11d1-b245-5ffdce74fad0")
        (JStr "conv-1") (JStr "alice") DemoUpdate.tool_output;
      Store.CreateMessage (JStr "r1") (JStr "conv-1") (JStr "alice") DemoUpdate.reply]).
Proof.
  exact (proj1 (X22_tool_message_is_stored_before_the_answer
                  DemoStore.alice_services DemoUpdate.turn Demo.alice (JStr "alice")
                  (JStr "conv-1") [DemoUpdate.question] DemoUpdate.tool_output
                  DemoUpdate.reply (JStr "assistant") (JStr "tool") (JStr "r1")
                  Store.initial_state
                  eq_refl eq_refl eq_refl eq_refl eq_refl eq_refl eq_refl eq_refl eq_refl
                  eq_refl eq_refl eq_refl)
           eq_refl eq_refl).
Defined.

(** X23. [update_conversation] stores nothing unless the request names
    a conversation and ends with a message of the assistant: without a
    conversation id the messages are not looked at, and an empty list
    or a last message of another role is answered with status 500 and
    the text [No bot messages found]. *)
Theorem X23_nothing_is_stored_without_an_assistant_message :
  forall sv req a user_id cid s,
    cosmos_db_ready (Store.base sv) = true ->
    get_authenticated_user_details (Store.base sv) (request_headers req) = Return a ->
    Py.item a "user_principal_id" = Return user_id ->
    Py.get (get_json req) "conversation_id" JNull = Return cid ->
    cosmos_conversation_client (Store.base sv) = true ->
    (Py.truthy cid = false ->
     Store.update_conversation sv req s =
     (Return (error_500 "No conversation_id found"),
      logged s "Exception in /history/update")) /\
    (Py.truthy cid = true ->
     forall l,
       Py.item (get_json req) "messages" = Return (JList l) ->
       (l = [] \/
        exists role, Py.item (List.last l JNull) "role" = Return role /\
                     Py.eq_str role "assistant" = false) ->
       Store.update_conversation sv req s =
       (Return (error_500 "No bot messages found"),
        logged s "Exception in /history/update")).
Proof.
  intros sv req a user_id cid s Hready Ha Hid Hget Hclient.
  rewrite (update_conversation_entered sv req a user_id cid s Hready Ha Hid Hget).
  split.
  - intros Hcid.
    erewrite stry_raise; cycle 1.
    { rewrite (sbind_return _ _ _ _ _ (require_client_ok sv s Hclient)).
      rewrite Hcid. reflexivity. }
    exact (failed_run _ (exception "No conversation_id found") s).
  - intros Hcid l Hmsgs Hlast.
    erewrite stry_raise; cycle 1.
    { rewrite (sbind_return _ _ _ _ _ (require_client_ok sv s Hclient)).
      rewrite Hcid. cbn [negb]. rewrite sbind_ret.
      rewrite (sbind_lift_return _ _ _ _ Hmsgs).
      cbn [Py.len]. rewrite (sbind_lift_return _ _ _ _ eq_refl).
      destruct Hlast as [-> | (role & Hrole & Hne)].
      + reflexivity.
      + destruct l as [|x l]; [discriminate|].
        change (Nat.ltb 0 (List.length (x :: l))) with true. cbv iota.
        erewrite sbind_return; cycle 1.
        { rewrite (sbind_lift_return _ _ _ _ (index_last (x :: l) ltac:(discriminate))).
          rewrite (sbind_lift_return _ _ _ _ Hrole). reflexivity. }
        rewrite Hne. reflexivity. }
    exact (failed_run _ (exception "No bot messages found") s).
Qed.

Lemma X23_witness :
  Store.update_conversation DemoStore.alice_services DemoUpdate.unanswered
    Store.initial_state =
  (Return (error_500 "No bot messages found"),
   logged Store.initial_state "Exception in /history/update").
Proof.
  exact (proj2 (X23_nothing_is_stored_without_an_assistant_message
                  DemoStore.alice_services DemoUpdate.unanswered Demo.alice (JStr "alice")
                  (JStr "conv-1") Store.initial_state
                  eq_refl eq_refl eq_refl eq_refl eq_refl)
           eq_refl [DemoUpdate.question] eq_refl
           (or_intror (ex_intro _ (JStr "user") (conj eq_refl eq_refl)))).
Defined.

(** X24. Without chat-history settings [ensure_cosmos] answers 404
    and does not touch the store.  With settings but no store client
    the call of [ensure] fails on [None], and the answer is 500 with
    the text [CosmosDB is not working]: the test of the client after
    the call is never reached. *)
Theorem X24_ensure_without_a_client_is_not_working :
  forall sv s,
    cosmos_db_ready (Store.base sv) = true ->
    (Store.chat_history sv = None ->
     Store.ensure_cosmos sv s =
     (Return (Store.error "CosmosDB is not configured" 404), s)) /\
    (Store.chat_history sv <> None ->
     cosmos_conversation_client (Store.base sv) = false ->
     Store.ensure_cosmos sv s =
     (Return (Store.error "CosmosDB is not working" 500),
      logged s "Exception in /history/ensure")).
Proof.
  intros sv s Hready.
  assert (forall B (k : unit -> Store.H B),
             Store.bind (Store.in_app (cosmos_db_ready_wait (Store.env sv))) k s = k tt s)
    as Hwait.
  { intros B k. unfold Store.bind, Store.in_app, cosmos_db_ready_wait, Store.env.
    rewrite Hready. now destruct s. }
  unfold Store.ensure_cosmos. rewrite Hwait. split.
  - intros ->. reflexivity.
  - intros Hsome Hnone.
    destruct (Store.chat_history sv) as [ch|]; [| congruence].
    erewrite stry_raise; cycle 1.
    { erewrite sbind_raise; [reflexivity | apply (ask_none sv _ s Hnone)]. }
    unfold Store.ensure_failed, Store.bind, Store.in_app. now rewrite logging_run.
Qed.

Lemma X24_witness :
  Store.ensure_cosmos DemoStore.no_client Store.initial_state =
  (Return (Store.error "CosmosDB is not working" 500),
   logged Store.initial_state "Exception in /history/ensure").
Proof.
  exact (proj2 (X24_ensure_without_a_client_is_not_working
                  DemoStore.no_client Store.initial_state eq_refl)
           ltac:(discriminate) eq_refl).
Defined.

(** The first lines of [list_conversations], which do not differ from
    those of the other handlers but for the query argument. *)
Lemma list_conversations_entered sv repr_container req offset a user_id s :
  cosmos_db_ready (Store.base sv) = true ->
  get_authenticated_user_details (Store.base sv) (request_headers req) = Return a ->
  Py.item a "user_principal_id" = Return user_id ->
  Store.list_conversations sv repr_container req offset s =
  Store.bind (Store.require_client sv) (fun _ =>
  Store.bind (Store.ask sv (Store.GetConversations user_id offset (JInt 25)))
    (fun conversations =>
       match conversations with
       | JList _ => Store.ret (Json conversations 200)
       | _ => Store.ret (Store.error ("No conversations for "
                                      ++ fmt_json repr_container user_id
                                      ++ " were found") 404)
       end)) s.
Proof.
  intros Hready Ha Hid.
  unfold Store.list_conversations.
  unfold Store.bind at 1. unfold Store.in_app, cosmos_db_ready_wait, Store.env.
  rewrite Hready. cbn [ret]. rewrite Ha.
  rewrite (sbind_lift_return _ _ _ _ eq_refl).
  rewrite (sbind_lift_return _ _ _ _ Hid). now destruct s.
Qed.

(** X25. Without a store client the handlers do not fail alike:
    [list_conversations], [get_conversation] and [rename_conversation]
    raise the exception [CosmosDB is not configured or not working] out
    of the handler, while [delete_conversation],
    [delete_all_conversations], [clear_messages] and
    [update_conversation] log it and answer 500 with its text.  None of
    them makes a call. *)
Theorem X25_unconfigured_store_raises_or_answers_500 :
  forall sv repr_container req offset a user_id cid s,
    cosmos_db_ready (Store.base sv) = true ->
    get_authenticated_user_details (Store.base sv) (request_headers req) = Return a ->
    Py.item a "user_principal_id" = Return user_id ->
    Py.get (get_json req) "conversation_id" JNull = Return cid ->
    Py.truthy cid = true ->
    cosmos_conversation_client (Store.base sv) = false ->
    let unconfigured := exception "CosmosDB is not configured or not working" in
    let answer_500 := Return (error_500 "CosmosDB is not configured or not working") in
    Store.list_conversations sv repr_container req offset s = (Raise unconfigured, s) /\
    Store.get_conversation sv repr_container req s = (Raise unconfigured, s) /\
    Store.rename_conversation sv repr_container req s = (Raise unconfigured, s) /\
    Store.delete_conversation sv req s =
      (answer_500, logged s "Exception in /history/delete") /\
    Store.delete_all_conversations sv repr_container req s =
      (answer_500, logged s "Exception in /history/delete_all") /\
    Store.clear_messages sv req s =
      (answer_500, logged s "Exception in /history/clear_messages") /\
    Store.update_conversation sv req s =
      (answer_500, logged s "Exception in /history/update").
Proof.
  intros sv rc req offset a user_id cid s Hready Ha Hid Hget Hcid Hnone unconfigured
    answer_500.
  pose proof (principal_run sv _ a user_id s Hready Ha Hid) as Hprincipal.
  pose proof (require_client_none sv s Hnone) as Hrequire.
  repeat split.
  - rewrite (list_conversations_entered sv rc req offset a user_id s Hready Ha Hid).
    now rewrite (sbind_raise _ _ _ _ _ Hrequire).
  - unfold Store.get_conversation.
    rewrite (sbind_return _ _ _ _ _ Hprincipal). cbv zeta.
    rewrite (sbind_lift_return _ _ _ _ Hget), Hcid. cbn [negb].
    now rewrite (sbind_raise _ _ _ _ _ Hrequire).
  - unfold Store.rename_conversation.
    rewrite (sbind_return _ _ _ _ _ Hprincipal). cbv zeta.
    rewrite (sbind_lift_return _ _ _ _ Hget), Hcid. cbn [negb].
    now rewrite (sbind_raise _ _ _ _ _ Hrequire).
  - unfold Store.delete_conversation.
    rewrite (sbind_return _ _ _ _ _ Hprincipal). cbv zeta.
    rewrite (sbind_lift_return _ _ _ _ Hget), Hcid. cbn [negb].
    erewrite stry_raise; [| now rewrite (sbind_raise _ _ _ _ _ Hrequire)].
    exact (failed_run _ unconfigured s).
  - unfold Store.delete_all_conversations.
    rewrite (sbind_return _ _ _ _ _ Hprincipal).
    erewrite stry_raise; [| now rewrite (sbind_raise _ _ _ _ _ Hrequire)].
    exact (failed_run _ unconfigured s).
  - unfold Store.clear_messages.
    rewrite (sbind_return _ _ _ _ _ Hprincipal). cbv zeta.
    rewrite (sbind_lift_return _ _ _ _ Hget), Hcid. cbn [negb].
    erewrite stry_raise; [| now rewrite (sbind_raise _ _ _ _ _ Hrequire)].
    exact (failed_run _ unconfigured s).
  - rewrite (update_conversation_entered sv req a user_id cid s Hready Ha Hid Hget).
    erewrite stry_raise; [| now rewrite (sbind_raise _ _ _ _ _ Hrequire)].
    exact (failed_run _ unconfigured s).
Qed.

Lemma X25_witness :
  Store.get_conversation DemoStore.no_client (fun _ => "")
    (DemoStore.about [("conversation_id", JStr "conv-1")]) Store.initial_state =
  (Raise (exception "CosmosDB is not configured or not working"), Store.initial_state).
Proof.
  exact (proj1 (proj2 (X25_unconfigured_store_raises_or_answers_500
                  DemoStore.no_client (fun _ => "")
                  (DemoStore.about [("conversation_id", JStr "conv-1")]) (JInt 0)
                  Demo.alice (JStr "alice") (JStr "conv-1") Store.initial_state
                  eq_refl eq_refl eq_refl eq_refl eq_refl eq_refl))).
Defined.

(** ** What the history handlers can ask of the store *)

Section CallsOnly.

Variable P : Store.call -> Prop.

Lemma calls_extend_refl s : calls_extend P s s.
Proof. exists []. split; [now rewrite app_nil_r | constructor]. Qed.

Lemma calls_extend_trans s1 s2 s3 :
  calls_extend P s1 s2 -> calls_extend P s2 s3 -> calls_extend P s1 s3.
Proof.
  intros (c1 & E1 & F1) (c2 & E2 & F2). exists (c1 ++ c2)%list. split.
  - now rewrite E2, E1, app_assoc.
  - now apply Forall_app.
Qed.

Lemma calls_only_run {A} (m : Store.H A) s :
  calls_only P m -> calls_extend P s (snd (m s)).
Proof. intros H. apply H. Qed.

Lemma calls_only_ret {A} (a : A) : calls_only P (Store.ret a).
Proof. intros s. apply calls_extend_refl. Qed.

Lemma calls_only_raise {A} e : calls_only P (@Store.raise A e).
Proof. intros s. apply calls_extend_refl. Qed.

Lemma calls_only_lift {A} (o : outcome A) : calls_only P (Store.lift o).
Proof. intros s. apply calls_extend_refl. Qed.

Lemma calls_only_in_app {A} (m : M A) : calls_only P (Store.in_app m).
Proof.
  intros s. unfold Store.in_app. destruct (m (Store.app s)) as [o w'].
  exists []. split; [cbn; now rewrite app_nil_r | constructor].
Qed.

Lemma calls_only_bind {A B} (m : Store.H A) (k : A -> Store.H B) :
  calls_only P m -> (forall a, calls_only P (k a)) -> calls_only P (Store.bind m k).
Proof.
  intros Hm Hk s. unfold Store.bind. specialize (Hm s).
  destruct (m s) as [[a|e|] s']; cbn [snd] in Hm; [| exact Hm | exact Hm].
  eapply calls_extend_trans; [exact Hm | apply Hk].
Qed.

Lemma calls_only_try {A} (m : Store.H A) h :
  calls_only P m -> (forall e, calls_only P (h e)) -> calls_only P (Store.try_except m h).
Proof.
  intros Hm Hh s. unfold Store.try_except. specialize (Hm s).
  destruct (m s) as [[a|e|] s']; cbn [snd] in Hm; [exact Hm | | exact Hm].
  eapply calls_extend_trans; [exact Hm | apply Hh].
Qed.

Lemma calls_only_ask sv c : P c -> calls_only P (Store.ask sv c).
Proof.
  intros Hc s. unfold Store.ask.
  destruct (cosmos_conversation_client (Store.env sv)).
  - exists [c]. split; [reflexivity | now constructor].
  - apply calls_extend_refl.
Qed.

Lemma calls_only_require sv : calls_only P (Store.require_client sv).
Proof.
  unfold Store.require_client.
  destruct (negb (cosmos_conversation_client (Store.env sv)));
    [apply calls_only_raise | apply calls_only_ret].
Qed.

Lemma calls_only_failed msg e : calls_only P (Store.failed msg e).
Proof.
  unfold Store.failed. apply calls_only_bind; [apply calls_only_in_app | intros _].
  apply calls_only_ret.
Qed.

End CallsOnly.

Ltac owned :=
  let u := fresh "u" in
  let Hu := fresh "Hu" in
  intros u Hu; cbn [call_user] in Hu; congruence.

Ltac calls_step :=
  lazymatch goal with
  | |- calls_only _ (Store.bind _ _) => apply calls_only_bind; [| intros ?]
  | |- calls_only _ (Store.ret _) => apply calls_only_ret
  | |- calls_only _ (Store.raise _) => apply calls_only_raise
  | |- calls_only _ (Store.lift _) => apply calls_only_lift
  | |- calls_only _ (Store.in_app _) => apply calls_only_in_app
  | |- calls_only _ (Store.try_except _ _) => apply calls_only_try; [| intros ?]
  | |- calls_only _ (Store.failed _ _) => apply calls_only_failed
  | |- calls_only _ (Store.require_client _) => apply calls_only_require
  | |- calls_only _ (Store.ask _ _) => apply calls_only_ask
  | |- calls_only _ (if ?b then _ else _) => destruct b
  | |- calls_only _ (match ?x with _ => _ end) => destruct x
  end.

Lemma calls_only_delete_each sv user_id l :
  calls_only (owned_by user_id) (Store.delete_each sv user_id l).
Proof.
  induction l as [|c l IH]; cbn [Store.delete_each].
  - apply calls_only_ret.
  - repeat calls_step; try owned. exact IH.
Qed.

(** X26. Every call a history handler makes to the store for a user
    is made for the principal of the request, whatever the request
    holds and whatever the store answers: no field of the body can
    name another user. *)
Theorem X26_store_is_only_asked_for_the_principal :
  forall sv repr_container req offset a user_id,
    cosmos_db_ready (Store.base sv) = true ->
    get_authenticated_user_details (Store.base sv) (request_headers req) = Return a ->
    Py.item a "user_principal_id" = Return user_id ->
    calls_only (owned_by user_id) (Store.update_conversation sv req) /\
    calls_only (owned_by user_id) (Store.update_message sv repr_container req) /\
    calls_only (owned_by user_id) (Store.delete_conversation sv req) /\
    calls_only (owned_by user_id) (Store.list_conversations sv repr_container req offset) /\
    calls_only (owned_by user_id) (Store.get_conversation sv repr_container req) /\
    calls_only (owned_by user_id) (Store.rename_conversation sv repr_container req) /\
    calls_only (owned_by user_id) (Store.delete_all_conversations sv repr_container req) /\
    calls_only (owned_by user_id) (Store.clear_messages sv req).
Proof.
  intros sv rc req offset a user_id Hready Ha Hid.
  pose proof (fun s => principal_run sv _ a user_id s Hready Ha Hid) as Hprincipal.
  repeat split; intros s.
  - unfold Store.update_conversation.
    rewrite (sbind_return _ _ _ _ _ (Hprincipal s)). cbv zeta.
    apply calls_only_run. repeat calls_step; try owned.
  - unfold Store.update_message.
    rewrite (sbind_return _ _ _ _ _ (Hprincipal s)). cbv zeta.
    apply calls_only_run. repeat calls_step; try owned.
  - unfold Store.delete_conversation.
    rewrite (sbind_return _ _ _ _ _ (Hprincipal s)). cbv zeta.
    apply calls_only_run. repeat calls_step; try owned.
  - rewrite (list_conversations_entered sv rc req offset a user_id s Hready Ha Hid).
    apply calls_only_run. repeat calls_step; try owned.
  - unfold Store.get_conversation.
    rewrite (sbind_return _ _ _ _ _ (Hprincipal s)). cbv zeta.
    apply calls_only_run. repeat calls_step; try owned.
  - unfold Store.rename_conversation.
    rewrite (sbind_return _ _ _ _ _ (Hprincipal s)). cbv zeta.
    apply calls_only_run. repeat calls_step; try owned.
  - unfold Store.delete_all_conversations.
    rewrite (sbind_return _ _ _ _ _ (Hprincipal s)).
    apply calls_only_run. repeat calls_step; try owned.
    apply calls_only_delete_each.
  - unfold Store.clear_messages.
    rewrite (sbind_return _ _ _ _ _ (Hprincipal s)). cbv zeta.
    apply calls_only_run. repeat calls_step; try owned.
Qed.

Lemma X26_witness :
  calls_only (owned_by (JStr "alice"))
    (Store.rename_conversation DemoStore.alice_services (fun _ => "")
       (DemoStore.about [("conversation_id", JStr "conv-1"); ("title", JStr "New title");
                         ("user_id", JStr "bob")])).
Proof.
  exact (proj1 (proj2 (proj2 (proj2 (proj2 (proj2
           (X26_store_is_only_asked_for_the_principal
              DemoStore.alice_services (fun _ => "")
              (DemoStore.about [("conversation_id", JStr "conv-1");
                                ("title", JStr "New title"); ("user_id", JStr "bob")])
              (JInt 0) Demo.alice (JStr "alice") eq_refl eq_refl eq_refl))))))).
Defined.

(** X27. [clear_messages] never deletes the record of a
    conversation: whatever the store answers, the only call it can make
    is [delete_messages] of the conversation the request names, for the
    principal. *)
Theorem X27_clear_messages_keeps_the_conversation :
  forall sv req a user_id cid,
    cosmos_db_ready (Store.base sv) = true ->
    get_authenticated_user_details (Store.base sv) (request_headers req) = Return a ->
    Py.item a "user_principal_id" = Return user_id ->
    Py.get (get_json req) "conversation_id" JNull = Return cid ->
    calls_only (is_delete_messages cid user_id) (Store.clear_messages sv req).
Proof.
  intros sv req a user_id cid Hready Ha Hid Hget s.
  unfold Store.clear_messages.
  rewrite (sbind_return _ _ _ _ _ (principal_run sv _ a user_id s Hready Ha Hid)). cbv zeta.
  rewrite (sbind_lift_return _ _ _ _ Hget).
  apply calls_only_run. repeat calls_step. reflexivity.
Qed.

Lemma X27_witness :
  calls_only (is_delete_messages (JStr "conv-1") (JStr "alice"))
    (Store.clear_messages DemoStore.alice_services
       (DemoStore.about [("conversation_id", JStr "conv-1")])).
Proof.
  exact (X27_clear_messages_keeps_the_conversation
           DemoStore.alice_services (DemoStore.about [("conversation_id", JStr "conv-1")])
           Demo.alice (JStr "alice") (JStr "conv-1") eq_refl eq_refl eq_refl eq_refl).
Defined.

(** X28. An empty list of conversations is a result for
    [list_conversations], which answers 200 with whatever list the
    store returns for the principal (at most 25 from the offset of the
    query), and an error for [delete_all_conversations], which answers
    404 and deletes nothing. *)
Theorem X28_an_empty_list_is_returned_but_not_deleted :
  forall sv repr_container req offset a user_id s,
    cosmos_db_ready (Store.base sv) = true ->
    get_authenticated_user_details (Store.base sv) (request_headers req) = Return a ->
    Py.item a "user_principal_id" = Return user_id ->
    cosmos_conversation_client (Store.base sv) = true ->
    (forall l,
        Store.answer sv (Store.GetConversations user_id offset (JInt 25)) = Return (JList l) ->
        Store.list_conversations sv repr_container req offset s =
        (Return (Json (JList l) 200),
         called s [Store.GetConversations user_id offset (JInt 25)])) /\
    (forall v,
        Store.answer sv (Store.GetConversations user_id (JInt 0) JNull) = Return v ->
        Py.truthy v = false ->
        Store.delete_all_conversations sv repr_container req s =
        (Return (Store.error ("No conversations for " ++ fmt_json repr_container user_id
                              ++ " were found") 404),
         called s [Store.GetConversations user_id (JInt 0) JNull])).
Proof.
  intros sv rc req offset a user_id s Hready Ha Hid Hclient. split.
  - intros l Hl.
    rewrite (list_conversations_entered sv rc req offset a user_id s Hready Ha Hid).
    rewrite (sbind_return _ _ _ _ _ (require_client_ok sv s Hclient)).
    now rewrite (sbind_return _ _ _ (JList l) _
                   (eq_trans (ask_run sv _ s Hclient) (f_equal2 pair Hl eq_refl))).
  - intros v Hv Hfalsy.
    unfold Store.delete_all_conversations.
    rewrite (sbind_return _ _ _ _ _ (principal_run sv _ a user_id s Hready Ha Hid)).
    apply stry_return.
    rewrite (sbind_return _ _ _ _ _ (require_client_ok sv s Hclient)).
    rewrite (sbind_return _ _ _ v _
               (eq_trans (ask_run sv _ s Hclient) (f_equal2 pair Hv eq_refl))).
    now rewrite Hfalsy.
Qed.

Lemma X28_witness :
  Store.delete_all_conversations DemoStore.bob_services (fun _ => "") (DemoStore.about [])
    Store.initial_state =
  (Return (Store.error "No conversations for bob were found" 404),
   Store.mk_state initial_world [Store.GetConversations (JStr "bob") (JInt 0) JNull]).
Proof.
  exact (proj2 (X28_an_empty_list_is_returned_but_not_deleted
                  DemoStore.bob_services (fun _ => "") (DemoStore.about []) (JInt 0)
                  Demo.bob (JStr "bob") Store.initial_state
                  eq_refl eq_refl eq_refl eq_refl)
           (JList []) eq_refl eq_refl).
Defined.
